(** * Verification of the USDT withdrawal agent (src/blockchain.py)

    A shallow embedding of [BlockchainManager].

    - The chain client (web3) is an interface, [ChainClient]: its local
      helpers are functions that may raise, its remote calls act on an
      explicit world state.  The constants of [config] are a second
      interface, [Config].
    - A method is a computation [M A]: from a world it yields an outcome (a
      value, an exception, or the exhaustion of the fuel that bounds the
      polling loop), the world it leaves, and the trace of the calls it made
      on the client, each with its answer.
    - Exceptions are values with a class and a text; every raised object is
      an instance of [Exception], as the errors of the client are.
    - Python floats are IEEE 754 binary64 numbers, taken from the standard
      library's [SpecFloat]; a Python int is a [Z]; a [str] is a string of
      bytes (UTF-8).
    - [time.time()] reads a clock that is part of the world, in seconds, as
      a rational number. *)

From Stdlib Require Import ZArith QArith Qpower Qabs String Ascii List Bool.
From Stdlib Require Import Lia Lqa.
From Stdlib Require Import Floats.SpecFloat.
From Stdlib Require Import DecimalString DecimalN.
Import ListNotations.

Local Open Scope string_scope.
Local Open Scope Z_scope.

(* ===================================================================== *)
(** * Python values: exceptions, results, floats                          *)
(* ===================================================================== *)

(** The exception classes the module distinguishes.  Every raised object is
    an instance of [Exception]; [OtherException] stands for any class that is
    none of the named ones. *)
Inductive exn_class : Type :=
| ContractLogicError
| ValueError
| TransactionNotFound
| OverflowError
| ZeroDivisionError
| OtherException.

(** An exception object: its class and [str(e)]. *)
Record exn : Type := mk_exn { exn_cls : exn_class; exn_str : string }.

(** The result of a call: a value, or a raised exception. *)
Inductive result (A : Type) : Type :=
| Val (a : A)
| Raise (e : exn).
Arguments Val {A} a.
Arguments Raise {A} e.

Definition is_TransactionNotFound (e : exn) : bool :=
  match exn_cls e with TransactionNotFound => true | _ => false end.

Module PyFloat.

(** Python's [float] is binary64. *)
Definition prec : Z := 53.
Definition emax : Z := 1024.
Definition float : Type := spec_float.

(** [float(n)] as the arithmetic operators do it for an [int] operand
    (PyLong_AsDouble): correctly rounded, OverflowError beyond the range. *)
Definition of_int (n : Z) : result float :=
  match binary_normalize prec emax n 0 false with
  | S754_infinity _ =>
      Raise (mk_exn OverflowError "int too large to convert to float")
  | f => Val f
  end.

(** [a / b] on two [int]s: the correctly rounded quotient. *)
Definition int_true_div (a b : Z) : result float :=
  match b, a with
  | Z0, _ => Raise (mk_exn ZeroDivisionError "division by zero")
  | _, Z0 => Val (S754_zero (b <? 0))
  | _, _ =>
      let '(q, e, l) :=
        SFdiv_core_binary prec emax (Z.abs a) 0 (Z.abs b) 0 in
      match binary_round_aux prec emax (xorb (a <? 0) (b <? 0)) q e l with
      | S754_infinity _ =>
          Raise (mk_exn OverflowError
                   "integer division result too large for a float")
      | f => Val f
      end
  end.

(** [x * n] for a float [x] and an int [n]. *)
Definition mul_int (x : float) (n : Z) : result float :=
  match of_int n with
  | Val f => Val (SFmul prec emax x f)
  | Raise e => Raise e
  end.

(** [n * x] for an int [n] and a float [x]. *)
Definition int_mul (n : Z) (x : float) : result float :=
  match of_int n with
  | Val f => Val (SFmul prec emax f x)
  | Raise e => Raise e
  end.

(** [x < y] on floats. *)
Definition ltb (x y : float) : bool := SFltb x y.

(** [int(x)]: truncation toward zero. *)
Definition to_int (x : float) : result Z :=
  match x with
  | S754_nan =>
      Raise (mk_exn ValueError "cannot convert float NaN to integer")
  | S754_infinity _ =>
      Raise (mk_exn OverflowError "cannot convert float infinity to integer")
  | S754_zero _ => Val 0
  | S754_finite s m e =>
      let mag := if 0 <=? e then Zpos m * 2 ^ e else Zpos m / 2 ^ (- e) in
      Val (if s then - mag else mag)
  end.

(** The literal [1.2]. *)
Definition f1_2 : float := S754_finite false 5404319552844595 (-52).

(** The rational a float denotes (0 for the non-finite ones). *)
Definition to_Q (x : float) : Q :=
  match x with
  | S754_finite s m e =>
      let v := if 0 <=? e then inject_Z (Zpos m * 2 ^ e)
               else Zpos m # Z.to_pos (2 ^ (- e)) in
      if s then Qopp v else v
  | _ => 0%Q
  end.

(** [n] has at most 53 significant bits, so that binary64 holds it
    exactly. *)
Definition fits_binary64 (n : Z) : bool :=
  Z.abs n mod 2 ^ Z.max 0 (Z.log2 (Z.abs n) - 52) =? 0.

(** [z] with the sign [s]. *)
Definition cond_neg (s : bool) (z : Z) : Z := if s then - z else z.

Definition is_finite (x : float) : bool :=
  match x with
  | S754_finite _ _ _ | S754_zero _ => true
  | _ => false
  end.

Definition sign_bit (x : float) : bool :=
  match x with
  | S754_finite s _ _ | S754_zero s | S754_infinity s => s
  | S754_nan => false
  end.

(** Nearest integer to [n / d], ties to even ([0 <= n], [0 < d]). *)
Definition round_half_even_div (n d : Z) : Z :=
  let q := n / d in
  match 2 * (n mod d) ?= d with
  | Lt => q
  | Gt => q + 1
  | Eq => if Z.even q then q else q + 1
  end.

(** [|x| * 10^places] rounded to the nearest integer, ties to even. *)
Definition scaled (places : nat) (x : float) : Z :=
  match x with
  | S754_finite _ m e =>
      if 0 <=? e then Zpos m * 2 ^ e * 10 ^ Z.of_nat places
      else round_half_even_div (Zpos m * 10 ^ Z.of_nat places) (2 ^ (- e))
  | _ => 0
  end.

(** The decimal numeral of a natural number. *)
Definition digits (n : Z) : string :=
  NilZero.string_of_uint (N.to_uint (Z.to_N n)).

Definition digit_char (d : Z) : ascii := ascii_of_nat (48 + Z.to_nat d).

(** The last [places] decimal digits of [r], most significant first. *)
Fixpoint frac_digits (places : nat) (r : Z) : string :=
  match places with
  | O => ""
  | S p => String (digit_char ((r / 10 ^ Z.of_nat p) mod 10))
                  (frac_digits p r)
  end.

(** The fixed-point numeral of [q / 10^places]. *)
Definition fixed (places : nat) (q : Z) : string :=
  match places with
  | O => digits q
  | _ => digits (q / 10 ^ Z.of_nat places) ++ "." ++ frac_digits places q
  end.

(** [format(x, ".<places>f")]: correctly rounded fixed-point notation. *)
Definition format_f (places : nat) (x : float) : string :=
  match x with
  | S754_nan => "nan"
  | S754_infinity s => (if s then "-" else "") ++ "inf"
  | _ => (if sign_bit x then "-" else "") ++ fixed places (scaled places x)
  end.

End PyFloat.

(* ===================================================================== *)
(** * The chain client and the configuration                              *)
(* ===================================================================== *)

(** A transaction receipt; only [status] is read (1 = success). *)
Record Receipt : Type := mk_receipt { status : Z }.

(** The dictionary handed to [estimate_gas]. *)
Record gas_query (CallData : Type) : Type :=
  mk_gas_query { gq_from : string; gq_to : string; gq_data : CallData }.
Arguments mk_gas_query {CallData}.

(** The dictionary handed to [build_transaction]. *)
Record tx_params : Type :=
  mk_tx_params { tp_from : string; tp_nonce : Z; tp_gas : Z; tp_gasPrice : Z }.

(** What the module consumes of web3.  Local helpers are functions that may
    raise; remote calls also transform the world.  [time] reads the clock of
    the world and [sleep] lets it run. *)
Class ChainClient : Type := {
  World : Type;
  ContractFunction : Type;
  CallData : Type;
  Transaction : Type;
  SignedTransaction : Type;
  RawTransaction : Type;
  TxHash : Type;
  (* local helpers *)
  w3_is_address : string -> result bool;
  to_checksum_address : string -> result string;
  usdt_transferFrom : string -> string -> Z -> result ContractFunction;
  encode_transaction_data : ContractFunction -> result CallData;
  account_sign_transaction : Transaction -> string -> result SignedTransaction;
  raw_transaction : SignedTransaction -> RawTransaction;
  hex : TxHash -> string;
  (* remote calls *)
  usdt_allowance_call : string -> string -> World -> result Z * World;
  usdt_balanceOf_call : string -> World -> result Z * World;
  eth_gas_price : World -> result Z * World;
  eth_estimate_gas : gas_query CallData -> World -> result Z * World;
  eth_get_transaction_count : string -> World -> result Z * World;
  build_transaction :
    ContractFunction -> tx_params -> World -> result Transaction * World;
  eth_send_raw_transaction : RawTransaction -> World -> result TxHash * World;
  eth_get_transaction_receipt : TxHash -> World -> result Receipt * World;
  (* the clock, in seconds *)
  time : World -> Q;
  sleep : Q -> World -> World
}.

(** The constants imported from [config], and [self.my_address], which
    [__init__] derives from the private key. *)
Class Config : Type := {
  SPENDER_ADDRESS : string;
  USDT_ADDRESS : string;
  PRIVATE_KEY : string;
  DEFAULT_GAS_LIMIT : Z;
  DEFAULT_GAS_PRICE_GWEI : Z;
  USDT_DECIMALS : N;
  my_address : string
}.

(** [to_wei(n, "gwei")] of eth_utils for an integer [n]: [n * 10^9], checked
    against the range of a uint256. *)
Definition to_wei_gwei (n : Z) : result Z :=
  let v := n * 10 ^ 9 in
  if (0 <=? v) && (v <=? 2 ^ 256 - 1) then Val v
  else Raise (mk_exn ValueError
                "Resulting wei value must be between 0 and 2**256 - 1").

(* ===================================================================== *)
(** * Runs: world, trace, exceptions, fuel                                *)
(* ===================================================================== *)

(** How a run ends: it returns, it raises, or the fuel of the polling loop is
    used up. *)
Inductive outcome (A : Type) : Type :=
| Returns (a : A)
| Raises (e : exn)
| OutOfFuel.
Arguments Returns {A} a.
Arguments Raises {A} e.
Arguments OutOfFuel {A}.

Section Model.
Context {client : ChainClient} {config : Config}.

(** One entry of the trace: a call on the client with what it answered. *)
Inductive event : Type :=
| EvAllowance (owner spender : string) (r : result Z)
| EvBalanceOf (owner : string) (r : result Z)
| EvTransactionCount (addr : string) (r : result Z)
| EvEstimateGas (q : gas_query CallData) (r : result Z)
| EvGasPrice (r : result Z)
| EvBuildTransaction (f : ContractFunction) (p : tx_params)
                     (r : result Transaction)
| EvSignTransaction (t : Transaction) (r : result SignedTransaction)
| EvSendRawTransaction (raw : RawTransaction) (r : result TxHash)
| EvGetTransactionReceipt (h : TxHash) (r : result Receipt)
| EvSleep (seconds : Q).

(** A computation: from a world to an outcome, the world it leaves and the
    calls it made, oldest first. *)
Definition M (A : Type) : Type := World -> outcome A * World * list event.

Definition ret {A} (a : A) : M A := fun w => (Returns a, w, []).

Definition bind {A B} (m : M A) (k : A -> M B) : M B :=
  fun w =>
    match m w with
    | (Returns a, w1, t1) =>
        let '(o, w2, t2) := k a w1 in (o, w2, (t1 ++ t2)%list)
    | (Raises e, w1, t1) => (Raises e, w1, t1)
    | (OutOfFuel, w1, t1) => (OutOfFuel, w1, t1)
    end.

Definition out_of_fuel {A} : M A := fun w => (OutOfFuel, w, []).

(** A local helper: no world, no trace. *)
Definition lift {A} (r : result A) : M A :=
  fun w => match r with
           | Val a => (Returns a, w, [])
           | Raise e => (Raises e, w, [])
           end.

(** A call that is recorded: [ev] builds the trace entry from the answer. *)
Definition call {A} (op : World -> result A * World)
           (ev : result A -> event) : M A :=
  fun w =>
    let '(r, w1) := op w in
    match r with
    | Val a => (Returns a, w1, [ev r])
    | Raise e => (Raises e, w1, [ev r])
    end.

(** [try: body  except <classes>: handler]; [handler e = None] when no
    clause matches the class of [e], which then propagates. *)
Definition try_except {A} (body : M A) (handler : exn -> option (M A))
  : M A :=
  fun w =>
    match body w with
    | (Raises e, w1, t1) =>
        match handler e with
        | Some h => let '(o, w2, t2) := h w1 in (o, w2, (t1 ++ t2)%list)
        | None => (Raises e, w1, t1)
        end
    | r => r
    end.

(** [except Exception as e: handler]. *)
Definition except_Exception {A} (handler : exn -> M A)
  : exn -> option (M A) := fun e => Some (handler e).

End Model.

Declare Scope py_scope.
Delimit Scope py_scope with py.
Notation "x <- m ;; k" := (bind m (fun x => k))
  (at level 61, m at next level, right associativity) : py_scope.
Notation "m ;;; k" := (bind m (fun _ => k))
  (at level 61, right associativity) : py_scope.

(* ===================================================================== *)
(** * BlockchainManager                                                   *)
(* ===================================================================== *)

Definition Qltb (x y : Q) : bool := negb (Qle_bool y x).

(** The line feed of the success message. *)
Definition nl : string := String "010" EmptyString.

Section BlockchainManager.
Context {client : ChainClient} {config : Config}.
Local Open Scope py_scope.

(** [time.time()] and [time.sleep(seconds)]. *)
Definition time_time : M Q := fun w => (Returns (time w), w, []).
Definition time_sleep (seconds : Q) : M unit :=
  fun w => (Returns tt, sleep seconds w, [EvSleep seconds]).

Definition validate_address (address : string) : M bool :=
  try_except
    (lift (w3_is_address address))
    (except_Exception (fun _ => ret false)).

Definition get_usdt_balance (address : string) : M (option PyFloat.float) :=
  try_except
    (checksum_address <- lift (to_checksum_address address) ;;
     balance_wei <- call (usdt_balanceOf_call checksum_address)
                         (EvBalanceOf checksum_address) ;;
     balance_usdt <- lift (PyFloat.int_true_div balance_wei
                             (10 ^ Z.of_N USDT_DECIMALS)) ;;
     ret (Some balance_usdt))
    (except_Exception (fun _ => ret None)).

Definition get_allowance (owner : string) (spender : option string)
  : M (option PyFloat.float) :=
  try_except
    (let spender :=
       match spender with None => SPENDER_ADDRESS | Some s => s end in
     checksum_owner <- lift (to_checksum_address owner) ;;
     checksum_spender <- lift (to_checksum_address spender) ;;
     allowance_wei <-
       call (usdt_allowance_call checksum_owner checksum_spender)
            (EvAllowance checksum_owner checksum_spender) ;;
     allowance_usdt <- lift (PyFloat.int_true_div allowance_wei
                               (10 ^ Z.of_N USDT_DECIMALS)) ;;
     ret (Some allowance_usdt))
    (except_Exception (fun _ => ret None)).

Definition get_gas_price : M Z :=
  try_except
    (current_gas_price <- call eth_gas_price EvGasPrice ;;
     scaled <- lift (PyFloat.int_mul current_gas_price PyFloat.f1_2) ;;
     lift (PyFloat.to_int scaled))
    (except_Exception
       (fun _ => lift (to_wei_gwei DEFAULT_GAS_PRICE_GWEI))).

Definition estimate_gas (transaction : gas_query CallData) : M Z :=
  try_except
    (estimated <- call (eth_estimate_gas transaction)
                       (EvEstimateGas transaction) ;;
     scaled <- lift (PyFloat.int_mul estimated PyFloat.f1_2) ;;
     lift (PyFloat.to_int scaled))
    (except_Exception (fun _ => ret DEFAULT_GAS_LIMIT)).

(** The [while] loop of [wait_for_transaction]; one unit of fuel per
    evaluation of its condition. *)
Fixpoint poll (fuel : nat) (tx_hash : TxHash) (start_time timeout : Q)
  : M (option Receipt) :=
  match fuel with
  | O => out_of_fuel
  | S fuel' =>
      now <- time_time ;;
      if Qltb (now - start_time) timeout then
        try_except
          (receipt <- call (eth_get_transaction_receipt tx_hash)
                           (EvGetTransactionReceipt tx_hash) ;;
           ret (Some receipt))
          (fun e =>
             if is_TransactionNotFound e then
               Some (time_sleep 2 ;;; poll fuel' tx_hash start_time timeout)
             else None)
      else ret None
  end.

Definition wait_for_transaction (fuel : nat) (tx_hash : TxHash)
           (timeout : Q) : M (option Receipt) :=
  try_except
    (start_time <- time_time ;;
     poll fuel tx_hash start_time timeout)
    (except_Exception (fun _ => ret None)).

Definition default_timeout : Q := 120.

(** [int(amount_usdt * (10 ** USDT_DECIMALS))]. *)
Definition to_base_units (amount_usdt : PyFloat.float) : result Z :=
  match PyFloat.mul_int amount_usdt (10 ^ Z.of_N USDT_DECIMALS) with
  | Val scaled => PyFloat.to_int scaled
  | Raise e => Raise e
  end.

Definition msg_success (amount_usdt : PyFloat.float) (tx_hash : TxHash)
  : string :=
  let tx_hash_hex := hex tx_hash in
  let bsc_link := "https://bscscan.com/tx/" ++ tx_hash_hex in
  "✅ Successfully withdrawn " ++ PyFloat.format_f 6 amount_usdt ++ " USDT"
    ++ nl ++ "🔗 Transaction: " ++ bsc_link.

(** The [try] block of [withdraw_usdt]. *)
Definition withdraw_usdt_body (fuel : nat) (from_wallet : string)
           (amount_usdt : PyFloat.float) : M (bool * string) :=
  valid <- validate_address from_wallet ;;
  if negb valid then ret (false, "Invalid wallet address") else
  from_wallet <- lift (to_checksum_address from_wallet) ;;
  amount_wei <- lift (to_base_units amount_usdt) ;;
  allowance <- get_allowance from_wallet None ;;
  match allowance with
  | None => ret (false, "Failed to check allowance")
  | Some allowance =>
  if PyFloat.ltb allowance amount_usdt then
    ret (false, "Insufficient allowance. Available: "
                  ++ PyFloat.format_f 6 allowance ++ " USDT")
  else
  balance <- get_usdt_balance from_wallet ;;
  match balance with
  | None => ret (false, "Failed to check wallet balance")
  | Some balance =>
  if PyFloat.ltb balance amount_usdt then
    ret (false, "Insufficient balance. Available: "
                  ++ PyFloat.format_f 6 balance ++ " USDT")
  else
  nonce <- call (eth_get_transaction_count my_address)
                (EvTransactionCount my_address) ;;
  transfer <- lift (usdt_transferFrom from_wallet my_address amount_wei) ;;
  transfer' <- lift (usdt_transferFrom from_wallet my_address amount_wei) ;;
  data <- lift (encode_transaction_data transfer') ;;
  gas <- estimate_gas (mk_gas_query my_address USDT_ADDRESS data) ;;
  gasPrice <- get_gas_price ;;
  let params := mk_tx_params my_address nonce gas gasPrice in
  transaction <- call (build_transaction transfer params)
                      (EvBuildTransaction transfer params) ;;
  signed_txn <-
    call (fun w => (account_sign_transaction transaction PRIVATE_KEY, w))
         (EvSignTransaction transaction) ;;
  tx_hash <- call (eth_send_raw_transaction (raw_transaction signed_txn))
                  (EvSendRawTransaction (raw_transaction signed_txn)) ;;
  tx_receipt <- wait_for_transaction fuel tx_hash default_timeout ;;
  match tx_receipt with
  | Some receipt =>
      if status receipt =? 1 then ret (true, msg_success amount_usdt tx_hash)
      else ret (false, "Transaction failed or was reverted")
  | None => ret (false, "Transaction failed or was reverted")
  end
  end
  end.

(** The three [except] clauses of [withdraw_usdt], in order. *)
Definition withdraw_handler (e : exn) : option (M (bool * string)) :=
  Some (ret (false,
             match exn_cls e with
             | ContractLogicError => "Smart contract error: " ++ exn_str e
             | ValueError => "Transaction error: " ++ exn_str e
             | _ => "Unexpected error: " ++ exn_str e
             end)).

Definition withdraw_usdt (fuel : nat) (from_wallet : string)
           (amount_usdt : PyFloat.float) : M (bool * string) :=
  try_except (withdraw_usdt_body fuel from_wallet amount_usdt)
             withdraw_handler.

End BlockchainManager.

(* ===================================================================== *)
(** * Observations on traces and messages                                 *)
(* ===================================================================== *)

Section Observations.
Context {client : ChainClient}.

Definition is_build (ev : event) : bool :=
  match ev with EvBuildTransaction _ _ _ => true | _ => false end.
Definition is_sign (ev : event) : bool :=
  match ev with EvSignTransaction _ _ => true | _ => false end.
Definition is_broadcast (ev : event) : bool :=
  match ev with EvSendRawTransaction _ _ => true | _ => false end.

(** The number of broadcast attempts of a run. *)
Definition broadcasts (tr : list event) : nat :=
  List.length (List.filter is_broadcast tr).

(** A step of the polling loop that leaves the transaction pending: a
    lookup answered "not found", or the pause after it. *)
Definition pending_step (ev : event) : bool :=
  match ev with
  | EvGetTransactionReceipt _ (Raise e) => is_TransactionNotFound e
  | EvSleep _ => true
  | _ => false
  end.

(** A step whose failure is a failure of the withdrawal: a read, the
    building, the signing, the broadcast, or a receipt lookup that raises
    anything but "not found".  The two fee queries are not among them: the
    fee estimator falls back to its defaults. *)
Definition failed_step (ev : event) : bool :=
  match ev with
  | EvAllowance _ _ (Raise _) | EvBalanceOf _ (Raise _)
  | EvTransactionCount _ (Raise _) | EvBuildTransaction _ _ (Raise _)
  | EvSignTransaction _ (Raise _) | EvSendRawTransaction _ (Raise _) => true
  | EvGetTransactionReceipt _ (Raise e) => negb (is_TransactionNotFound e)
  | _ => false
  end.

(** How the polling loop can end: the time is up, the fuel is used up, a
    receipt is found, or a lookup fails for another reason than "not
    found". *)
Inductive poll_end (h : TxHash) (elapsed timeout : Q)
  : outcome (option Receipt) -> list event -> Prop :=
| pe_timeout :
    (timeout <= elapsed)%Q -> poll_end h elapsed timeout (Returns None) []
| pe_fuel : poll_end h elapsed timeout OutOfFuel []
| pe_found r :
    poll_end h elapsed timeout (Returns (Some r))
             [EvGetTransactionReceipt h (Val r)]
| pe_error e :
    is_TransactionNotFound e = false ->
    poll_end h elapsed timeout (Raises e)
             [EvGetTransactionReceipt h (Raise e)].

(** What the outer [except Exception: return None] of
    [wait_for_transaction] makes of the outcome of the loop. *)
Definition swallow (o : outcome (option Receipt))
  : outcome (option Receipt) :=
  match o with Raises _ => Returns None | _ => o end.

(** The calls the poller makes. *)
Definition poll_event (ev : event) : bool :=
  match ev with
  | EvGetTransactionReceipt _ _ | EvSleep _ => true
  | _ => false
  end.

(** [wp m w Q]: the run of [m] from [w] ends in an outcome, a world and a
    trace that satisfy [Q]. *)
Definition wp {A} (m : M A) (w : World)
           (Q : outcome A -> World -> list event -> Prop) : Prop :=
  let '(o, w', t) := m w in Q o w' t.

(** The clock never runs backwards over a receipt lookup, and a pause of
    [d] seconds lasts at least [d] seconds. *)
Definition clock_advances : Prop :=
  (forall h w, (time w <= time (snd (eth_get_transaction_receipt h w)))%Q)
  /\ (forall d w, (time w + d <= time (sleep d w))%Q).

End Observations.

(** [prefixb p s]: [s] starts with [p]. *)
Fixpoint prefixb (p s : string) : bool :=
  match p, s with
  | EmptyString, _ => true
  | String a p', String b s' => Ascii.eqb a b && prefixb p' s'
  | String _ _, EmptyString => false
  end.

(** [contains sub s]: [sub] occurs in [s]. *)
Fixpoint contains (sub s : string) : bool :=
  prefixb sub s ||
  match s with
  | EmptyString => false
  | String _ s' => contains sub s'
  end.

(** [s] without its first [n] characters, and its first [n] characters. *)
Fixpoint drop (n : nat) (s : string) : string :=
  match n, s with
  | O, _ => s
  | S n', String _ s' => drop n' s'
  | S _, EmptyString => EmptyString
  end.

Fixpoint take (n : nat) (s : string) : string :=
  match n, s with
  | O, _ => EmptyString
  | S n', String c s' => String c (take n' s')
  | S _, EmptyString => EmptyString
  end.

(** [s] cut at its first full stop. *)
Fixpoint split_dot (s : string) : option (string * string) :=
  match s with
  | EmptyString => None
  | String c s' =>
      if Ascii.eqb c "." then Some (EmptyString, s')
      else match split_dot s' with
           | Some (a, b) => Some (String c a, b)
           | None => None
           end
  end.

Definition digit_of_char (c : ascii) : option Z :=
  let n := Z.of_nat (nat_of_ascii c) in
  if (48 <=? n) && (n <=? 57) then Some (n - 48) else None.

(** The number a string of decimal digits denotes, continuing from [acc]. *)
Fixpoint digits_value (acc : Z) (s : string) : option Z :=
  match s with
  | EmptyString => Some acc
  | String c s' =>
      match digit_of_char c with
      | Some d => digits_value (acc * 10 + d) s'
      | None => None
      end
  end.

(** The number a message of the form [<label><numeral> USDT] embeds, in
    millionths, for an unsigned numeral with six fractional digits. *)
Definition embedded_millionths (label msg : string) : option Z :=
  if prefixb label msg then
    match split_dot (drop (String.length label) msg) with
    | Some (ip, rest) =>
        if (drop 6 rest =? " USDT")%string then
          match NilZero.uint_of_string ip, digits_value 0 (take 6 rest) with
          | Some i, Some f => Some (Z.of_N (N.of_uint i) * 10 ^ 6 + f)
          | _, _ => None
          end
        else None
    | None => None
    end
  else None.

(* ===================================================================== *)
(** * A scripted client, for concrete runs                                *)
(* ===================================================================== *)

(** The answers of a scripted chain: one per kind of call, and for the
    receipt lookups one per attempt; once the list is used up the lookup
    answers "not found". *)
Record script : Type := mk_script {
  sc_valid : result bool;
  sc_allowance : result Z;
  sc_balance : result Z;
  sc_nonce : result Z;
  sc_estimate : result Z;
  sc_gas_price : result Z;
  sc_send : result string;
  sc_receipts : list (result Receipt)
}.

Definition not_found : exn :=
  mk_exn TransactionNotFound "Transaction with hash not found".

(** The world of a scripted chain: the clock and the number of receipt
    lookups made so far. *)
Definition scripted (sc : script) : ChainClient := {|
  World := Q * nat;
  ContractFunction := string * string * Z;
  CallData := string;
  Transaction := tx_params;
  SignedTransaction := string;
  RawTransaction := string;
  TxHash := string;
  w3_is_address := fun _ => sc_valid sc;
  to_checksum_address := fun a => Val a;
  usdt_transferFrom := fun a b n => Val (a, b, n);
  encode_transaction_data := fun _ => Val "0x23b872dd";
  account_sign_transaction := fun _ _ => Val "signed";
  raw_transaction := fun s => s;
  hex := fun h => h;
  usdt_allowance_call := fun _ _ w => (sc_allowance sc, w);
  usdt_balanceOf_call := fun _ w => (sc_balance sc, w);
  eth_gas_price := fun w => (sc_gas_price sc, w);
  eth_estimate_gas := fun _ w => (sc_estimate sc, w);
  eth_get_transaction_count := fun _ w => (sc_nonce sc, w);
  build_transaction := fun _ p w => (Val p, w);
  eth_send_raw_transaction := fun _ w => (sc_send sc, w);
  eth_get_transaction_receipt :=
    fun _ w => (nth (snd w) (sc_receipts sc) (Raise not_found),
                (fst w, S (snd w)));
  time := fun w => fst w;
  sleep := fun d w => ((fst w + d)%Q, snd w)
|}.

(** A configuration for the token on BSC (18 decimals). *)
Definition bsc_config : Config := {|
  SPENDER_ADDRESS := "0xSpender";
  USDT_ADDRESS := "0x55d398326f99059fF775485246999027B3197955";
  PRIVATE_KEY := "key";
  DEFAULT_GAS_LIMIT := 100000;
  DEFAULT_GAS_PRICE_GWEI := 5;
  USDT_DECIMALS := 18;
  my_address := "0xAgent"
|}.

(** The same with a six-decimal token. *)
Definition six_config : Config := {|
  SPENDER_ADDRESS := "0xSpender";
  USDT_ADDRESS := "0xToken";
  PRIVATE_KEY := "key";
  DEFAULT_GAS_LIMIT := 100000;
  DEFAULT_GAS_PRICE_GWEI := 5;
  USDT_DECIMALS := 6;
  my_address := "0xAgent"
|}.

(** A chain on which everything succeeds: allowance 500 and balance 1000
    tokens of 18 decimals, receipt with status 1 at the third lookup. *)
Definition happy : script := {|
  sc_valid := Val true;
  sc_allowance := Val (500 * 10 ^ 18);
  sc_balance := Val (1000 * 10 ^ 18);
  sc_nonce := Val 7;
  sc_estimate := Val 50000;
  sc_gas_price := Val 5000000000;
  sc_send := Val "abc";
  sc_receipts := [Raise not_found; Raise not_found; Val (mk_receipt 1)]
|}.

(** The same chain with another script of receipts. *)
Definition with_receipts (rs : list (result Receipt)) : script :=
  mk_script (sc_valid happy) (sc_allowance happy) (sc_balance happy)
            (sc_nonce happy) (sc_estimate happy) (sc_gas_price happy)
            (sc_send happy) rs.

(** No receipt ever shows up; the receipt shows a revert; the lookup breaks
    down. *)
Definition timeout_chain : script := with_receipts [].
Definition revert_chain : script := with_receipts [Val (mk_receipt 0)].
Definition broken_chain : script :=
  with_receipts [Raise not_found;
                 Raise (mk_exn OtherException "connection reset")].

(** The node rejects the raw transaction. *)
Definition rejecting_chain : script :=
  mk_script (sc_valid happy) (sc_allowance happy) (sc_balance happy)
            (sc_nonce happy) (sc_estimate happy) (sc_gas_price happy)
            (Raise (mk_exn ValueError "nonce too low")) [].

(** The validation rejects the address. *)
Definition invalid_chain : script :=
  mk_script (Val false) (sc_allowance happy) (sc_balance happy)
            (sc_nonce happy) (sc_estimate happy) (sc_gas_price happy)
            (sc_send happy) [].

(** An allowance of one base unit; a balance of one base unit under an
    allowance of one token. *)
Definition dust_allowance_chain : script :=
  mk_script (sc_valid happy) (Val 1) (sc_balance happy)
            (sc_nonce happy) (sc_estimate happy) (sc_gas_price happy)
            (sc_send happy) [].
Definition dust_balance_chain : script :=
  mk_script (sc_valid happy) (Val (10 ^ 18)) (Val 1)
            (sc_nonce happy) (sc_estimate happy) (sc_gas_price happy)
            (sc_send happy) [].

(** The gas price is 10^16 + 5 wei; the gas price cannot be read. *)
Definition dear_gas_chain : script :=
  mk_script (sc_valid happy) (sc_allowance happy) (sc_balance happy)
            (sc_nonce happy) (sc_estimate happy) (Val (10 ^ 16 + 5))
            (sc_send happy) [].
Definition no_gas_price_chain : script :=
  mk_script (sc_valid happy) (sc_allowance happy) (sc_balance happy)
            (sc_nonce happy) (sc_estimate happy)
            (Raise (mk_exn OtherException "rpc unavailable"))
            (sc_send happy) [].

(** The floats 200.0, 2363.0, 1.0 and 0.5, and 1e-18 as [1 / 10**18]
    yields it. *)
Definition f200 : PyFloat.float := S754_finite false 7036874417766400 (-45).
Definition f2363 : PyFloat.float := S754_finite false 5196291952869376 (-41).
Definition f1 : PyFloat.float := S754_finite false 4503599627370496 (-52).
Definition f0_5 : PyFloat.float := S754_finite false 4503599627370496 (-53).
Definition f1e_18 : PyFloat.float :=
  S754_finite false 5192296858534828 (-112).

Definition w0 : Q * nat := (0%Q, O).

(* ===================================================================== *)
(** * Further observations: fees, order of calls, rounding                *)
(* ===================================================================== *)

(** [int(n * 1.2)], the expression of both fee estimators. *)
Definition int_times_1_2 (n : Z) : result Z :=
  match PyFloat.int_mul n PyFloat.f1_2 with
  | Val scaled => PyFloat.to_int scaled
  | Raise e => Raise e
  end.

Section FeeObservations.
Context {config : Config}.

(** What [estimate_gas] makes of the answer of the node. *)
Definition gas_limit_of (r : result Z) : Z :=
  match r with
  | Val estimated =>
      match int_times_1_2 estimated with
      | Val gas => gas
      | Raise _ => DEFAULT_GAS_LIMIT
      end
  | Raise _ => DEFAULT_GAS_LIMIT
  end.

(** What [get_gas_price] makes of the answer of the node. *)
Definition gas_price_of (r : result Z) : result Z :=
  match r with
  | Val current_gas_price =>
      match int_times_1_2 current_gas_price with
      | Val price => Val price
      | Raise _ => to_wei_gwei DEFAULT_GAS_PRICE_GWEI
      end
  | Raise _ => to_wei_gwei DEFAULT_GAS_PRICE_GWEI
  end.

End FeeObservations.

Section TraceObservations.
Context {client : ChainClient}.

(** The place of a call in the sequence of a withdrawal; the calls of the
    poller share the last place. *)
Definition step_index (ev : event) : nat :=
  match ev with
  | EvAllowance _ _ _ => 0
  | EvBalanceOf _ _ => 1
  | EvTransactionCount _ _ => 2
  | EvEstimateGas _ _ => 3
  | EvGasPrice _ => 4
  | EvBuildTransaction _ _ _ => 5
  | EvSignTransaction _ _ => 6
  | EvSendRawTransaction _ _ => 7
  | EvGetTransactionReceipt _ _ | EvSleep _ => 8
  end.

Definition is_lookup (ev : event) : bool :=
  match ev with EvGetTransactionReceipt _ _ => true | _ => false end.

(** The number of receipt lookups of a run. *)
Definition lookups (tr : list event) : nat :=
  List.length (List.filter is_lookup tr).

(** The calls of one round of the loop that finds nothing. *)
Definition pending_round (h : TxHash) (e : exn) : list event :=
  [EvGetTransactionReceipt h (Raise e); EvSleep 2].

End TraceObservations.

(** The shifter's record of the fraction [N / Dn]: its integer part, whether
    the rest reaches one half, and whether the rest is neither nothing nor
    one half. *)
Definition rec_of (N Dn : Z) : shr_record :=
  Build_shr_record (N / Dn) (Dn <=? 2 * (N mod Dn))
                   (negb ((2 * (N mod Dn)) mod Dn =? 0)).

(* ===================================================================== *)
(** * The constructor                                                     *)
(* ===================================================================== *)

(** What [__init__] consumes of web3 and of [config]: the constructor of
    the client for a node, the connection test (a remote call, on the
    state of the network), the account of a key, and the contract object
    of an address and an ABI. *)
Class Provider : Type := {
  Network : Type;
  Web3 : Type;
  Account : Type;
  Contract : Type;
  Abi : Type;
  BSC_RPC : string;
  ERC20_ABI : Abi;
  Web3_HTTPProvider : string -> result Web3;
  is_connected : Web3 -> Network -> result bool * Network;
  account_from_key : Web3 -> string -> result Account;
  account_address : Account -> string;
  eth_contract : Web3 -> string -> Abi -> result Contract
}.

Section Constructor.
Context {provider : Provider} {config : Config}.

(** The attributes [__init__] sets. *)
Record manager : Type := mk_manager {
  self_w3 : Web3;
  self_account : Account;
  self_my_address : string;
  self_usdt_contract : Contract
}.

(** The steps of [__init__] that reach the provider. *)
Inductive init_step : Type :=
| StepProvider (url : string)
| StepIsConnected
| StepFromKey (key : string)
| StepContract (address : string).

(** [BlockchainManager.__init__].  The handler logs and raises again, so an
    exception of the [try] block is the exception of the constructor; the
    ConnectionError of the source is of none of the classes that
    [withdraw_usdt] tells apart, hence an [OtherException]. *)
Definition init (net : Network)
  : result manager * Network * list init_step :=
  match Web3_HTTPProvider BSC_RPC with
  | Raise e => (Raise e, net, [StepProvider BSC_RPC])
  | Val w3 =>
      let '(connected, net1) := is_connected w3 net in
      match connected with
      | Raise e => (Raise e, net1, [StepProvider BSC_RPC; StepIsConnected])
      | Val false =>
          (Raise (mk_exn OtherException "Failed to connect to BSC network"),
           net1, [StepProvider BSC_RPC; StepIsConnected])
      | Val true =>
          match account_from_key w3 PRIVATE_KEY with
          | Raise e =>
              (Raise e, net1,
               [StepProvider BSC_RPC; StepIsConnected; StepFromKey PRIVATE_KEY])
          | Val account =>
              let my_address := account_address account in
              match eth_contract w3 USDT_ADDRESS ERC20_ABI with
              | Raise e =>
                  (Raise e, net1,
                   [StepProvider BSC_RPC; StepIsConnected;
                    StepFromKey PRIVATE_KEY; StepContract USDT_ADDRESS])
              | Val usdt_contract =>
                  (Val (mk_manager w3 account my_address usdt_contract), net1,
                   [StepProvider BSC_RPC; StepIsConnected;
                    StepFromKey PRIVATE_KEY; StepContract USDT_ADDRESS])
              end
          end
      end
  end.

End Constructor.

(* ===================================================================== *)
(** * More scripted chains, and a scripted provider                       *)
(* ===================================================================== *)

(** The allowance cannot be read; the balance cannot be read. *)
Definition no_allowance_chain : script :=
  mk_script (sc_valid happy)
            (Raise (mk_exn ContractLogicError "execution reverted"))
            (sc_balance happy) (sc_nonce happy) (sc_estimate happy)
            (sc_gas_price happy) (sc_send happy) [].
Definition no_balance_chain : script :=
  mk_script (sc_valid happy) (sc_allowance happy)
            (Raise (mk_exn OtherException "rpc unavailable"))
            (sc_nonce happy) (sc_estimate happy) (sc_gas_price happy)
            (sc_send happy) [].

(** An allowance, and a balance, one base unit short of 200 tokens. *)
Definition short_allowance_chain : script :=
  mk_script (sc_valid happy) (Val (200 * 10 ^ 18 - 1)) (sc_balance happy)
            (sc_nonce happy) (sc_estimate happy) (sc_gas_price happy)
            (sc_send happy) (sc_receipts happy).
Definition short_balance_chain : script :=
  mk_script (sc_valid happy) (sc_allowance happy) (Val (200 * 10 ^ 18 - 1))
            (sc_nonce happy) (sc_estimate happy) (sc_gas_price happy)
            (sc_send happy) (sc_receipts happy).

(** The float 0.0. *)
Definition f0 : PyFloat.float := S754_zero false.

(** The query [estimate_gas] receives in a withdrawal on a scripted
    chain. *)
Definition transfer_query : gas_query string :=
  mk_gas_query "0xAgent" "0x55d398326f99059fF775485246999027B3197955"
               "0x23b872dd".

(** A provider whose node answers the connection test with [connected]. *)
Definition scripted_provider (connected : result bool) : Provider := {|
  Network := nat;
  Web3 := string;
  Account := string;
  Contract := string;
  Abi := list string;
  BSC_RPC := "https://bsc-dataseed.binance.org/";
  ERC20_ABI := ["allowance"; "balanceOf"; "transferFrom"];
  Web3_HTTPProvider := fun url => Val url;
  is_connected := fun _ n => (connected, S n);
  account_from_key := fun _ key => Val ("account:" ++ key);
  account_address := fun _ => "0xAgent";
  eth_contract := fun _ address _ => Val address
|}.

(* ===================================================================== *)
(** * The model computes                                                  *)
(* ===================================================================== *)

(** The literal [1.2] is the float nearest to 6/5, and the floats named
    above are what their names say. *)
Example literal_1_2 : PyFloat.int_true_div 6 5 = Val PyFloat.f1_2.
Proof. reflexivity. Qed.

Example float_200 : PyFloat.of_int 200 = Val f200.
Proof. reflexivity. Qed.

Example float_2363 : PyFloat.of_int 2363 = Val f2363.
Proof. reflexivity. Qed.

Example float_1 : PyFloat.of_int 1 = Val f1.
Proof. reflexivity. Qed.

Example float_0_5 : PyFloat.int_true_div 1 2 = Val f0_5.
Proof. reflexivity. Qed.

Example float_1e_18 : PyFloat.int_true_div 1 (10 ^ 18) = Val f1e_18.
Proof. reflexivity. Qed.

(** [int(0.29 * 100)] is 28. *)
Example int_0_29_times_100 :
  match PyFloat.int_true_div 29 100 with
  | Val x => match PyFloat.mul_int x 100 with
             | Val y => PyFloat.to_int y
             | Raise e => Raise e
             end
  | Raise e => Raise e
  end = Val 28.
Proof. reflexivity. Qed.

(** Allowance 500, balance 1000, a request of 200.0, a receipt of status 1
    at the third lookup: 200 × 10^18 base units are transferred and the
    withdrawal succeeds after two pauses. *)
Example successful_withdrawal :
  let run := @withdraw_usdt (scripted happy) bsc_config 61 "0xW" f200 w0 in
  fst (fst run)
  = Returns (true,
             ("✅ Successfully withdrawn 200.000000 USDT" ++ nl
                ++ "🔗 Transaction: https://bscscan.com/tx/abc")%string)
  /\ snd (fst run) = (4%Q, 3%nat)
  /\ nth 5 (snd run) (EvSleep 0)
     = @EvBuildTransaction (scripted happy)
                           ("0xW", "0xAgent", 200 * 10 ^ 18)
                           (mk_tx_params "0xAgent" 7 60000 6000000000)
                           (Val (mk_tx_params "0xAgent" 7 60000 6000000000)).
Proof. vm_compute. repeat split. Qed.

(** With a token of six decimals an allowance of one base unit is printed
    as it is. *)
Example six_decimals_dust :
  fst (fst (@withdraw_usdt (scripted dust_allowance_chain) six_config 61
                           "0xW" f1 w0))
  = Returns (false, "Insufficient allowance. Available: 0.000001 USDT").
Proof. vm_compute. reflexivity. Qed.

(* ===================================================================== *)
(** * Reasoning about runs                                                *)
(* ===================================================================== *)

Section Poller.
Context {client : ChainClient} {config : Config}.

Lemma Qltb_false x y : Qltb x y = false -> (y <= x)%Q.
Proof.
  unfold Qltb. intros H. apply negb_false_iff in H.
  apply Qle_bool_iff. exact H.
Qed.

Lemma Qltb_true x y : Qltb x y = true -> (x < y)%Q.
Proof.
  unfold Qltb. intros H. apply negb_true_iff in H.
  apply Qnot_le_lt. intros Hle. apply Qle_bool_iff in Hle. congruence.
Qed.

(** The loop polls while the transaction is pending and then ends in one
    of the four ways of [poll_end]. *)
Lemma poll_spec fuel h st tmo : forall w o w' tr,
  poll fuel h st tmo w = (o, w', tr) ->
  exists pre last,
    tr = (pre ++ last)%list /\ forallb pending_step pre = true
    /\ poll_end h (time w' - st) tmo o last.
Proof.
  induction fuel as [|fuel IH]; intros w o w' tr H.
  - cbv [poll out_of_fuel] in H. inversion H; subst.
    exists [], []. repeat split; constructor.
  - cbn [poll] in H. cbv [bind time_time] in H.
    destruct (Qltb (time w - st) tmo) eqn:Ht.
    + cbv [try_except bind call ret] in H.
      destruct (eth_get_transaction_receipt h w) as [[r|e] w1].
      * inversion H; subst. exists [], [EvGetTransactionReceipt h (Val r)].
        repeat split; constructor.
      * destruct (is_TransactionNotFound e) eqn:He.
        -- cbv [time_sleep] in H.
           destruct (poll fuel h st tmo (sleep 2 w1)) as [[o2 w2] t2] eqn:Hp.
           apply IH in Hp. destruct Hp as (pre & last & -> & Hpre & Hend).
           exists (EvGetTransactionReceipt h (Raise e) :: EvSleep 2 :: pre),
                  last.
           destruct o2; inversion H; subst; cbn; rewrite He, Hpre; auto.
        -- inversion H; subst.
           exists [], [EvGetTransactionReceipt h (Raise e)].
           repeat split; constructor; assumption.
    + cbv [ret] in H. inversion H; subst. exists [], [].
      repeat split. constructor. apply Qltb_false. exact Ht.
Qed.

(** [wait_for_transaction] is the loop with its exceptions swallowed. *)
Lemma wait_spec fuel h tmo w o w' tr :
  wait_for_transaction fuel h tmo w = (o, w', tr) ->
  exists pre last o',
    tr = (pre ++ last)%list /\ forallb pending_step pre = true
    /\ poll_end h (time w' - time w) tmo o' last /\ o = swallow o'.
Proof.
  unfold wait_for_transaction.
  cbv [try_except bind time_time except_Exception ret].
  destruct (poll fuel h (time w) tmo w) as [[o1 w1] t1] eqn:Hp.
  apply poll_spec in Hp. destruct Hp as (pre & last & -> & Hpre & Hend).
  intros H. exists pre, last, o1.
  destruct o1; inversion H; subst; cbn; rewrite ?app_nil_r; auto.
Qed.

Lemma pending_not_in pre ev :
  forallb pending_step pre = true -> pending_step ev = false -> ~ In ev pre.
Proof.
  intros Hall Hev Hin. rewrite forallb_forall in Hall.
  apply Hall in Hin. congruence.
Qed.

(** A receipt in the trace of the poller is what the poller returns. *)
Lemma wait_found fuel h tmo w o w' tr h' r :
  wait_for_transaction fuel h tmo w = (o, w', tr) ->
  In (EvGetTransactionReceipt h' (Val r)) tr ->
  o = Returns (Some r) /\ h' = h.
Proof.
  intros H Hin. apply wait_spec in H.
  destruct H as (pre & last & o' & -> & Hpre & Hend & ->).
  apply in_app_or in Hin. destruct Hin as [Hin|Hin].
  - exfalso. revert Hin. apply pending_not_in; auto.
  - inversion Hend; subst; cbn in Hin; try tauto.
    + destruct Hin as [Hin|[]]. inversion Hin; subst. auto.
    + destruct Hin as [Hin|[]]. discriminate.
Qed.


Lemma wait_events fuel h tmo w o w' tr :
  wait_for_transaction fuel h tmo w = (o, w', tr) ->
  forallb poll_event tr = true.
Proof.
  intros H. apply wait_spec in H.
  destruct H as (pre & last & o' & -> & Hpre & Hend & ->).
  rewrite forallb_app. apply andb_true_intro. split.
  - rewrite forallb_forall in *. intros ev Hin. apply Hpre in Hin.
    destruct ev; try discriminate; reflexivity.
  - inversion Hend; reflexivity.
Qed.

Lemma wait_no_broadcast fuel h tmo w o w' tr :
  wait_for_transaction fuel h tmo w = (o, w', tr) ->
  forall ev, In ev tr -> poll_event ev = true.
Proof.
  intros H ev Hin. apply wait_events in H.
  rewrite forallb_forall in H. auto.
Qed.

Lemma broadcasts_wait fuel h tmo w o w' tr :
  wait_for_transaction fuel h tmo w = (o, w', tr) -> broadcasts tr = O.
Proof.
  intros H. unfold broadcasts.
  assert (Hall : forall ev, In ev tr -> is_broadcast ev = false).
  { intros ev Hin. apply (wait_no_broadcast _ _ _ _ _ _ _ H) in Hin.
    destruct ev; try discriminate; reflexivity. }
  clear H. induction tr as [|ev tr IH]; [reflexivity|].
  cbn [filter]. rewrite (Hall ev (or_introl eq_refl)).
  apply IH. intros ev' Hin. apply Hall. right. exact Hin.
Qed.

Lemma wait_some fuel h tmo w r w' tr :
  wait_for_transaction fuel h tmo w = (Returns (Some r), w', tr) ->
  In (EvGetTransactionReceipt h (Val r)) tr.
Proof.
  intros H. apply wait_spec in H.
  destruct H as (pre & last & o' & -> & Hpre & Hend & E).
  apply in_or_app. right.
  inversion Hend; subst; cbn in E; try discriminate.
  inversion E; subst. left. reflexivity.
Qed.

Lemma wait_never_raises fuel h tmo w e w' tr :
  wait_for_transaction fuel h tmo w <> (Raises e, w', tr).
Proof.
  intros H. apply wait_spec in H.
  destruct H as (pre & last & o' & -> & Hpre & Hend & E).
  destruct o'; discriminate.
Qed.

(** Unless the poller answers [None], no lookup of its run failed for
    good. *)
Lemma wait_no_failure fuel h tmo w o w' tr :
  wait_for_transaction fuel h tmo w = (o, w', tr) ->
  o <> Returns None ->
  forall ev, In ev tr -> failed_step ev = false.
Proof.
  intros H Ho ev Hin. apply wait_spec in H.
  destruct H as (pre & last & o' & -> & Hpre & Hend & ->).
  apply in_app_or in Hin. destruct Hin as [Hin|Hin].
  - rewrite forallb_forall in Hpre. apply Hpre in Hin.
    destruct ev as [| | | | | | | |h0 [r|e]|]; try discriminate; cbn in *;
      try rewrite Hin; reflexivity.
  - inversion Hend; subst; cbn in *; try tauto.
    destruct Hin as [<-|[]]. reflexivity.
Qed.

Lemma inject_Z_succ n :
  (inject_Z (Z.of_nat (S n)) == inject_Z (Z.of_nat n) + 1)%Q.
Proof.
  rewrite Nat2Z.inj_succ. unfold Z.succ. rewrite inject_Z_plus.
  reflexivity.
Qed.

(** With a clock that advances, [fuel] evaluations of the loop condition
    are enough once [2 * (fuel - 1)] seconds cover what is left of the
    timeout. *)
Lemma poll_has_fuel h st tmo :
  clock_advances ->
  forall fuel w o w' tr,
    (1 <= fuel)%nat ->
    (tmo <= time w - st + 2 * inject_Z (Z.of_nat fuel) - 2)%Q ->
    poll fuel h st tmo w = (o, w', tr) -> o <> OutOfFuel.
Proof.
  intros [Hlookup Hsleep]. induction fuel as [|fuel IH];
    intros w o w' tr Hpos Hbudget H; [lia|].
  cbn [poll] in H. cbv [bind time_time] in H.
  destruct (Qltb (time w - st) tmo) eqn:Ht.
  - cbv [try_except bind call ret] in H.
    pose proof (Hlookup h w) as Hmono.
    destruct (eth_get_transaction_receipt h w) as [[r|e] w1].
    + inversion H. discriminate.
    + destruct (is_TransactionNotFound e).
      * cbv [time_sleep] in H. cbn [snd] in Hmono.
        pose proof (Hsleep 2%Q w1) as Hs.
        destruct (poll fuel h st tmo (sleep 2 w1)) as [[o2 w2] t2] eqn:Hp.
        apply Qltb_true in Ht. rewrite inject_Z_succ in Hbudget.
        assert (Hf : (1 <= fuel)%nat).
        { destruct fuel; [|lia]. exfalso.
          change (inject_Z (Z.of_nat 0)) with 0%Q in Hbudget. lra. }
        apply IH in Hp; [|exact Hf|lra].
        destruct o2; inversion H; subst; congruence.
      * inversion H. discriminate.
  - inversion H. discriminate.
Qed.

Lemma wait_has_fuel fuel h w o w' tr :
  clock_advances -> (61 <= fuel)%nat ->
  wait_for_transaction fuel h default_timeout w = (o, w', tr) ->
  o <> OutOfFuel.
Proof.
  intros Hclock Hfuel. unfold wait_for_transaction.
  cbv [try_except bind time_time except_Exception ret].
  destruct (poll fuel h (time w) default_timeout w) as [[o1 w1] t1] eqn:Hp.
  apply poll_has_fuel in Hp; auto; [|lia|].
  - destruct o1; intros H; inversion H; subst; congruence.
  - assert (E : (inject_Z 61 <= inject_Z (Z.of_nat fuel))%Q).
    { rewrite <- Zle_Qle. lia. }
    unfold default_timeout. change (inject_Z 61) with 61%Q in E. lra.
Qed.

End Poller.

Section WP.
Context {client : ChainClient}.

Lemma wp_elim {A} (m : M A) w (Q : outcome A -> World -> list event -> Prop)
      o w' t :
  wp m w Q -> m w = (o, w', t) -> Q o w' t.
Proof. unfold wp. intros H E. rewrite E in H. exact H. Qed.

Lemma wp_intro {A} (m : M A) w (Q : outcome A -> World -> list event -> Prop) :
  (forall o w' t, m w = (o, w', t) -> Q o w' t) -> wp m w Q.
Proof. unfold wp. intros H. destruct (m w) as [[o w'] t]. auto. Qed.

Lemma wp_ret {A} (a : A) w Q : Q (Returns a) w [] -> wp (ret a) w Q.
Proof. auto. Qed.

Lemma wp_lift {A} (r : result A) w Q :
  match r with
  | Val a => Q (Returns a) w []
  | Raise e => Q (Raises e) w []
  end -> wp (lift r) w Q.
Proof. unfold wp, lift. destruct r; auto. Qed.

Lemma wp_call {A} (op : World -> result A * World) ev w Q :
  (forall r w1, op w = (r, w1) ->
     match r with
     | Val a => Q (Returns a) w1 [ev r]
     | Raise e => Q (Raises e) w1 [ev r]
     end) -> wp (call op ev) w Q.
Proof.
  unfold wp, call. intros H. destruct (op w) as [r w1] eqn:E.
  specialize (H r w1 eq_refl). destruct r; auto.
Qed.

Lemma wp_bind {A B} (m : M A) (k : A -> M B) w Q :
  wp m w (fun o w1 t1 =>
            match o with
            | Returns a => wp (k a) w1 (fun o2 w2 t2 => Q o2 w2 (t1 ++ t2)%list)
            | Raises e => Q (Raises e) w1 t1
            | OutOfFuel => Q OutOfFuel w1 t1
            end) -> wp (bind m k) w Q.
Proof.
  unfold wp, bind. destruct (m w) as [[[a|e|] w1] t1]; auto.
  destruct (k a w1) as [[o2 w2] t2]. auto.
Qed.

Lemma wp_try {A} (body : M A) handler w Q :
  wp body w (fun o w1 t1 =>
               match o with
               | Raises e =>
                   match handler e with
                   | Some h => wp h w1 (fun o2 w2 t2 => Q o2 w2 (t1 ++ t2)%list)
                   | None => Q (Raises e) w1 t1
                   end
               | _ => Q o w1 t1
               end) -> wp (try_except body handler) w Q.
Proof.
  unfold wp, try_except. destruct (body w) as [[[a|e|] w1] t1]; auto.
  destruct (handler e) as [h|]; auto.
  destruct (h w1) as [[o2 w2] t2]. auto.
Qed.
End WP.

Ltac wp_start H :=
  match type of H with
  | ?m ?w = (?o, ?w', ?t) =>
      pattern o, w', t; apply (wp_elim m w _) with (2 := H); clear H
  end.

Ltac wp_red :=
  cbv beta iota zeta delta [withdraw_handler except_Exception].

Ltac wp_step :=
  lazymatch goal with
  | |- wp (bind _ _) _ _ => apply wp_bind
  | |- wp (ret _) _ _ => apply wp_ret
  | |- wp (lift ?r) _ _ =>
      apply wp_lift;
      lazymatch r with
      | Val _ => idtac
      | Raise _ => idtac
      | _ => destruct r eqn:?
      end
  | |- wp (call _ _) _ _ => apply wp_call; intros [?|?] ? ?
  | |- wp (try_except _ _) _ _ => apply wp_try
  | |- wp (if ?b then _ else _) _ _ => destruct b eqn:?
  | |- wp (match ?x with _ => _ end) _ _ => destruct x eqn:?
  | |- wp (wait_for_transaction _ _ _) _ _ => apply wp_intro; intros ? ? ? ?
  | |- match ?x with _ => _ end => destruct x eqn:?
  end; wp_red.


Section MethodSpecs.
Context {client : ChainClient} {config : Config}.

(** [validate_address] never raises and makes no remote call. *)
Lemma wp_validate_address a w Q :
  (forall b, (b = true <-> w3_is_address a = Val true) ->
             Q (Returns b) w []) ->
  wp (validate_address a) w Q.
Proof.
  intros H. unfold validate_address. repeat wp_step; cbn [app].
  - apply H. split; congruence.
  - apply H. split; congruence.
Qed.

(** [get_allowance]: [None] without a call when an address is rejected,
    [None] after a failed read or a quotient out of range, the quotient
    otherwise. *)
Lemma wp_get_allowance owner w Q :
  Q (Returns None) w [] ->
  (forall co cs r w1,
      usdt_allowance_call co cs w = (r, w1) ->
      match r with
      | Val a => exists e,
          PyFloat.int_true_div a (10 ^ Z.of_N USDT_DECIMALS) = Raise e
      | Raise _ => True
      end ->
      Q (Returns None) w1 [EvAllowance co cs r]) ->
  (forall co cs a f w1,
      usdt_allowance_call co cs w = (Val a, w1) ->
      PyFloat.int_true_div a (10 ^ Z.of_N USDT_DECIMALS) = Val f ->
      Q (Returns (Some f)) w1 [EvAllowance co cs (Val a)]) ->
  wp (get_allowance owner None) w Q.
Proof.
  intros H0 H1 H2. unfold get_allowance. repeat wp_step; cbn [app]; auto;
    first [ eapply H2; eassumption
          | eapply H1; [eassumption | cbv beta iota; eauto] ].
Qed.

Lemma wp_get_usdt_balance owner w Q :
  Q (Returns None) w [] ->
  (forall co r w1,
      usdt_balanceOf_call co w = (r, w1) ->
      match r with
      | Val a => exists e,
          PyFloat.int_true_div a (10 ^ Z.of_N USDT_DECIMALS) = Raise e
      | Raise _ => True
      end ->
      Q (Returns None) w1 [EvBalanceOf co r]) ->
  (forall co a f w1,
      usdt_balanceOf_call co w = (Val a, w1) ->
      PyFloat.int_true_div a (10 ^ Z.of_N USDT_DECIMALS) = Val f ->
      Q (Returns (Some f)) w1 [EvBalanceOf co (Val a)]) ->
  wp (get_usdt_balance owner) w Q.
Proof.
  intros H0 H1 H2. unfold get_usdt_balance. repeat wp_step; cbn [app]; auto;
    first [ eapply H2; eassumption
          | eapply H1; [eassumption | cbv beta iota; eauto] ].
Qed.

(** [estimate_gas] always returns, after exactly one remote call. *)
Lemma wp_estimate_gas q w Q :
  (forall r w1 g, eth_estimate_gas q w = (r, w1) ->
                  Q (Returns g) w1 [EvEstimateGas q r]) ->
  wp (estimate_gas q) w Q.
Proof.
  intros H. unfold estimate_gas. repeat wp_step; cbn [app]; eauto.
Qed.

(** [get_gas_price] makes exactly one remote call; it can only raise out
    of its fallback. *)
Lemma wp_get_gas_price w Q :
  (forall r w1, eth_gas_price w = (r, w1) ->
     (forall g, Q (Returns g) w1 [EvGasPrice r])
     /\ (forall e, to_wei_gwei DEFAULT_GAS_PRICE_GWEI = Raise e ->
                   Q (Raises e) w1 [EvGasPrice r])) ->
  wp get_gas_price w Q.
Proof.
  intros H. unfold get_gas_price. repeat wp_step; cbn [app];
    match goal with E : eth_gas_price _ = _ |- _ => apply H in E; destruct E end;
    eauto.
Qed.
End MethodSpecs.

Ltac wp_method :=
  lazymatch goal with
  | |- wp (validate_address _) _ _ =>
      apply wp_validate_address; intros [|] ?
  | |- wp (get_allowance _ None) _ _ =>
      apply wp_get_allowance; [|intros ? ? ? ? ? ?|intros ? ? ? ? ? ? ?]
  | |- wp (get_usdt_balance _) _ _ =>
      apply wp_get_usdt_balance; [|intros ? ? ? ? ?|intros ? ? ? ? ? ?]
  | |- wp (estimate_gas _) _ _ => apply wp_estimate_gas; intros ? ? ? ?
  | |- wp get_gas_price _ _ =>
      apply wp_get_gas_price; intros ? ? ?; split; [intros ?|intros ? ?]
  | |- wp (withdraw_usdt _ _ _) _ _ => unfold withdraw_usdt
  | |- wp (withdraw_usdt_body _ _ _) _ _ => unfold withdraw_usdt_body
  end; wp_red.

Ltac wp_go := repeat first [wp_method | wp_step].


(** ** Strings and numerals *)

Lemma append_assoc_s (a b c : string) : ((a ++ b) ++ c = a ++ (b ++ c))%string.
Proof. induction a as [|x a IH]; cbn; [reflexivity | now rewrite IH]. Qed.

Lemma prefixb_app p s : prefixb p (p ++ s) = true.
Proof.
  induction p as [|c p IH]; cbn; [reflexivity|].
  rewrite Ascii.eqb_refl. exact IH.
Qed.

Lemma contains_prefix sub post : contains sub (sub ++ post) = true.
Proof.
  destruct (sub ++ post)%string eqn:E; cbn;
    rewrite <- E, prefixb_app; reflexivity.
Qed.

Lemma contains_refl s : contains s s = true.
Proof.
  assert (E : (s ++ "")%string = s) by (induction s; cbn; congruence).
  rewrite <- E at 2. apply contains_prefix.
Qed.

Lemma contains_skip sub pre s :
  contains sub s = true -> contains sub (pre ++ s) = true.
Proof.
  intros H. induction pre as [|c pre IH]; cbn [append]; [exact H|].
  cbn [contains]. rewrite IH. apply orb_true_r.
Qed.

Lemma drop_app a b : drop (String.length a) (a ++ b) = b.
Proof. induction a as [|c a IH]; cbn; auto. Qed.

Lemma split_dot_app ip rest :
  split_dot ip = None ->
  split_dot (ip ++ String "." rest) = Some (ip, rest).
Proof.
  induction ip as [|c ip IH]; cbn; [reflexivity|].
  destruct (Ascii.eqb c "."); [discriminate|].
  destruct (split_dot ip) as [[a b]|]; [discriminate|].
  intros _. rewrite IH; reflexivity.
Qed.

Lemma split_dot_uint d : split_dot (NilEmpty.string_of_uint d) = None.
Proof.
  induction d; cbn [NilEmpty.string_of_uint split_dot]; try reflexivity;
    rewrite IHd; reflexivity.
Qed.

Lemma split_dot_digits n : split_dot (PyFloat.digits n) = None.
Proof.
  unfold PyFloat.digits, NilZero.string_of_uint.
  destruct (N.to_uint (Z.to_N n)); try apply split_dot_uint. reflexivity.
Qed.

Lemma uint_of_digits n :
  0 <= n ->
  option_map (fun i => Z.of_N (N.of_uint i))
             (NilZero.uint_of_string (PyFloat.digits n)) = Some n.
Proof.
  intros Hn. unfold PyFloat.digits. rewrite NilZero.usu.
  - cbn. rewrite DecimalN.Unsigned.of_to. f_equal. lia.
  - destruct (Z.to_N n); cbn; [discriminate|].
    apply DecimalPos.Unsigned.to_uint_nonnil.
Qed.

Lemma digit_of_digit_char d :
  0 <= d < 10 -> digit_of_char (PyFloat.digit_char d) = Some d.
Proof.
  intros H.
  assert (E : d = 0 \/ d = 1 \/ d = 2 \/ d = 3 \/ d = 4 \/ d = 5 \/ d = 6
              \/ d = 7 \/ d = 8 \/ d = 9) by lia.
  repeat (destruct E as [->|E]; [reflexivity|]). subst. reflexivity.
Qed.

Lemma digits_value_frac p : forall acc r,
  0 <= r ->
  digits_value acc (PyFloat.frac_digits p r)
  = Some (acc * 10 ^ Z.of_nat p + r mod 10 ^ Z.of_nat p).
Proof.
  induction p as [|p IH]; intros acc r Hr.
  - cbn [PyFloat.frac_digits digits_value Z.of_nat].
    rewrite Z.pow_0_r, Z.mod_1_r. f_equal. lia.
  - cbn [PyFloat.frac_digits digits_value].
    rewrite digit_of_digit_char by (apply Z.mod_pos_bound; lia).
    rewrite IH by exact Hr. f_equal.
    rewrite Nat2Z.inj_succ, Z.pow_succ_r by lia.
    set (u := 10 ^ Z.of_nat p). assert (0 < u) by (apply Z.pow_pos_nonneg; lia).
    rewrite (Z.mul_comm 10 u), Z.rem_mul_r by lia. ring.
Qed.

(** The numeral of a message is read back as the number it was printed
    from. *)
Lemma embedded_fixed label q :
  0 <= q ->
  embedded_millionths label (label ++ PyFloat.fixed 6 q ++ " USDT") = Some q.
Proof.
  intros Hq. unfold embedded_millionths.
  rewrite prefixb_app, drop_app.
  change (PyFloat.fixed 6 q)
    with (PyFloat.digits (q / 10 ^ 6) ++ String "." (PyFloat.frac_digits 6 q))%string.
  rewrite append_assoc_s. cbn [append].
  rewrite split_dot_app by apply split_dot_digits.
  assert (Hq' : 0 <= q / 10 ^ 6) by (apply Z.div_pos; lia).
  pose proof (uint_of_digits _ Hq') as Hi.
  pose proof (digits_value_frac 6 0 q Hq) as Hf.
  cbn [PyFloat.frac_digits append drop take String.eqb Ascii.eqb Bool.eqb] in *.
  destruct (NilZero.uint_of_string (PyFloat.digits (q / 10 ^ 6))) as [i|];
    [|discriminate Hi].
  cbn [option_map] in Hi. inversion Hi as [Hi']. rewrite Hf. f_equal.
  change (Z.of_nat 6) with 6. rewrite Hi'.
  change (Z.pow_pos 10 6) with 1000000. change (10 ^ 6) with 1000000.
  pose proof (Z.div_mod q 1000000). lia.
Qed.

Section FloatFacts.

Lemma binary_round_aux_sign s m e l f :
  binary_round_aux PyFloat.prec PyFloat.emax s m e l = f ->
  f <> S754_nan -> PyFloat.sign_bit f = s.
Proof.
  unfold binary_round_aux. intros <-.
  destruct (shr_fexp PyFloat.prec PyFloat.emax m e l) as [mrs' e'].
  destruct (shr_fexp _ _ _ _ _) as [mrs'' e''].
  destruct (shr_m mrs'') as [|p|p]; cbn; try congruence.
  destruct (e'' <=? _); cbn; congruence.
Qed.

(** The quotient of a natural number by a positive one is a float without
    sign, unless it is no number. *)
Lemma int_true_div_sign a b f :
  PyFloat.int_true_div a b = Val f -> 0 <= a -> 0 < b ->
  f <> S754_nan -> PyFloat.sign_bit f = false.
Proof.
  unfold PyFloat.int_true_div. intros H Ha Hb Hnan.
  destruct b as [|b|b]; try lia.
  destruct a as [|a|a]; try lia.
  - inversion H; subst. reflexivity.
  - destruct (SFdiv_core_binary _ _ _ _ _ _) as [[q e] l].
    destruct (binary_round_aux _ _ _ _ _ _) eqn:E; inversion H; subst;
      apply binary_round_aux_sign in E; try congruence; exact E.
Qed.

Lemma ltb_not_nan x y : PyFloat.ltb x y = true -> x <> S754_nan.
Proof. intros H ->. discriminate H. Qed.

Lemma int_true_div_finite a b f :
  PyFloat.int_true_div a b = Val f -> forall s, f <> S754_infinity s.
Proof.
  unfold PyFloat.int_true_div. intros H s ->.
  destruct b as [|b|b]; try discriminate;
    destruct a as [|a|a]; try discriminate;
    destruct (SFdiv_core_binary _ _ _ _ _ _) as [[q e] l];
    destruct (binary_round_aux _ _ _ _ _ _); discriminate.
Qed.

Lemma round_half_even_div_nonneg n d :
  0 <= n -> 0 < d -> 0 <= PyFloat.round_half_even_div n d.
Proof.
  intros Hn Hd. unfold PyFloat.round_half_even_div.
  assert (0 <= n / d) by (apply Z.div_pos; lia).
  destruct (2 * (n mod d) ?= d); try lia.
  destruct (Z.even (n / d)); lia.
Qed.

Lemma scaled_nonneg places x : 0 <= PyFloat.scaled places x.
Proof.
  destruct x as [s|s| |s m e]; unfold PyFloat.scaled; try lia.
  assert (0 < 10 ^ Z.of_nat places) by (apply Z.pow_pos_nonneg; lia).
  destruct (0 <=? e) eqn:E.
  - apply Z.leb_le in E. assert (0 < 2 ^ e) by (apply Z.pow_pos_nonneg; lia).
    apply Z.mul_nonneg_nonneg; [apply Z.mul_nonneg_nonneg|]; lia.
  - apply Z.leb_gt in E. apply round_half_even_div_nonneg.
    + apply Z.mul_nonneg_nonneg; lia.
    + apply Z.pow_pos_nonneg; lia.
Qed.

(** The rounding of [format_f] is to the nearest unit. *)
Lemma round_half_even_div_nearest n d :
  0 <= n -> 0 < d ->
  Z.abs (2 * (PyFloat.round_half_even_div n d * d - n)) <= d.
Proof.
  intros Hn Hd. unfold PyFloat.round_half_even_div. cbv zeta.
  pose proof (Z.div_mod n d ltac:(lia)) as E.
  pose proof (Z.mod_pos_bound n d Hd) as B.
  set (q := n / d) in *. set (r := n mod d) in *.
  clearbody q r. rewrite E. clear E Hn n.
  apply Z.abs_le.
  destruct (2 * r ?= d) eqn:C.
  - apply Z.compare_eq in C. destruct (Z.even q); lia.
  - rewrite Z.compare_lt_iff in C. lia.
  - rewrite Z.compare_gt_iff in C. lia.
Qed.

(** A float without sign and not nan or infinite prints as the numeral
    of its scaled value. *)
Lemma format_f_unsigned places x :
  PyFloat.sign_bit x = false -> x <> S754_nan ->
  (forall s, x <> S754_infinity s) ->
  PyFloat.format_f places x = PyFloat.fixed places (PyFloat.scaled places x).
Proof.
  intros Hs Hnan Hinf. destruct x as [s|s| |s m e]; cbn in *; subst;
    try reflexivity; try congruence.
Qed.

End FloatFacts.

(** ** Rounding in binary64 *)

Section Rounding.

Lemma digits2_bounds p :
  2 ^ (Zpos (digits2_pos p) - 1) <= Zpos p < 2 ^ Zpos (digits2_pos p).
Proof.
  induction p as [p IH|p IH|]; cbn [digits2_pos].
  - rewrite Pos2Z.inj_succ. change (Zpos p~1) with (2 * Zpos p + 1).
    replace (Z.succ (Zpos (digits2_pos p)) - 1)
      with (Z.succ (Zpos (digits2_pos p) - 1)) by lia.
    rewrite !Z.pow_succ_r by lia. lia.
  - rewrite Pos2Z.inj_succ. change (Zpos p~0) with (2 * Zpos p).
    replace (Z.succ (Zpos (digits2_pos p)) - 1)
      with (Z.succ (Zpos (digits2_pos p) - 1)) by lia.
    rewrite !Z.pow_succ_r by lia. lia.
  - cbn. lia.
Qed.

Lemma digits2_unique p k :
  2 ^ (k - 1) <= Zpos p < 2 ^ k -> Zpos (digits2_pos p) = k.
Proof.
  intros [Hlo Hhi]. pose proof (digits2_bounds p) as [Blo Bhi].
  set (D := Zpos (digits2_pos p)) in *.
  assert (0 < k).
  { destruct (Z.ltb_spec 0 k); [assumption|]. exfalso.
    destruct (Z.eq_dec k 0) as [->|];
      [cbn in Hhi | rewrite Z.pow_neg_r in Hhi by lia]; lia. }
  destruct (Z.lt_trichotomy D k) as [Hlt|[Heq|Hgt]]; [|assumption|].
  - assert (2 ^ D <= 2 ^ (k - 1)) by (apply Z.pow_le_mono_r; lia). lia.
  - assert (2 ^ k <= 2 ^ (D - 1)) by (apply Z.pow_le_mono_r; lia). lia.
Qed.

Lemma iter_pos_nat {A} (f : A -> A) p : forall x,
  iter_pos f p x = Nat.iter (Pos.to_nat p) f x.
Proof.
  induction p as [p IH|p IH|]; intros x; cbn [iter_pos].
  - rewrite !IH, Pos2Nat.inj_xI.
    replace (S (2 * Pos.to_nat p)) with (Pos.to_nat p + (Pos.to_nat p + 1))%nat by lia.
    rewrite !Nat.iter_add. reflexivity.
  - rewrite !IH, Pos2Nat.inj_xO.
    replace (2 * Pos.to_nat p)%nat with (Pos.to_nat p + Pos.to_nat p)%nat by lia.
    rewrite Nat.iter_add. reflexivity.
  - reflexivity.
Qed.

Lemma shr_1_nonneg m r s :
  0 <= m ->
  shr_1 (Build_shr_record m r s)
  = Build_shr_record (m / 2) (Z.odd m) (r || s).
Proof.
  intros Hm. rewrite <- Z.div2_div.
  destruct m as [|[p|p|]|]; try reflexivity. lia.
Qed.

(** The state of the shifter after [k] steps. *)
Lemma shr_iter P k :
  0 <= P ->
  let mrs := Nat.iter k shr_1 (Build_shr_record P false false) in
  shr_m mrs = P / 2 ^ Z.of_nat k
  /\ match k with
     | O => shr_r mrs = false /\ shr_s mrs = false
     | S k' => shr_r mrs = Z.odd (P / 2 ^ Z.of_nat k')
               /\ shr_s mrs = negb (P mod 2 ^ Z.of_nat k' =? 0)
     end.
Proof.
  intros HP. induction k as [|k IH]; cbn zeta.
  - cbn. rewrite Z.div_1_r. auto.
  - cbn zeta in IH. destruct IH as [Hm Hrs].
    rewrite Nat.iter_succ.
    destruct (Nat.iter k shr_1 _) as [m r s]. cbn [shr_m shr_r shr_s] in *.
    assert (0 < 2 ^ Z.of_nat k) by (apply Z.pow_pos_nonneg; lia).
    rewrite shr_1_nonneg by (subst m; apply Z.div_pos; lia).
    cbn [shr_m shr_r shr_s]. subst m. split; [|split].
    + rewrite Nat2Z.inj_succ, Z.pow_succ_r by lia.
      rewrite Z.div_div by lia. f_equal. lia.
    + reflexivity.
    + destruct k as [|k'].
      * destruct Hrs as [-> ->]. cbn [orb Z.of_nat].
        rewrite Z.pow_0_r, Z.mod_1_r. reflexivity.
      * destruct Hrs as [-> ->].
        assert (0 < 2 ^ Z.of_nat k') by (apply Z.pow_pos_nonneg; lia).
        rewrite (Nat2Z.inj_succ k'), Z.pow_succ_r by lia.
        rewrite (Z.mul_comm 2), Z.rem_mul_r by lia.
        rewrite Zmod_odd.
        pose proof (Z.mod_pos_bound P (2 ^ Z.of_nat k') ltac:(lia)).
        destruct (Z.odd (P / 2 ^ Z.of_nat k'));
          destruct (Z.eqb_spec (P mod 2 ^ Z.of_nat k') 0);
          cbn [orb negb]; symmetry.
        -- apply negb_true_iff, Z.eqb_neq. lia.
        -- apply negb_true_iff, Z.eqb_neq. lia.
        -- apply negb_false_iff, Z.eqb_eq. lia.
        -- apply negb_true_iff, Z.eqb_neq. lia.
Qed.

(** Shifting out [n] bits and rounding to nearest even is the division by
    [2^n] rounded to nearest even. *)
Lemma shr_round P n :
  0 <= P ->
  let mrs := iter_pos shr_1 n (Build_shr_record P false false) in
  round_nearest_even (shr_m mrs) (loc_of_shr_record mrs)
  = PyFloat.round_half_even_div P (2 ^ Zpos n).
Proof.
  intros HP. cbn zeta. rewrite iter_pos_nat.
  pose proof (shr_iter P (Pos.to_nat n) HP) as Hk. cbn zeta in Hk.
  destruct (Pos.to_nat n) as [|k] eqn:En; [lia|].
  destruct Hk as [Hm [Hr Hs]].
  destruct (Nat.iter (S k) shr_1 _) as [m r s]. cbn [shr_m shr_r shr_s] in *.
  assert (Ez : Zpos n = Z.of_nat (S k)) by lia.
  rewrite Ez. clear Ez En. subst m r s.
  unfold PyFloat.round_half_even_div. cbv zeta.
  rewrite Nat2Z.inj_succ, Z.pow_succ_r by lia.
  set (h := 2 ^ Z.of_nat k). assert (0 < h) by (apply Z.pow_pos_nonneg; lia).
  rewrite (Z.mul_comm 2 h), Z.rem_mul_r by lia.
  rewrite Zmod_odd.
  pose proof (Z.mod_pos_bound P h ltac:(lia)) as B.
  set (q := P / (h * 2)). set (rho := P mod h) in *.
  destruct (Z.odd (P / h)); destruct (Z.eqb_spec rho 0) as [E0|E0];
    cbn [negb loc_of_shr_record round_nearest_even].
  - replace (2 * (rho + h * 1) ?= h * 2) with Eq; [reflexivity|].
    symmetry. apply Z.compare_eq_iff. lia.
  - replace (2 * (rho + h * 1) ?= h * 2) with Gt; [reflexivity|].
    symmetry. apply Z.compare_gt_iff. lia.
  - replace (2 * (rho + h * 0) ?= h * 2) with Lt; [reflexivity|].
    symmetry. apply Z.compare_lt_iff. lia.
  - replace (2 * (rho + h * 0) ?= h * 2) with Lt; [reflexivity|].
    symmetry. apply Z.compare_lt_iff. lia.
Qed.

End Rounding.

Section Binary64.

Lemma fexp_normal x :
  -1074 <= x - 53 -> fexp PyFloat.prec PyFloat.emax x = x - 53.
Proof.
  intros H. unfold fexp, emin, PyFloat.prec, PyFloat.emax. lia.
Qed.

(** A mantissa of exactly 53 bits is left alone. *)
Lemma binary_round_aux_canonical s m e :
  Zpos (digits2_pos m) = 53 -> -1074 <= e <= 971 ->
  binary_round_aux PyFloat.prec PyFloat.emax s (Zpos m) e loc_Exact
  = S754_finite s m e.
Proof.
  intros Hd He. unfold binary_round_aux, shr_fexp.
  cbn [Zdigits2 shr_record_of_loc]. rewrite Hd.
  rewrite fexp_normal by lia.
  replace (53 + e - 53 - e) with 0 by lia.
  cbn [shr shr_m loc_of_shr_record round_nearest_even Zdigits2].
  rewrite Hd, fexp_normal by lia.
  replace (53 + e - 53 - e) with 0 by lia.
  cbn [shr shr_m]. unfold PyFloat.emax, PyFloat.prec.
  destruct (Z.leb_spec e (1024 - 53)); [reflexivity|lia].
Qed.

(** The rounding of a mantissa of more than 53 bits: [n] bits are shifted
    out, the rest is rounded to nearest even, and a carry into bit 54 is
    renormalised. *)
Lemma binary_round_aux_long s P E :
  let D := Zpos (digits2_pos P) in
  let n := D - 53 in
  let R := PyFloat.round_half_even_div (Zpos P) (2 ^ n) in
  53 < D -> -1074 <= E + n -> E + n + 1 <= 971 ->
  2 ^ 52 <= R <= 2 ^ 53
  /\ binary_round_aux PyFloat.prec PyFloat.emax s (Zpos P) E loc_Exact
     = if R =? 2 ^ 53 then S754_finite s (Z.to_pos (2 ^ 52)) (E + n + 1)
       else S754_finite s (Z.to_pos R) (E + n).
Proof.
  intros D n R HD Hlo Hhi.
  pose proof (digits2_bounds P) as [Blo Bhi]. fold D in Blo, Bhi.
  assert (Hn : 0 < n) by (unfold n; lia).
  assert (HN : 0 < 2 ^ n) by (apply Z.pow_pos_nonneg; lia).
  assert (Hq : 2 ^ 52 <= Zpos P / 2 ^ n < 2 ^ 53).
  { replace D with (53 + n) in Bhi by (unfold n; lia).
    replace (D - 1) with (52 + n) in Blo by (unfold n; lia).
    rewrite Z.pow_add_r in Blo, Bhi by lia. split.
    - apply Z.div_le_lower_bound; lia.
    - apply Z.div_lt_upper_bound; lia. }
  assert (HR : 2 ^ 52 <= R <= 2 ^ 53).
  { unfold R, PyFloat.round_half_even_div. cbv zeta.
    destruct (2 * (Zpos P mod 2 ^ n) ?= 2 ^ n); try lia.
    destruct (Z.even (Zpos P / 2 ^ n)); lia. }
  split; [exact HR|].
  unfold binary_round_aux, shr_fexp.
  cbn [Zdigits2 shr_record_of_loc]. fold D.
  rewrite fexp_normal by (unfold n in Hlo; lia).
  assert (Hnp : exists np, n = Zpos np)
    by (destruct n as [|np|np]; try lia; eauto).
  destruct Hnp as [np Hnp].
  replace (D + E - 53 - E) with (Zpos np) by (unfold n in Hnp; lia).
  cbn [shr]. rewrite shr_round by lia. rewrite <- Hnp. fold R.
  destruct (Z.eqb_spec R (2 ^ 53)) as [ER|ER].
  - rewrite ER. change (Zdigits2 (2 ^ 53)) with 54.
    rewrite fexp_normal by lia.
    replace (54 + (E + n) - 53 - (E + n)) with 1 by lia.
    cbn [shr iter_pos shr_record_of_loc shr_1 shr_m].
    unfold PyFloat.emax, PyFloat.prec.
    replace (E + n + 1 <=? 1024 - 53) with true
      by (symmetry; apply Z.leb_le; lia).
    reflexivity.
  - destruct R as [|r|r] eqn:ERr; try lia.
    assert (Hdr : Zpos (digits2_pos r) = 53)
      by (apply digits2_unique; change (53 - 1) with 52; lia).
    cbn [Zdigits2]. rewrite Hdr, fexp_normal by lia.
    replace (53 + (E + n) - 53 - (E + n)) with 0 by lia.
    cbn [shr shr_record_of_loc shr_m].
    unfold PyFloat.emax, PyFloat.prec.
    replace (E + n <=? 1024 - 53) with true
      by (symmetry; apply Z.leb_le; lia).
    reflexivity.
Qed.

(** The product of two mantissas of 53 bits has 105 or 106 bits. *)
Lemma mul_digits m1 m2 :
  Zpos (digits2_pos m1) = 53 -> Zpos (digits2_pos m2) = 53 ->
  Zpos (digits2_pos (m1 * m2)) = 105 \/ Zpos (digits2_pos (m1 * m2)) = 106.
Proof.
  intros H1 H2.
  pose proof (digits2_bounds m1) as B1. pose proof (digits2_bounds m2) as B2.
  rewrite H1 in B1. rewrite H2 in B2. change (53 - 1) with 52 in *.
  assert (HP : 2 ^ 104 <= Zpos (m1 * m2) < 2 ^ 106).
  { rewrite Pos2Z.inj_mul.
    change (2 ^ 104) with (2 ^ 52 * 2 ^ 52).
    change (2 ^ 106) with (2 ^ 53 * 2 ^ 53). nia. }
  destruct (Z.lt_ge_cases (Zpos (m1 * m2)) (2 ^ 105)).
  - left. apply digits2_unique. change (105 - 1) with 104. lia.
  - right. apply digits2_unique. change (106 - 1) with 105. lia.
Qed.

(** [int(x * y)] for two normal floats: the product of the mantissas,
    rounded to 53 bits, then truncated. *)
Lemma to_int_mul_normal s1 m1 e1 s2 m2 e2 :
  Zpos (digits2_pos m1) = 53 -> Zpos (digits2_pos m2) = 53 ->
  let P := (m1 * m2)%positive in
  let n := Zpos (digits2_pos P) - 53 in
  let R := PyFloat.round_half_even_div (Zpos P) (2 ^ n) in
  let e' := e1 + e2 + n in
  -1074 <= e' -> e' + 1 <= 971 ->
  PyFloat.to_int (SFmul PyFloat.prec PyFloat.emax
                        (S754_finite s1 m1 e1) (S754_finite s2 m2 e2))
  = Val (PyFloat.cond_neg (xorb s1 s2)
           (if 0 <=? e' then R * 2 ^ e' else R / 2 ^ (- e'))).
Proof.
  intros H1 H2 P n R e' Hlo Hhi.
  pose proof (mul_digits m1 m2 H1 H2) as HD. fold P in HD.
  cbn [SFmul]. fold P.
  destruct (binary_round_aux_long (xorb s1 s2) P (e1 + e2)) as [HR Hb];
    try (fold n; fold e'; lia).
  fold n in HR, Hb. fold R in HR, Hb. fold e' in Hb. rewrite Hb.
  assert (H52 : Zpos (Z.to_pos (2 ^ 52)) = 2 ^ 52) by reflexivity.
  assert (Hmag : (if R =? 2 ^ 53
                  then if 0 <=? e' + 1 then 2 ^ 52 * 2 ^ (e' + 1)
                       else 2 ^ 52 / 2 ^ (- (e' + 1))
                  else if 0 <=? e' then R * 2 ^ e' else R / 2 ^ (- e'))
                 = if 0 <=? e' then R * 2 ^ e' else R / 2 ^ (- e')).
  { destruct (Z.eqb_spec R (2 ^ 53)) as [ER|ER]; [|reflexivity].
    rewrite ER.
    destruct (Z.leb_spec 0 (e' + 1)); destruct (Z.leb_spec 0 e'); try lia.
    + rewrite Z.pow_add_r by lia. change (2 ^ 53) with (2 ^ 52 * 2 ^ 1). ring.
    + assert (E1 : e' = -1) by lia. rewrite E1. reflexivity.
    + replace (- e') with (- (e' + 1) + 1) by lia.
      rewrite Z.pow_add_r by lia.
      change (2 ^ 53) with (2 ^ 52 * 2 ^ 1).
      assert (0 < 2 ^ (- (e' + 1))) by (apply Z.pow_pos_nonneg; lia).
      rewrite Z.div_mul_cancel_r by lia. reflexivity. }
  rewrite <- Hmag.
  destruct (Z.eqb_spec R (2 ^ 53)) as [ER|ER]; cbn [PyFloat.to_int];
    unfold PyFloat.cond_neg.
  - rewrite H52. reflexivity.
  - rewrite Z2Pos.id by lia. reflexivity.
Qed.

(** The conversion of an integer below 2^53 is exact. *)
Lemma of_int_small p :
  0 < p < 2 ^ 53 ->
  exists m e,
    PyFloat.of_int p = Val (S754_finite false m e)
    /\ Zpos (digits2_pos m) = 53 /\ -52 <= e <= 0
    /\ Zpos m = p * 2 ^ (- e).
Proof.
  intros Hp. destruct p as [|p|p]; try lia.
  pose proof (digits2_bounds p) as [Blo Bhi].
  set (d := Zpos (digits2_pos p)) in *.
  assert (Hd : 1 <= d <= 53).
  { split; [unfold d; lia|].
    destruct (Z.le_gt_cases d 53); [assumption|].
    assert (2 ^ 53 <= 2 ^ (d - 1)) by (apply Z.pow_le_mono_r; lia). lia. }
  unfold PyFloat.of_int, binary_normalize, binary_round.
  fold d. rewrite Z.add_0_r, fexp_normal by lia.
  unfold shl_align. replace (d - 53 - 0) with (d - 53) by lia.
  destruct (d - 53) as [|k|k] eqn:Ek; try lia.
  - exists p, 0. rewrite binary_round_aux_canonical by (fold d; lia).
    repeat split; try (fold d; lia).
  - assert (Hk : Zpos (Pos.iter xO p k) = Zpos p * 2 ^ Zpos k).
    { rewrite <- Z.shiftl_mul_pow2 by lia. cbn [Z.shiftl].
      rewrite Pos.iter_swap_gen with (f := Zpos) (h := Z.mul 2)
        by reflexivity.
      reflexivity. }
    assert (0 < 2 ^ Zpos k) by (apply Z.pow_pos_nonneg; lia).
    assert (Hdk : Zpos (digits2_pos (Pos.iter xO p k)) = 53).
    { apply digits2_unique. rewrite Hk.
      replace 53 with (d + Zpos k) by lia.
      replace (d + Zpos k - 1) with (d - 1 + Zpos k) by lia.
      rewrite !Z.pow_add_r by lia. nia. }
    exists (Pos.iter xO p k), (Zneg k).
    rewrite binary_round_aux_canonical by lia.
    repeat split; try lia. rewrite Hk. reflexivity.
Qed.

(** [int(p * 1.2)] is the integer part of 6p/5 for every [p] below
    2^50. *)
Lemma int_mul_1_2 p :
  0 <= p < 2 ^ 50 ->
  exists x, PyFloat.int_mul p PyFloat.f1_2 = Val x
            /\ PyFloat.to_int x = Val (6 * p / 5).
Proof.
  intros Hp. destruct (Z.eq_dec p 0) as [->|Hnz].
  { eexists. split; reflexivity. }
  destruct (of_int_small p) as (m & e & Hof & Hd & He & Hm); [lia|].
  unfold PyFloat.int_mul. rewrite Hof. eexists. split; [reflexivity|].
  unfold PyFloat.f1_2.
  pose proof (digits2_bounds m) as Bm. rewrite Hd in Bm.
  change (53 - 1) with 52 in Bm.
  set (S := 2 ^ (- e)) in *.
  assert (HS : 0 < S) by (apply Z.pow_pos_nonneg; lia).
  assert (He3 : 3 <= - e).
  { destruct (Z.le_gt_cases 3 (- e)); [assumption|exfalso].
    assert (S <= 2 ^ 2) by (apply Z.pow_le_mono_r; lia).
    change (2 ^ 2) with 4 in *. nia. }
  assert (ES : S = 8 * 2 ^ (- e - 3)).
  { unfold S. replace (- e) with (3 + (- e - 3)) at 1 by lia.
    rewrite Z.pow_add_r by lia. reflexivity. }
  assert (0 < 2 ^ (- e - 3)) by (apply Z.pow_pos_nonneg; lia).
  set (M := 5404319552844595%positive).
  pose proof (mul_digits m M Hd eq_refl) as HD.
  rewrite (to_int_mul_normal false m e false M (-52) Hd eq_refl) by lia.
  cbn [xorb PyFloat.cond_neg]. f_equal.
  set (n := Zpos (digits2_pos (m * M)) - 53) in *.
  assert (Hn : n = 52 \/ n = 53) by (unfold n; lia).
  set (R := PyFloat.round_half_even_div (Zpos (m * M)) (2 ^ n)).
  assert (HN : 0 < 2 ^ n) by (apply Z.pow_pos_nonneg; lia).
  pose proof (round_half_even_div_nearest (Zpos (m * M)) (2 ^ n)
                ltac:(lia) HN) as Hnear.
  fold R in Hnear. apply Z.abs_le in Hnear.
  rewrite Pos2Z.inj_mul in Hnear. unfold M in Hnear.
  replace (0 <=? e + -52 + n) with false
    by (symmetry; apply Z.leb_gt; lia).
  set (q := 6 * p / 5).
  assert (Hq : 5 * q <= 6 * p <= 5 * q + 4).
  { unfold q. pose proof (Z.div_mod (6 * p) 5 ltac:(lia)).
    pose proof (Z.mod_pos_bound (6 * p) 5 ltac:(lia)). lia. }
  set (T := 2 ^ (- (e + -52 + n))).
  assert (HT : 0 < T) by (apply Z.pow_pos_nonneg; lia).
  symmetry. apply Z.div_unique with (r := R - q * T). 
  2: ring.
  left.
  destruct Hn as [En|En]; rewrite En in *.
  - (* 52 bits shifted out: T = S *)
    assert (ET : T = S) by (unfold T, S; f_equal; lia).
    rewrite ET. change (2 ^ 52) with 4503599627370496 in *.
    assert (Hv : 5 * (q * S) <= 6 * Zpos m <= 5 * (q * S) + 4 * S).
    { rewrite Hm. nia. }
    lia.
  - (* 53 bits shifted out: T = S / 2 *)
    assert (ET : S = 2 * T).
    { unfold T, S. replace (- e) with (1 + - (e + -52 + n)) by lia.
      rewrite Z.pow_add_r by lia. reflexivity. }
    change (2 ^ 53) with 9007199254740992 in *.
    assert (Hv : 5 * (q * T) <= 3 * Zpos m <= 5 * (q * T) + 4 * T).
    { rewrite Hm, ET. nia. }
    assert (4 <= T) by lia.
    lia.
Qed.

End Binary64.

Section ExactConversion.

Lemma round_half_even_div_exact W d :
  0 < d -> PyFloat.round_half_even_div (W * d) d = W.
Proof.
  intros Hd. unfold PyFloat.round_half_even_div. cbv zeta.
  rewrite Z.mod_mul, Z.div_mul by lia.
  assert (E : (2 * 0 ?= d) = Lt) by (apply Z.compare_lt_iff; lia).
  rewrite E. reflexivity.
Qed.

(** The powers of ten up to 10^22 are binary64 numbers. *)
Lemma of_int_pow10 d :
  0 <= d <= 22 ->
  exists M eM,
    PyFloat.of_int (10 ^ d) = Val (S754_finite false M eM)
    /\ Zpos (digits2_pos M) = 53 /\ -52 <= eM <= 21
    /\ Zpos M * 2 ^ (eM + 52) = 10 ^ d * 2 ^ 52.
Proof.
  intros Hd.
  assert (E : d = 0 \/ d = 1 \/ d = 2 \/ d = 3 \/ d = 4 \/ d = 5 \/ d = 6
              \/ d = 7 \/ d = 8 \/ d = 9 \/ d = 10 \/ d = 11 \/ d = 12
              \/ d = 13 \/ d = 14 \/ d = 15 \/ d = 16 \/ d = 17 \/ d = 18
              \/ d = 19 \/ d = 20 \/ d = 21 \/ d = 22) by lia.
  repeat (destruct E as [->|E];
          [eexists; eexists; split;
           [vm_compute; reflexivity
           |split; [reflexivity|split; [lia|reflexivity]]]|]).
  subst. eexists; eexists; split;
    [vm_compute; reflexivity
    |split; [reflexivity|split; [lia|reflexivity]]].
Qed.

Lemma valid_binary_cases s m e :
  valid_binary PyFloat.prec PyFloat.emax (S754_finite s m e) = true ->
  e <= 971
  /\ ((Zpos (digits2_pos m) = 53 /\ -1074 <= e)
      \/ (Zpos (digits2_pos m) < 53 /\ e = -1074)).
Proof.
  cbn [valid_binary]. unfold bounded, canonical_mantissa, fexp, emin.
  unfold PyFloat.prec, PyFloat.emax.
  intros H. apply andb_true_iff in H. destruct H as [H1 H2].
  apply Z.eqb_eq in H1. apply Z.leb_le in H2. lia.
Qed.

(** What the float denotes, in integers: [V] is [m * 2^e * t]. *)
Lemma to_Q_scaled s m e t n :
  0 < t ->
  (PyFloat.to_Q (S754_finite s m e) * inject_Z t == inject_Z n)%Q ->
  n = PyFloat.cond_neg s (Z.abs n)
  /\ if 0 <=? e then Z.abs n = Zpos m * 2 ^ e * t
     else Z.abs n * 2 ^ (- e) = Zpos m * t.
Proof.
  intros Ht. unfold PyFloat.to_Q.
  destruct (Z.leb_spec 0 e) as [He|He].
  - assert (0 < 2 ^ e) by (apply Z.pow_pos_nonneg; lia).
    destruct s; unfold Qeq, Qmult, Qopp, inject_Z, PyFloat.cond_neg;
      cbn [Qnum Qden]; intros H0; nia.
  - assert (Hp : 0 < 2 ^ (- e)) by (apply Z.pow_pos_nonneg; lia).
    destruct s; unfold Qeq, Qmult, Qopp, inject_Z, PyFloat.cond_neg;
      cbn [Qnum Qden]; rewrite ?Pos2Z.inj_mul, Z2Pos.id by lia;
      intros H0; nia.
Qed.

(** [int(x * 10^d)] is exact when the exact product is an integer that
    binary64 holds. *)
Lemma mul_pow10_exact s m e d n :
  valid_binary PyFloat.prec PyFloat.emax (S754_finite s m e) = true ->
  0 <= d <= 22 ->
  (PyFloat.to_Q (S754_finite s m e) * inject_Z (10 ^ d) == inject_Z n)%Q ->
  PyFloat.fits_binary64 n = true ->
  Z.abs n < 2 ^ 1023 ->
  exists x, PyFloat.mul_int (S754_finite s m e) (10 ^ d) = Val x
            /\ PyFloat.to_int x = Val n.
Proof.
  intros Hvalid Hd HQ Hfits Hrange.
  destruct (of_int_pow10 d Hd) as (M & eM & HofM & HdM & HeM & HM).
  assert (Ht : 0 < 10 ^ d) by (apply Z.pow_pos_nonneg; lia).
  assert (Ht22 : 10 ^ d <= 10 ^ 22) by (apply Z.pow_le_mono_r; lia).
  destruct (to_Q_scaled s m e (10 ^ d) n Ht HQ) as [Hsign Hval].
  set (V := Z.abs n) in *.
  destruct (valid_binary_cases s m e Hvalid) as [He971 [[Hdm Helo]|[Hdm He]]].
  2:{ (* a subnormal amount times 10^d is below one *)
    exfalso. subst e. cbn [Z.leb Z.compare Z.opp] in Hval.
    pose proof (digits2_bounds m) as [_ B].
    assert (2 ^ Zpos (digits2_pos m) <= 2 ^ 52)
      by (apply Z.pow_le_mono_r; lia).
    assert (HV : 0 <= V) by apply Z.abs_nonneg.
    assert (V <> 0) by (intros E0; rewrite E0 in Hval; lia).
    assert (Hbig : 2 ^ 52 * 10 ^ 22 < 2 ^ 1074) by reflexivity.
    assert (1 * 2 ^ 1074 <= V * 2 ^ 1074)
      by (apply Z.mul_le_mono_nonneg_r; [apply Z.pow_nonneg|]; lia).
    assert (Zpos m * 10 ^ d < 2 ^ 52 * 10 ^ 22) by nia.
    lia. }
  unfold PyFloat.mul_int. rewrite HofM. eexists. split; [reflexivity|].
  set (P := (m * M)%positive).
  set (D := Zpos (digits2_pos P)).
  set (a := if 0 <=? e then 0 else - e).
  set (b := if 0 <=? e then e else 0).
  assert (Hab : 0 <= a /\ 0 <= b /\ b - a = e)
    by (unfold a, b; destruct (Z.leb_spec 0 e); lia).
  assert (HVpos : 0 < V).
  { assert (0 <= V) by apply Z.abs_nonneg.
    assert (V <> 0); [|lia]. intros E0. rewrite E0 in Hval.
    destruct (0 <=? e); [|lia].
    assert (0 < 2 ^ e) by (apply Z.pow_pos_nonneg; lia). nia. }
  assert (Hscale : V * 2 ^ (52 + a) = Zpos P * 2 ^ (eM + 52 + b)).
  { unfold P. rewrite Pos2Z.inj_mul.
    set (g := eM + 52) in *. assert (0 <= g) by (unfold g; lia).
    assert (0 < 2 ^ g) by (apply Z.pow_pos_nonneg; lia).
    rewrite (Z.pow_add_r 2 52 a), (Z.pow_add_r 2 g b) by lia.
    unfold a, b. destruct (Z.leb_spec 0 e).
    - rewrite Hval. change (2 ^ 0) with 1.
      assert (0 < 2 ^ e) by (apply Z.pow_pos_nonneg; lia). nia.
    - change (2 ^ 0) with 1.
      assert (0 < 2 ^ (- e)) by (apply Z.pow_pos_nonneg; lia). nia. }
  set (L := Z.log2 V).
  assert (HL : 0 <= L) by apply Z.log2_nonneg.
  assert (HL1022 : L <= 1022).
  { assert (L < 1023); [|lia]. apply Z.log2_lt_pow2; assumption. }
  assert (HD : D - 1 + (eM + 52 + b) = L + (52 + a)).
  { assert (E1 : Z.log2 (V * 2 ^ (52 + a)) = 52 + a + L)
      by (apply Z.log2_mul_pow2; lia).
    assert (E2 : Z.log2 (Zpos P * 2 ^ (eM + 52 + b))
                 = eM + 52 + b + Z.log2 (Zpos P))
      by (apply Z.log2_mul_pow2; lia).
    assert (E3 : Z.log2 (Zpos P) = D - 1).
    { apply Z.log2_unique; [unfold D; lia|].
      replace (Z.succ (D - 1)) with D by lia. apply digits2_bounds. }
    rewrite Hscale, E2, E3 in E1. lia. }
  rewrite to_int_mul_normal by (try assumption; fold P; fold D; lia).
  fold P. fold D. rewrite xorb_false_r, Hsign. f_equal. f_equal.
  set (ns := D - 53).
  assert (Hns : 0 < ns).
  { pose proof (mul_digits m M Hdm HdM). fold P in H. fold D in H.
    unfold ns. lia. }
  replace (e + eM + ns) with (L - 52) by (unfold ns; lia).
  assert (HN : 0 < 2 ^ ns) by (apply Z.pow_pos_nonneg; lia).
  assert (Hy : 0 < 2 ^ (eM + 52 + b)) by (apply Z.pow_pos_nonneg; lia).
  unfold PyFloat.fits_binary64 in Hfits. fold V in Hfits. fold L in Hfits.
  apply Z.eqb_eq in Hfits.
  destruct (Z.leb_spec 0 (L - 52)) as [HL52|HL52].
  - (* the product has more than 52 bits *)
    rewrite Z.max_r in Hfits by lia.
    assert (Hpw : 0 < 2 ^ (L - 52)) by (apply Z.pow_pos_nonneg; lia).
    apply Z.mod_divide in Hfits; [|lia]. destruct Hfits as [V' HV'].
    assert (EP : Zpos P = V' * 2 ^ ns).
    { apply Z.mul_reg_r with (p := 2 ^ (eM + 52 + b)); [lia|].
      rewrite <- Hscale, HV'. rewrite <- !Z.mul_assoc, <- !Z.pow_add_r by lia.
      f_equal. f_equal. unfold ns. lia. }
    rewrite EP, round_half_even_div_exact by lia. symmetry. exact HV'.
  - (* the product is below 2^52 *)
    assert (EP : Zpos P = V * 2 ^ (52 - L) * 2 ^ ns).
    { apply Z.mul_reg_r with (p := 2 ^ (eM + 52 + b)); [lia|].
      rewrite <- Hscale. rewrite <- !Z.mul_assoc, <- !Z.pow_add_r by lia.
      f_equal. f_equal. unfold ns. lia. }
    rewrite EP, round_half_even_div_exact by lia.
    replace (- (L - 52)) with (52 - L) by lia.
    apply Z.div_mul. apply Z.pow_nonzero; lia.
Qed.

End ExactConversion.


(** ** The rounding of integer quotients *)

Section Fractions.

Lemma rec_of_location N Dn :
  0 <= N -> 0 < Dn ->
  shr_record_of_loc (N / Dn) (new_location Dn (N mod Dn)) = rec_of N Dn.
Proof.
  intros HN HD. unfold rec_of.
  pose proof (Z.mod_pos_bound N Dn HD) as B.
  set (q := N / Dn). set (r := N mod Dn) in *. clearbody q r.
  assert (Hhalf : forall c, (2 * r ?= Dn) = c -> r <> 0 ->
            shr_record_of_loc q (loc_Inexact c)
            = Build_shr_record q (Dn <=? 2 * r)
                               (negb ((2 * r) mod Dn =? 0))).
  { intros c Hc Hr. destruct (Z.compare_spec (2 * r) Dn) as [E|E|E]; subst c.
    - rewrite E, Z.mod_same by lia.
      replace (Dn <=? Dn) with true by (symmetry; apply Z.leb_le; lia).
      reflexivity.
    - rewrite Z.mod_small by lia.
      replace (Dn <=? 2 * r) with false by (symmetry; apply Z.leb_gt; lia).
      replace (2 * r =? 0) with false by (symmetry; apply Z.eqb_neq; lia).
      reflexivity.
    - replace (Dn <=? 2 * r) with true by (symmetry; apply Z.leb_le; lia).
      replace ((2 * r) mod Dn) with (2 * r - Dn)
        by (apply Z.mod_unique with (q := 1); lia).
      replace (2 * r - Dn =? 0) with false by (symmetry; apply Z.eqb_neq; lia).
      reflexivity. }
  assert (Hzero : r = 0 ->
            shr_record_of_loc q loc_Exact
            = Build_shr_record q (Dn <=? 2 * r)
                               (negb ((2 * r) mod Dn =? 0))).
  { intros ->. replace (2 * 0) with 0 by lia. rewrite Z.mod_0_l by lia.
    replace (Dn <=? 0) with false by (symmetry; apply Z.leb_gt; lia).
    reflexivity. }
  unfold new_location. destruct (Z.even Dn) eqn:Hev.
  - unfold new_location_even.
    destruct (Z.eqb_spec r 0) as [Hr|Hr]; [auto|].
    apply Hhalf; [reflexivity|exact Hr].
  - unfold new_location_odd.
    destruct (Z.eqb_spec r 0) as [Hr|Hr]; [auto|].
    assert (Hodd : Z.odd Dn = true) by (rewrite <- Z.negb_even, Hev; reflexivity).
    apply Z.odd_spec in Hodd. destruct Hodd as [h Hh].
    apply Hhalf; [|exact Hr].
    destruct (Z.compare_spec (2 * r + 1) Dn) as [E|E|E].
    + apply Z.compare_lt_iff. lia.
    + apply Z.compare_lt_iff. lia.
    + apply Z.compare_gt_iff. lia.
Qed.

Lemma rec_of_shr_1 N Dn :
  0 <= N -> 0 < Dn -> shr_1 (rec_of N Dn) = rec_of N (2 * Dn).
Proof.
  intros HN HD. unfold rec_of.
  assert (Hq : 0 <= N / Dn) by (apply Z.div_pos; lia).
  rewrite shr_1_nonneg by exact Hq.
  pose proof (Z.mod_pos_bound N Dn HD) as B.
  pose proof (Z.div_mod N Dn ltac:(lia)) as E.
  set (q := N / Dn) in *. set (r := N mod Dn) in *. clearbody q r.
  pose proof (Z.div_mod q 2 ltac:(lia)) as E2.
  pose proof (Z.mod_pos_bound q 2 ltac:(lia)) as B2.
  assert (Ediv : N / (2 * Dn) = q / 2).
  { symmetry. apply Z.div_unique with (r := (q mod 2) * Dn + r); [nia|nia]. }
  assert (Emod : N mod (2 * Dn) = (q mod 2) * Dn + r).
  { symmetry. apply Z.mod_unique with (q := q / 2); [nia|nia]. }
  rewrite Ediv, Emod. clear Ediv Emod E.
  assert (Hs : (Dn <=? 2 * r) || negb ((2 * r) mod Dn =? 0)
               = negb (2 * r =? 0)).
  { destruct (Z.eqb_spec (2 * r) 0) as [E0|E0]; cbn [negb].
    - rewrite E0, Z.mod_0_l by lia.
      replace (Dn <=? 0) with false by (symmetry; apply Z.leb_gt; lia).
      reflexivity.
    - destruct (Z.leb_spec Dn (2 * r)); [reflexivity|].
      rewrite Z.mod_small by lia.
      replace (2 * r =? 0) with false by (symmetry; apply Z.eqb_neq; lia).
      reflexivity. }
  rewrite Hs. rewrite Zmod_odd in *. destruct (Z.odd q).
  - replace (2 * Dn <=? 2 * (1 * Dn + r)) with true
      by (symmetry; apply Z.leb_le; lia).
    replace ((2 * (1 * Dn + r)) mod (2 * Dn)) with (2 * r)
      by (apply Z.mod_unique with (q := 1); lia).
    reflexivity.
  - replace (2 * Dn <=? 2 * (0 * Dn + r)) with false
      by (symmetry; apply Z.leb_gt; lia).
    replace ((2 * (0 * Dn + r)) mod (2 * Dn)) with (2 * r)
      by (apply Z.mod_unique with (q := 0); lia).
    reflexivity.
Qed.

Lemma rec_of_iter N Dn k :
  0 <= N -> 0 < Dn ->
  Nat.iter k shr_1 (rec_of N Dn) = rec_of N (Dn * 2 ^ Z.of_nat k).
Proof.
  intros HN HD. induction k as [|k IH].
  - cbn [Nat.iter Z.of_nat]. rewrite Z.pow_0_r, Z.mul_1_r. reflexivity.
  - rewrite Nat.iter_succ, IH.
    assert (0 < 2 ^ Z.of_nat k) by (apply Z.pow_pos_nonneg; lia).
    rewrite rec_of_shr_1 by nia.
    rewrite Nat2Z.inj_succ, Z.pow_succ_r by lia. f_equal. ring.
Qed.

Lemma rec_of_round N Dn :
  0 <= N -> 0 < Dn ->
  round_nearest_even (shr_m (rec_of N Dn)) (loc_of_shr_record (rec_of N Dn))
  = PyFloat.round_half_even_div N Dn.
Proof.
  intros HN HD. unfold rec_of, PyFloat.round_half_even_div. cbv zeta.
  pose proof (Z.mod_pos_bound N Dn HD) as B.
  set (q := N / Dn). set (r := N mod Dn) in *. clearbody q r.
  cbn [shr_m].
  destruct (Z.compare_spec (2 * r) Dn) as [E|E|E].
  - rewrite E, Z.mod_same by lia.
    replace (Dn <=? Dn) with true by (symmetry; apply Z.leb_le; lia).
    reflexivity.
  - replace (Dn <=? 2 * r) with false by (symmetry; apply Z.leb_gt; lia).
    destruct (negb _); reflexivity.
  - replace (Dn <=? 2 * r) with true by (symmetry; apply Z.leb_le; lia).
    replace ((2 * r) mod Dn) with (2 * r - Dn)
      by (apply Z.mod_unique with (q := 1); lia).
    replace (2 * r - Dn =? 0) with false by (symmetry; apply Z.eqb_neq; lia).
    reflexivity.
Qed.

End Fractions.

Section RoundedFractions.

(** The rounding of the quotient [N / Dn] with the location of its rest:
    the bits beyond 53 are shifted out and the fraction is rounded to the
    nearest integer, ties to even; a carry into bit 54 is renormalised, and
    an exponent beyond the range gives an infinity. *)
Lemma binary_round_aux_frac s N Dn e :
  0 <= N -> 0 < Dn -> 2 ^ 52 <= N / Dn -> -1074 <= e ->
  let n := Zdigits2 (N / Dn) - 53 in
  let R := PyFloat.round_half_even_div N (Dn * 2 ^ n) in
  0 <= n /\ 2 ^ 52 <= R <= 2 ^ 53
  /\ 2 ^ 52 * (Dn * 2 ^ n) <= N < 2 ^ 53 * (Dn * 2 ^ n)
  /\ binary_round_aux PyFloat.prec PyFloat.emax s (N / Dn) e
       (new_location Dn (N mod Dn))
     = if R =? 2 ^ 53
       then if e + n + 1 <=? 971
            then S754_finite s (Z.to_pos (2 ^ 52)) (e + n + 1)
            else S754_infinity s
       else if e + n <=? 971
            then S754_finite s (Z.to_pos R) (e + n)
            else S754_infinity s.
Proof.
  intros HN HD Hq He. cbv zeta.
  destruct (N / Dn) as [|P|P] eqn:EP; try lia.
  pose proof (digits2_bounds P) as [Blo Bhi].
  cbn [Zdigits2].
  set (D := Zpos (digits2_pos P)) in *.
  assert (HD53 : 53 <= D).
  { destruct (Z.le_gt_cases 53 D); [assumption|exfalso].
    assert (2 ^ D <= 2 ^ 52) by (apply Z.pow_le_mono_r; lia). lia. }
  set (n := D - 53). assert (Hn : 0 <= n) by (unfold n; lia).
  assert (HN2 : 0 < 2 ^ n) by (apply Z.pow_pos_nonneg; lia).
  assert (Hfrac : 2 ^ 52 * (Dn * 2 ^ n) <= N < 2 ^ 53 * (Dn * 2 ^ n)).
  { pose proof (Z.div_mod N Dn ltac:(lia)) as E.
    pose proof (Z.mod_pos_bound N Dn HD) as B. rewrite EP in E.
    replace D with (53 + n) in Bhi by (unfold n; lia).
    replace (D - 1) with (52 + n) in Blo by (unfold n; lia).
    rewrite Z.pow_add_r in Blo, Bhi by lia. nia. }
  set (R := PyFloat.round_half_even_div N (Dn * 2 ^ n)).
  assert (HDn : 0 < Dn * 2 ^ n) by nia.
  assert (HR : 2 ^ 52 <= R <= 2 ^ 53).
  { unfold R, PyFloat.round_half_even_div. cbv zeta.
    assert (2 ^ 52 <= N / (Dn * 2 ^ n) < 2 ^ 53).
    { split; [apply Z.div_le_lower_bound; lia
             |apply Z.div_lt_upper_bound; lia]. }
    destruct (2 * (N mod (Dn * 2 ^ n)) ?= Dn * 2 ^ n); try lia.
    destruct (Z.even (N / (Dn * 2 ^ n))); lia. }
  split; [exact Hn|]. split; [exact HR|]. split; [exact Hfrac|].
  unfold binary_round_aux, shr_fexp. cbn [Zdigits2]. fold D.
  rewrite fexp_normal by lia.
  replace (D + e - 53 - e) with n by (unfold n; lia).
  rewrite <- EP, rec_of_location by lia.
  assert (Hfirst : forall mrs e1,
            shr (rec_of N Dn) e n = (mrs, e1) ->
            round_nearest_even (shr_m mrs) (loc_of_shr_record mrs) = R
            /\ e1 = e + n).
  { intros mrs e1. destruct n as [|np|np] eqn:En; try lia.
    - cbn [shr]. intros H. inversion H; subst. split; [|lia].
      rewrite rec_of_round by lia. unfold R. f_equal.
      change (2 ^ 0) with 1. lia.
    - cbn [shr]. intros H. inversion H; subst. split; [|reflexivity].
      rewrite iter_pos_nat, rec_of_iter by lia.
      rewrite positive_nat_Z. rewrite rec_of_round by lia. reflexivity. }
  destruct (shr (rec_of N Dn) e n) as [mrs e1].
  destruct (Hfirst mrs e1 eq_refl) as [-> ->].
  destruct (Z.eqb_spec R (2 ^ 53)) as [ER|ER].
  - rewrite ER. change (Zdigits2 (2 ^ 53)) with 54.
    rewrite fexp_normal by lia.
    replace (54 + (e + n) - 53 - (e + n)) with 1 by lia.
    cbn [shr iter_pos shr_record_of_loc shr_1 shr_m].
    unfold PyFloat.emax, PyFloat.prec.
    change (1024 - 53) with 971. reflexivity.
  - destruct R as [|r|r] eqn:ERr; try lia.
    assert (Hdr : Zpos (digits2_pos r) = 53)
      by (apply digits2_unique; change (53 - 1) with 52; lia).
    cbn [Zdigits2]. rewrite Hdr, fexp_normal by lia.
    replace (53 + (e + n) - 53 - (e + n)) with 0 by lia.
    cbn [shr shr_record_of_loc shr_m].
    unfold PyFloat.emax, PyFloat.prec. change (1024 - 53) with 971.
    rewrite Pos2Z.id. reflexivity.
Qed.

End RoundedFractions.

Section Quotients.

Lemma Zdigits2_bounds a :
  0 < a -> 2 ^ (Zdigits2 a - 1) <= a < 2 ^ Zdigits2 a /\ 0 < Zdigits2 a.
Proof.
  intros Ha. destruct a as [|p|p]; try lia. cbn [Zdigits2].
  split; [apply digits2_bounds|lia].
Qed.

(** The quotient of two positive integers, in the range of the normal
    floats: the dividend is shifted left by [s] bits so that the integer
    quotient has 53 or more bits, [n] of which are rounded away. *)
Lemma int_true_div_rounds a b :
  0 < a -> 0 < b -> b <= 2 ^ 1020 * a ->
  let s := Z.max 0 (53 - (Zdigits2 a - Zdigits2 b)) in
  let N := a * 2 ^ s in
  let n := Zdigits2 (N / b) - 53 in
  let R := PyFloat.round_half_even_div N (b * 2 ^ n) in
  0 <= n /\ 0 <= s <= 1074 /\ 2 ^ 52 <= R <= 2 ^ 53
  /\ 2 ^ 52 * (b * 2 ^ n) <= N < 2 ^ 53 * (b * 2 ^ n)
  /\ PyFloat.int_true_div a b
     = if R =? 2 ^ 53
       then if n - s + 1 <=? 971
            then Val (S754_finite false (Z.to_pos (2 ^ 52)) (n - s + 1))
            else Raise (mk_exn OverflowError
                          "integer division result too large for a float")
       else if n - s <=? 971
            then Val (S754_finite false (Z.to_pos R) (n - s))
            else Raise (mk_exn OverflowError
                          "integer division result too large for a float").
Proof.
  intros Ha Hb Hab. cbv zeta.
  destruct (Zdigits2_bounds a Ha) as [[A1 A2] A3].
  destruct (Zdigits2_bounds b Hb) as [[B1 B2] B3].
  set (d1 := Zdigits2 a) in *. set (d2 := Zdigits2 b) in *.
  assert (Hd : d2 - d1 <= 1020).
  { destruct (Z.le_gt_cases (d2 - d1) 1020); [assumption|exfalso].
    assert (2 ^ (1020 + d1) <= 2 ^ (d2 - 1)) by (apply Z.pow_le_mono_r; lia).
    rewrite Z.pow_add_r in H0 by lia. nia. }
  set (s := Z.max 0 (53 - (d1 - d2))).
  assert (Hs : 0 <= s <= 1074) by (unfold s; lia).
  assert (HS : 0 < 2 ^ s) by (apply Z.pow_pos_nonneg; lia).
  set (N := a * 2 ^ s).
  assert (HN : 0 <= N) by (unfold N; nia).
  assert (Hq : 2 ^ 52 <= N / b).
  { apply Z.div_le_lower_bound; [lia|].
    assert (2 ^ (52 + d2) <= 2 ^ (d1 - 1 + s))
      by (apply Z.pow_le_mono_r; unfold s; lia).
    rewrite !Z.pow_add_r in H by lia. unfold N. nia. }
  destruct (binary_round_aux_frac false N b (- s) HN Hb Hq ltac:(lia))
    as (Hn & HR & Hfrac & Hround).
  split; [exact Hn|]. split; [exact Hs|]. split; [exact HR|].
  split; [exact Hfrac|].
  assert (Hcore : SFdiv_core_binary PyFloat.prec PyFloat.emax a 0 b 0
                  = (N / b, - s, new_location b (N mod b))).
  { unfold SFdiv_core_binary. fold d1. fold d2.
    change IntDef.Z.min with Z.min. change IntDef.Z.shiftl with Z.shiftl.
    change IntDef.Z.div_eucl with Z.div_eucl.
    rewrite !Z.add_0_r, !Z.sub_0_l. change (0 - 0) with 0.
    rewrite fexp_normal by lia.
    replace (Z.min (d1 - d2 - 53) 0) with (- s) by (unfold s; lia).
    rewrite Z.opp_involutive.
    assert (Hm : match s with
                 | 0 => a
                 | Zpos _ => Z.shiftl a s
                 | Zneg _ => 0
                 end = N).
    { unfold N. destruct s as [|ps|ps] eqn:Es; try lia.
      rewrite Z.shiftl_mul_pow2 by lia. reflexivity. }
    rewrite Hm. unfold Z.div, Z.modulo.
    destruct (Z.div_eucl N b); reflexivity. }
  unfold PyFloat.int_true_div.
  destruct b as [|pb|pb]; try lia. destruct a as [|pa|pa]; try lia.
  cbn [Z.abs Z.ltb Z.compare xorb].
  rewrite Hcore, Hround.
  replace (- s + (Zdigits2 (N / Zpos pb) - 53))
    with (Zdigits2 (N / Zpos pb) - 53 - s) by lia.
  destruct (_ =? 2 ^ 53).
  - destruct (Zdigits2 (N / Zpos pb) - 53 - s + 1 <=? 971); reflexivity.
  - destruct (Zdigits2 (N / Zpos pb) - 53 - s <=? 971); reflexivity.
Qed.

End Quotients.

Section QuotientsInQ.

Lemma pow2_Q k : (0 <= k)%Z -> (inject_Z (2 ^ k) == 2 ^ k)%Q.
Proof. intros Hk. rewrite Zpower_Qpower by exact Hk. reflexivity. Qed.

Lemma pow2_Q_pos k : (0 < 2 ^ k)%Q.
Proof. apply Qpower_0_lt. reflexivity. Qed.

(** What a finite float denotes: its mantissa times a power of two. *)
Lemma to_Q_pow2 s m e :
  (PyFloat.to_Q (S754_finite s m e)
   == (if s then - inject_Z (Zpos m) else inject_Z (Zpos m)) * 2 ^ e)%Q.
Proof.
  unfold PyFloat.to_Q.
  assert (E : ((if 0 <=? e then inject_Z (Zpos m * 2 ^ e)
                else Zpos m # Z.to_pos (2 ^ (- e)))
               == inject_Z (Zpos m) * 2 ^ e)%Q).
  { destruct (Z.leb_spec 0 e) as [He|He].
    - rewrite inject_Z_mult, pow2_Q by lia. reflexivity.
    - assert (Hp : (0 < 2 ^ (- e))%Z) by (apply Z.pow_pos_nonneg; lia).
      rewrite Qmake_Qdiv, Z2Pos.id by exact Hp.
      rewrite pow2_Q by lia. rewrite Qpower_opp. unfold Qdiv.
      rewrite Qinv_involutive. reflexivity. }
  destruct s; rewrite E; ring.
Qed.

(** The quotient of two positive integers is the nearest float: a mantissa
    [R] of 53 bits (or 2^53 after a carry), at most one half away from the
    exact mantissa [y], at an exponent [E]. *)
Lemma int_true_div_nearest a b x :
  0 < a -> 0 < b -> b <= 2 ^ 1020 * a ->
  PyFloat.int_true_div a b = Val x ->
  exists R E y,
    2 ^ 52 <= R <= 2 ^ 53 /\ -1074 <= E
    /\ x = (if R =? 2 ^ 53
            then S754_finite false (Z.to_pos (2 ^ 52)) (E + 1)
            else S754_finite false (Z.to_pos R) E)
    /\ (if R =? 2 ^ 53 then E + 1 else E) <= 971
    /\ (inject_Z a / inject_Z b == y * 2 ^ E)%Q
    /\ (inject_Z (2 ^ 52) <= y)%Q /\ (y < inject_Z (2 ^ 53))%Q
    /\ (- (1 # 2) <= inject_Z R - y)%Q /\ (inject_Z R - y <= 1 # 2)%Q
    /\ (PyFloat.to_Q x == inject_Z R * 2 ^ E)%Q.
Proof.
  intros Ha Hb Hab Hdiv.
  destruct (int_true_div_rounds a b Ha Hb Hab) as (Hn & Hs & HR & Hfrac & Heq).
  cbv zeta in *.
  set (s := Z.max 0 (53 - (Zdigits2 a - Zdigits2 b))) in *.
  set (N := a * 2 ^ s) in *.
  set (n := Zdigits2 (N / b) - 53) in *.
  set (Den := b * 2 ^ n) in *.
  set (R := PyFloat.round_half_even_div N Den) in *.
  assert (HDen : 0 < Den).
  { unfold Den. assert (0 < 2 ^ n) by (apply Z.pow_pos_nonneg; lia). nia. }
  assert (HDenQ : (0 < inject_Z Den)%Q).
  { change 0%Q with (inject_Z 0). rewrite <- Zlt_Qlt. exact HDen. }
  pose proof (round_half_even_div_nearest N Den ltac:(unfold N; nia) HDen)
    as Hnear.
  fold R in Hnear. apply Z.abs_le in Hnear.
  exists R, (n - s), (inject_Z N / inject_Z Den)%Q.
  split; [exact HR|]. split; [lia|].
  assert (Hx : x = (if R =? 2 ^ 53
                    then S754_finite false (Z.to_pos (2 ^ 52)) (n - s + 1)
                    else S754_finite false (Z.to_pos R) (n - s))
               /\ (if R =? 2 ^ 53 then n - s + 1 else n - s) <= 971).
  { rewrite Heq in Hdiv. destruct (R =? 2 ^ 53).
    - destruct (Z.leb_spec (n - s + 1) 971); inversion Hdiv; auto.
    - destruct (Z.leb_spec (n - s) 971); inversion Hdiv; auto. }
  destruct Hx as [Hx Hrange]. split; [exact Hx|]. split; [exact Hrange|].
  assert (HbQ : ~ (inject_Z b == 0)%Q).
  { change 0%Q with (inject_Z 0). rewrite inject_Z_injective. lia. }
  assert (HDenQ' : ~ (inject_Z Den == 0)%Q).
  { change 0%Q with (inject_Z 0). rewrite inject_Z_injective. lia. }
  assert (H2 : ~ (2 == 0)%Q) by discriminate.
  split.
  { unfold N, Den. rewrite !inject_Z_mult, !pow2_Q by lia.
    rewrite Qpower_minus by exact H2.
    pose proof (pow2_Q_pos n). pose proof (pow2_Q_pos s).
    field. repeat split; try assumption; apply Qnot_eq_sym, Qlt_not_eq;
      assumption. }
  split.
  { apply Qle_shift_div_l; [exact HDenQ|].
    rewrite <- inject_Z_mult, <- Zle_Qle. lia. }
  split.
  { apply Qlt_shift_div_r; [exact HDenQ|].
    rewrite <- inject_Z_mult, <- Zlt_Qlt. lia. }
  assert (Hdiff : (inject_Z R - inject_Z N / inject_Z Den
                   == inject_Z (R * Den - N) / inject_Z Den)%Q).
  { unfold Zminus. rewrite inject_Z_plus, inject_Z_mult, inject_Z_opp.
    field. exact HDenQ'. }
  split.
  { rewrite Hdiff. apply Qle_shift_div_l; [exact HDenQ|].
    assert (E2 : (- (1 # 2) * inject_Z Den == inject_Z (- Den) / 2)%Q).
    { rewrite inject_Z_opp. field. }
    rewrite E2. apply Qle_shift_div_r; [reflexivity|].
    change 2%Q with (inject_Z 2). rewrite <- inject_Z_mult, <- Zle_Qle. lia. }
  split.
  { rewrite Hdiff. apply Qle_shift_div_r; [exact HDenQ|].
    assert (E2 : ((1 # 2) * inject_Z Den == inject_Z Den / 2)%Q) by field.
    rewrite E2. apply Qle_shift_div_l; [reflexivity|].
    change 2%Q with (inject_Z 2). rewrite <- inject_Z_mult, <- Zle_Qle. lia. }
  rewrite Hx. destruct (Z.eqb_spec R (2 ^ 53)) as [ER|ER].
  - rewrite to_Q_pow2, ER. rewrite Z2Pos.id by reflexivity.
    rewrite Qpower_plus by exact H2.
    change (inject_Z (2 ^ 53)) with (inject_Z (2 ^ 52) * 2)%Q.
    rewrite Qpower_1_r. ring.
  - rewrite to_Q_pow2, Z2Pos.id by lia. reflexivity.
Qed.

End QuotientsInQ.

Section QuotientFacts.

(** No overflow below 2^1023. *)
Lemma int_true_div_in_range a b :
  0 < a -> 0 < b -> b <= 2 ^ 1020 * a -> a < 2 ^ 1023 * b ->
  exists x, PyFloat.int_true_div a b = Val x.
Proof.
  intros Ha Hb Hab Hlt.
  destruct (int_true_div_rounds a b Ha Hb Hab) as (Hn & Hs & HR & Hfrac & Heq).
  cbv zeta in *.
  set (s := Z.max 0 (53 - (Zdigits2 a - Zdigits2 b))) in *.
  set (n := Zdigits2 (a * 2 ^ s / b) - 53) in *.
  assert (Hns : n - s < 971).
  { destruct (Z.lt_ge_cases (n - s) 971); [assumption|exfalso].
    assert (2 ^ (1023 + s) <= 2 ^ (52 + n)) by (apply Z.pow_le_mono_r; lia).
    rewrite !Z.pow_add_r in H0 by lia.
    assert (0 < 2 ^ s) by (apply Z.pow_pos_nonneg; lia).
    assert (0 < 2 ^ n) by (apply Z.pow_pos_nonneg; lia).
    nia. }
  rewrite Heq.
  replace (n - s + 1 <=? 971) with true by (symmetry; apply Z.leb_le; lia).
  replace (n - s <=? 971) with true by (symmetry; apply Z.leb_le; lia).
  destruct (_ =? _); eauto.
Qed.

(** The relative error of the quotient is at most 2^-53. *)
Lemma int_true_div_accurate a b x :
  0 < a -> 0 < b -> b <= 2 ^ 1020 * a ->
  PyFloat.int_true_div a b = Val x ->
  (Qabs (PyFloat.to_Q x - inject_Z a / inject_Z b)
   <= inject_Z a / inject_Z b / inject_Z (2 ^ 53))%Q.
Proof.
  intros Ha Hb Hab Hdiv.
  destruct (int_true_div_nearest a b x Ha Hb Hab Hdiv)
    as (R & E & y & HR & HE & Hx & Hrange & Hab' & Hy1 & Hy2 & Hd1 & Hd2 & HQ).
  rewrite HQ, Hab'. pose proof (pow2_Q_pos E) as Ht.
  set (t := (2 ^ E)%Q) in *. clearbody t.
  set (r := inject_Z R) in *. clearbody r.
  change (inject_Z (2 ^ 52)) with 4503599627370496%Q in *.
  change (inject_Z (2 ^ 53)) with 9007199254740992%Q in *.
  apply Qabs_Qle_condition.
  assert (E1 : (r * t - y * t == (r - y) * t)%Q) by ring.
  assert (E2 : (y * t / 9007199254740992 == (y / 9007199254740992) * t)%Q)
    by (field).
  rewrite E1, E2.
  assert (Hy : ((1 # 2) <= y / 9007199254740992)%Q).
  { apply Qle_shift_div_l; [reflexivity|]. lra. }
  split.
  - setoid_replace (- (y / 9007199254740992 * t))%Q
      with ((- (y / 9007199254740992)) * t)%Q by ring.
    apply Qmult_le_compat_r; [lra|apply Qlt_le_weak; exact Ht].
  - apply Qmult_le_compat_r; [lra|apply Qlt_le_weak; exact Ht].
Qed.

End QuotientFacts.

Section QuotientOrder.

Lemma SFltb_finite m1 e1 m2 e2 :
  SFltb (S754_finite false m1 e1) (S754_finite false m2 e2) = true ->
  e1 < e2 \/ (e1 = e2 /\ Zpos m1 < Zpos m2).
Proof.
  unfold SFltb, SFcompare.
  destruct (Z.compare_spec e1 e2) as [E|E|E]; try discriminate; auto.
  change (Pos.compare_cont Eq m1 m2) with (Pos.compare m1 m2).
  destruct (Pos.compare_spec m1 m2); try discriminate. intros _. right. lia.
Qed.

(** A quotient that compares below a float is below it. *)
Lemma int_true_div_ltb a b x A :
  0 < a -> 0 < b -> b <= 2 ^ 1020 * a ->
  PyFloat.int_true_div a b = Val x ->
  valid_binary PyFloat.prec PyFloat.emax A = true ->
  PyFloat.is_finite A = true ->
  PyFloat.ltb x A = true ->
  (inject_Z a / inject_Z b < PyFloat.to_Q A)%Q.
Proof.
  intros Ha Hb Hab Hdiv Hvalid Hfin Hlt.
  destruct (int_true_div_nearest a b x Ha Hb Hab Hdiv)
    as (R & E & y & HR & HE & Hx & Hrange & Hab' & Hy1 & Hy2 & Hd1 & Hd2 & HQ).
  rewrite Hab'. clear Hab' HQ.
  destruct A as [sA|sA| |sA mA eA]; try discriminate Hfin.
  { exfalso. rewrite Hx in Hlt. destruct (R =? 2 ^ 53); discriminate Hlt. }
  destruct sA.
  { exfalso. rewrite Hx in Hlt. destruct (R =? 2 ^ 53); discriminate Hlt. }
  rewrite to_Q_pow2.
  destruct (valid_binary_cases _ _ _ Hvalid) as [He971 Hcases].
  pose proof (digits2_bounds mA) as [Blo Bhi].
  assert (Hnormal : -1074 < eA -> 2 ^ 52 <= Zpos mA).
  { intros H. destruct Hcases as [[Hd _]|[_ Hd]]; [|lia].
    rewrite Hd in Blo. exact Blo. }
  pose proof (pow2_Q_pos E) as Ht. pose proof (pow2_Q_pos eA) as Hu.
  assert (H2 : ~ (2 == 0)%Q) by discriminate.
  assert (Hmono : forall k, E + k <= eA -> 0 <= k ->
                    (inject_Z (2 ^ k) * 2 ^ E <= 2 ^ eA)%Q).
  { intros k Hk Hk0. rewrite pow2_Q by exact Hk0.
    rewrite <- Qpower_plus by exact H2.
    apply Qpower_le_compat_l; [lia|discriminate]. }
  assert (HmA : -1074 < eA -> (inject_Z (2 ^ 52) <= inject_Z (Zpos mA))%Q).
  { intros H. rewrite <- Zle_Qle. auto. }
  unfold PyFloat.ltb in Hlt. rewrite Hx in Hlt.
  set (t := (2 ^ E)%Q) in *. set (u := (2 ^ eA)%Q) in *.
  set (a' := inject_Z (Zpos mA)) in *.
  change (inject_Z (2 ^ 52)) with 4503599627370496%Q in *.
  change (inject_Z (2 ^ 53)) with 9007199254740992%Q in *.
  destruct (Z.eqb_spec R (2 ^ 53)) as [ER|ER].
  - apply SFltb_finite in Hlt. destruct Hlt as [Hlt|[Hlt Hm]].
    + pose proof (Hmono 2 ltac:(lia) ltac:(lia)) as M.
      change (inject_Z (2 ^ 2)) with 4%Q in M.
      specialize (HmA ltac:(lia)). clearbody t u a'. nra.
    + pose proof (Hmono 1 ltac:(lia) ltac:(lia)) as M.
      change (inject_Z (2 ^ 1)) with 2%Q in M.
      rewrite Z2Pos.id in Hm by reflexivity.
      assert (Hm' : (4503599627370496 < a')%Q).
      { unfold a'. change 4503599627370496%Q with (inject_Z (2 ^ 52)).
        rewrite <- Zlt_Qlt. exact Hm. }
      clearbody t u a'. nra.
  - apply SFltb_finite in Hlt. rewrite Z2Pos.id in Hlt by lia.
    destruct Hlt as [Hlt|[Hlt Hm]].
    + pose proof (Hmono 1 ltac:(lia) ltac:(lia)) as M.
      change (inject_Z (2 ^ 1)) with 2%Q in M.
      specialize (HmA ltac:(lia)). clearbody t u a'. nra.
    + assert (Hm' : (inject_Z R + 1 <= a')%Q).
      { unfold a'. change 1%Q with (inject_Z 1).
        rewrite <- inject_Z_plus, <- Zle_Qle. lia. }
      subst eA. fold t in u. subst u.
      set (r := inject_Z R) in *. clearbody t a' r. nra.
Qed.

(** The quotient of a multiple [k * b] by [b] is [k], for [k] below 2^53. *)
Lemma int_true_div_whole k b x :
  0 < k < 2 ^ 53 -> 0 < b ->
  PyFloat.int_true_div (k * b) b = Val x ->
  (PyFloat.to_Q x == inject_Z k)%Q.
Proof.
  intros Hk Hb Hdiv.
  destruct (int_true_div_nearest (k * b) b x ltac:(nia) Hb ltac:(nia) Hdiv)
    as (R & E & y & HR & HE & Hx & Hrange & Hab' & Hy1 & Hy2 & Hd1 & Hd2 & HQ).
  rewrite HQ. clear HQ Hx Hrange.
  assert (HbQ : ~ (inject_Z b == 0)%Q).
  { change 0%Q with (inject_Z 0). rewrite inject_Z_injective. lia. }
  assert (Hk' : (inject_Z k == y * 2 ^ E)%Q).
  { rewrite <- Hab', inject_Z_mult. field. exact HbQ. }
  pose proof (pow2_Q_pos E) as Ht.
  assert (H2 : ~ (2 == 0)%Q) by discriminate.
  assert (HkQ : (inject_Z k < inject_Z (2 ^ 53))%Q)
    by (rewrite <- Zlt_Qlt; lia).
  change (inject_Z (2 ^ 52)) with 4503599627370496%Q in *.
  change (inject_Z (2 ^ 53)) with 9007199254740992%Q in *.
  assert (HE0 : E <= 0).
  { assert (Hlt : (2 ^ E < 2 ^ 1)%Q).
    { rewrite Qpower_1_r. set (t := (2 ^ E)%Q) in *. clearbody t.
      set (kq := inject_Z k) in *. clearbody kq. nra. }
    apply Qpower_lt_compat_l_inv in Hlt; [lia|reflexivity]. }
  (* the exact mantissa is the integer k * 2^(-E) *)
  assert (Hy : (y == inject_Z (k * 2 ^ (- E)))%Q).
  { rewrite inject_Z_mult, pow2_Q by lia. rewrite Hk', Qpower_opp.
    field. apply Qnot_eq_sym, Qlt_not_eq. exact Ht. }
  assert (HRy : R = k * 2 ^ (- E)).
  { rewrite Hy in Hd1, Hd2.
    assert (D1 : (inject_Z (-1) <= inject_Z (2 * (R - k * 2 ^ (- E))))%Q).
    { rewrite inject_Z_mult. unfold Zminus.
      rewrite inject_Z_plus, inject_Z_opp.
      change (inject_Z (-1)) with (-1)%Q. change (inject_Z 2) with 2%Q. lra. }
    assert (D2 : (inject_Z (2 * (R - k * 2 ^ (- E))) <= inject_Z 1)%Q).
    { rewrite inject_Z_mult. unfold Zminus.
      rewrite inject_Z_plus, inject_Z_opp.
      change (inject_Z 1) with 1%Q. change (inject_Z 2) with 2%Q. lra. }
    rewrite <- Zle_Qle in D1, D2. lia. }
  rewrite Hk', Hy, HRy. reflexivity.
Qed.

End QuotientOrder.

Section QuotientOrderConverse.

Lemma SFltb_finite_false m1 e1 m2 e2 :
  SFltb (S754_finite false m1 e1) (S754_finite false m2 e2) = false ->
  e2 < e1 \/ (e1 = e2 /\ Zpos m2 <= Zpos m1).
Proof.
  unfold SFltb, SFcompare.
  destruct (Z.compare_spec e1 e2) as [E|E|E]; try discriminate; auto.
  change (Pos.compare_cont Eq m1 m2) with (Pos.compare m1 m2).
  destruct (Pos.compare_spec m1 m2); try discriminate; intros _; right; lia.
Qed.

(** A quotient that does not compare below a float is at least that float,
    up to the rounding of the quotient. *)
Lemma int_true_div_not_ltb a b x A :
  0 < a -> 0 < b -> b <= 2 ^ 1020 * a ->
  PyFloat.int_true_div a b = Val x ->
  valid_binary PyFloat.prec PyFloat.emax A = true ->
  PyFloat.is_finite A = true ->
  PyFloat.ltb x A = false ->
  (PyFloat.to_Q A <= PyFloat.to_Q x)%Q.
Proof.
  intros Ha Hb Hab Hdiv Hvalid Hfin Hlt.
  destruct (int_true_div_nearest a b x Ha Hb Hab Hdiv)
    as (R & E & y & HR & HE & Hx & Hrange & Hab' & Hy1 & Hy2 & Hd1 & Hd2 & HQ).
  clear Hab' Hy1 Hy2 Hd1 Hd2.
  pose proof (pow2_Q_pos E) as Ht.
  assert (HRQ : (inject_Z (2 ^ 52) <= inject_Z R)%Q)
    by (rewrite <- Zle_Qle; lia).
  destruct A as [sA|sA| |sA mA eA]; try discriminate Hfin.
  { rewrite HQ. cbn [PyFloat.to_Q].
    change (inject_Z (2 ^ 52)) with 4503599627370496%Q in HRQ.
    set (t := (2 ^ E)%Q) in *. set (r := inject_Z R) in *.
    clearbody t r. nra. }
  destruct sA.
  { rewrite HQ, to_Q_pow2. pose proof (pow2_Q_pos eA) as Hu.
    assert (HmQ : (0 < inject_Z (Zpos mA))%Q) by reflexivity.
    change (inject_Z (2 ^ 52)) with 4503599627370496%Q in HRQ.
    set (t := (2 ^ E)%Q) in *. set (r := inject_Z R) in *.
    set (u := (2 ^ eA)%Q) in *. set (a' := inject_Z (Zpos mA)) in *.
    clearbody t r u a'. nra. }
  destruct (valid_binary_cases _ _ _ Hvalid) as [He971 Hcases].
  pose proof (digits2_bounds mA) as [Blo Bhi].
  assert (HmA : Zpos mA < 2 ^ 53).
  { assert (2 ^ Zpos (digits2_pos mA) <= 2 ^ 53)
      by (apply Z.pow_le_mono_r; lia). lia. }
  assert (HmAQ : (inject_Z (Zpos mA) <= inject_Z (2 ^ 53))%Q)
    by (rewrite <- Zle_Qle; lia).
  assert (H2 : ~ (2 == 0)%Q) by discriminate.
  assert (Hmono : forall k, eA + 1 <= k ->
                    (2 * 2 ^ eA <= 2 ^ k)%Q).
  { intros k Hk.
    setoid_replace (2 * 2 ^ eA)%Q with (2 ^ (eA + 1))%Q
      by (rewrite Qpower_plus by exact H2; rewrite Qpower_1_r; ring).
    apply Qpower_le_compat_l; [lia|discriminate]. }
  rewrite to_Q_pow2. pose proof (pow2_Q_pos eA) as Hu.
  unfold PyFloat.ltb in Hlt. rewrite Hx in Hlt. rewrite Hx. clear Hx HQ.
  change (inject_Z (2 ^ 52)) with 4503599627370496%Q in *.
  change (inject_Z (2 ^ 53)) with 9007199254740992%Q in *.
  destruct (Z.eqb_spec R (2 ^ 53)) as [ER|ER].
  - apply SFltb_finite_false in Hlt. rewrite to_Q_pow2.
    rewrite Z2Pos.id in * by reflexivity.
    change (inject_Z (2 ^ 52)) with 4503599627370496%Q.
    destruct Hlt as [Hlt|[Hlt Hm]].
    + pose proof (Hmono (E + 1) ltac:(lia)) as M.
      set (t := (2 ^ (E + 1))%Q) in *. set (u := (2 ^ eA)%Q) in *.
      set (a' := inject_Z (Zpos mA)) in *. clearbody t u a'. nra.
    + rewrite Hlt.
      assert (Hm' : (inject_Z (Zpos mA) <= 4503599627370496)%Q).
      { change 4503599627370496%Q with (inject_Z (2 ^ 52)).
        rewrite <- Zle_Qle. exact Hm. }
      set (u := (2 ^ eA)%Q) in *.
      set (a' := inject_Z (Zpos mA)) in *. clearbody u a'. nra.
  - apply SFltb_finite_false in Hlt. rewrite to_Q_pow2.
    rewrite Z2Pos.id in * by lia.
    destruct Hlt as [Hlt|[Hlt Hm]].
    + pose proof (Hmono E ltac:(lia)) as M.
      set (t := (2 ^ E)%Q) in *. set (u := (2 ^ eA)%Q) in *.
      set (a' := inject_Z (Zpos mA)) in *. set (r := inject_Z R) in *.
      clearbody t u a' r. nra.
    + rewrite Hlt.
      assert (Hm' : (inject_Z (Zpos mA) <= inject_Z R)%Q)
        by (rewrite <- Zle_Qle; exact Hm).
      set (u := (2 ^ eA)%Q) in *.
      set (a' := inject_Z (Zpos mA)) in *. set (r := inject_Z R) in *.
      clearbody u a' r. nra.
Qed.

End QuotientOrderConverse.

(** ** The methods, by what the client answers *)

Section FeeSpecs.
Context {client : ChainClient} {config : Config}.

Lemma estimate_gas_run q w r w1 :
  eth_estimate_gas q w = (r, w1) ->
  estimate_gas q w = (Returns (gas_limit_of r), w1, [EvEstimateGas q r]).
Proof.
  intros Hq. unfold estimate_gas, gas_limit_of, int_times_1_2.
  cbv [try_except except_Exception bind call lift ret]. rewrite Hq.
  destruct r as [n|e]; [|reflexivity].
  destruct (PyFloat.int_mul n PyFloat.f1_2) as [x|e]; [|reflexivity].
  destruct (PyFloat.to_int x) as [g|e]; reflexivity.
Qed.

Lemma get_gas_price_run w r w1 :
  eth_gas_price w = (r, w1) ->
  get_gas_price w
  = (match gas_price_of r with Val g => Returns g | Raise e => Raises e end,
     w1, [EvGasPrice r]).
Proof.
  intros Hq. unfold get_gas_price, gas_price_of, int_times_1_2.
  cbv [try_except except_Exception bind call lift ret]. rewrite Hq.
  destruct r as [n|e].
  - destruct (PyFloat.int_mul n PyFloat.f1_2) as [x|e].
    + destruct (PyFloat.to_int x) as [g|e]; [reflexivity|].
      destruct (to_wei_gwei DEFAULT_GAS_PRICE_GWEI); reflexivity.
    + destruct (to_wei_gwei DEFAULT_GAS_PRICE_GWEI); reflexivity.
  - destruct (to_wei_gwei DEFAULT_GAS_PRICE_GWEI); reflexivity.
Qed.

Lemma wp_estimate_gas_exact q w Q :
  (forall r w1, eth_estimate_gas q w = (r, w1) ->
                Q (Returns (gas_limit_of r)) w1 [EvEstimateGas q r]) ->
  wp (estimate_gas q) w Q.
Proof.
  intros H. unfold wp. destruct (eth_estimate_gas q w) as [r w1] eqn:E.
  rewrite (estimate_gas_run _ _ _ _ E). auto.
Qed.

Lemma wp_get_gas_price_exact w Q :
  (forall r w1, eth_gas_price w = (r, w1) ->
     match gas_price_of r with
     | Val g => Q (Returns g) w1 [EvGasPrice r]
     | Raise e => Q (Raises e) w1 [EvGasPrice r]
     end) ->
  wp get_gas_price w Q.
Proof.
  intros H. unfold wp. destruct (eth_gas_price w) as [r w1] eqn:E.
  rewrite (get_gas_price_run _ _ _ E). specialize (H r w1 eq_refl).
  destruct (gas_price_of r); exact H.
Qed.

(** [get_allowance] with the default spender, by the fate of its steps. *)
Lemma wp_get_allowance_exact owner w Q :
  ((forall co, to_checksum_address owner <> Val co)
   \/ (forall cs, to_checksum_address SPENDER_ADDRESS <> Val cs) ->
   Q (Returns None) w []) ->
  (forall co cs r w1,
      to_checksum_address owner = Val co ->
      to_checksum_address SPENDER_ADDRESS = Val cs ->
      usdt_allowance_call co cs w = (r, w1) ->
      match r with
      | Val a => exists e,
          PyFloat.int_true_div a (10 ^ Z.of_N USDT_DECIMALS) = Raise e
      | Raise _ => True
      end ->
      Q (Returns None) w1 [EvAllowance co cs r]) ->
  (forall co cs a f w1,
      to_checksum_address owner = Val co ->
      to_checksum_address SPENDER_ADDRESS = Val cs ->
      usdt_allowance_call co cs w = (Val a, w1) ->
      PyFloat.int_true_div a (10 ^ Z.of_N USDT_DECIMALS) = Val f ->
      Q (Returns (Some f)) w1 [EvAllowance co cs (Val a)]) ->
  wp (get_allowance owner None) w Q.
Proof.
  intros H0 H1 H2. unfold get_allowance. repeat wp_step; cbn [app];
    first [ eapply H2; first [reflexivity | eassumption]
          | eapply H1; first [reflexivity | eassumption
                             | cbv beta iota; eauto]
          | apply H0; left; intros ?; discriminate
          | apply H0; right; intros ?; discriminate ].
Qed.

Lemma wp_get_usdt_balance_exact address w Q :
  ((forall co, to_checksum_address address <> Val co) ->
   Q (Returns None) w []) ->
  (forall co r w1,
      to_checksum_address address = Val co ->
      usdt_balanceOf_call co w = (r, w1) ->
      match r with
      | Val a => exists e,
          PyFloat.int_true_div a (10 ^ Z.of_N USDT_DECIMALS) = Raise e
      | Raise _ => True
      end ->
      Q (Returns None) w1 [EvBalanceOf co r]) ->
  (forall co a f w1,
      to_checksum_address address = Val co ->
      usdt_balanceOf_call co w = (Val a, w1) ->
      PyFloat.int_true_div a (10 ^ Z.of_N USDT_DECIMALS) = Val f ->
      Q (Returns (Some f)) w1 [EvBalanceOf co (Val a)]) ->
  wp (get_usdt_balance address) w Q.
Proof.
  intros H0 H1 H2. unfold get_usdt_balance. repeat wp_step; cbn [app];
    first [ eapply H2; first [reflexivity | eassumption]
          | eapply H1; first [reflexivity | eassumption
                             | cbv beta iota; eauto]
          | apply H0; intros ?; discriminate ].
Qed.

End FeeSpecs.

Ltac wp_method_exact :=
  lazymatch goal with
  | |- wp (estimate_gas _) _ _ => apply wp_estimate_gas_exact; intros ? ? ?
  | |- wp get_gas_price _ _ =>
      apply wp_get_gas_price_exact; intros ? ? ?;
      destruct (gas_price_of _) eqn:?
  | |- wp (get_allowance _ None) _ _ =>
      apply wp_get_allowance_exact;
      [intros ?|intros ? ? ? ? ? ? ? ?|intros ? ? ? ? ? ? ? ? ?]
  | |- wp (get_usdt_balance _) _ _ =>
      apply wp_get_usdt_balance_exact;
      [intros ?|intros ? ? ? ? ? ?|intros ? ? ? ? ? ? ?]
  | _ => wp_method
  end; wp_red.

Ltac wp_go_exact := repeat first [wp_method_exact | wp_step].

(** Membership of an explicit event in an explicit trace. *)
Ltac in_trace :=
  cbn [In app]; solve [repeat (first [left; reflexivity | right])].

(** ** Token quotients and the amount *)

Section TokenQuotients.
Context {config : Config}.

Lemma pow10_bounds :
  (USDT_DECIMALS <= 300)%N ->
  0 < 10 ^ Z.of_N USDT_DECIMALS <= 2 ^ 1020.
Proof.
  intros Hd. split; [apply Z.pow_pos_nonneg; lia|].
  apply Z.le_trans with (10 ^ 300). 
  - apply Z.pow_le_mono_r; lia.
  - vm_compute. discriminate.
Qed.

(** The quotient of a uint256 by the unit of the token: a float without
    sign, at most 2^-53 away in relative terms, and exact on whole numbers
    of tokens below 2^53. *)
Lemma token_quotient a :
  (USDT_DECIMALS <= 300)%N -> 0 <= a < 2 ^ 256 ->
  exists x,
    PyFloat.int_true_div a (10 ^ Z.of_N USDT_DECIMALS) = Val x
    /\ PyFloat.is_finite x = true /\ PyFloat.sign_bit x = false
    /\ (Qabs (PyFloat.to_Q x
              - inject_Z a / inject_Z (10 ^ Z.of_N USDT_DECIMALS))
        <= inject_Z a / inject_Z (10 ^ Z.of_N USDT_DECIMALS)
           / inject_Z (2 ^ 53))%Q
    /\ (forall k, a = k * 10 ^ Z.of_N USDT_DECIMALS -> k < 2 ^ 53 ->
          (PyFloat.to_Q x == inject_Z k)%Q).
Proof.
  intros Hd Ha. destruct (pow10_bounds Hd) as [Hc1 Hc2].
  set (c := 10 ^ Z.of_N USDT_DECIMALS) in *.
  destruct (Z.eq_dec a 0) as [->|Hnz].
  - exists (S754_zero false). split.
    { unfold PyFloat.int_true_div. destruct c; try lia. reflexivity. }
    split; [reflexivity|]. split; [reflexivity|]. split.
    + cbn [PyFloat.to_Q]. unfold Qdiv. rewrite !Qmult_0_l.
      discriminate.
    + intros k Hk _. assert (k = 0) by nia. subst k. reflexivity.
  - assert (Hpos : 0 < a) by lia.
    assert (Hab : c <= 2 ^ 1020 * a) by nia.
    destruct (int_true_div_in_range a c Hpos Hc1 Hab) as [x Hx].
    { assert (2 ^ 256 <= 2 ^ 1023) by (apply Z.pow_le_mono_r; lia). nia. }
    exists x. split; [exact Hx|].
    destruct (int_true_div_nearest a c x Hpos Hc1 Hab Hx)
      as (R & E & y & _ & _ & Hform & _).
    split; [rewrite Hform; destruct (R =? 2 ^ 53); reflexivity|].
    split; [rewrite Hform; destruct (R =? 2 ^ 53); reflexivity|].
    split; [apply int_true_div_accurate; assumption|].
    intros k Hk Hk53. subst a.
    apply (int_true_div_whole k c x); [nia|assumption|assumption].
Qed.

End TokenQuotients.

Section AmountFacts.
Context {config : Config}.

(** Only a finite amount has a number of base units. *)
Lemma to_base_units_finite amount n :
  to_base_units amount = Val n -> PyFloat.is_finite amount = true.
Proof.
  unfold to_base_units, PyFloat.mul_int.
  destruct (PyFloat.of_int _) as [f|e]; [|discriminate].
  destruct amount as [s|s| |s m e], f as [s'|s'| |s' m' e'];
    cbn [SFmul PyFloat.to_int PyFloat.is_finite]; try discriminate;
    reflexivity.
Qed.

Lemma to_Q_positive m e : (0 < PyFloat.to_Q (S754_finite false m e))%Q.
Proof.
  rewrite to_Q_pow2. apply Qmult_lt_0_compat; [reflexivity|apply pow2_Q_pos].
Qed.

(** A read that compares below the amount is below it. *)
Lemma quotient_below a x amount :
  (USDT_DECIMALS <= 300)%N -> 0 <= a ->
  PyFloat.int_true_div a (10 ^ Z.of_N USDT_DECIMALS) = Val x ->
  valid_binary PyFloat.prec PyFloat.emax amount = true ->
  PyFloat.is_finite amount = true ->
  PyFloat.ltb x amount = true ->
  (inject_Z a < PyFloat.to_Q amount * inject_Z (10 ^ Z.of_N USDT_DECIMALS))%Q.
Proof.
  intros Hd Ha Hx Hvalid Hfin Hlt. destruct (pow10_bounds Hd) as [Hc1 Hc2].
  set (c := 10 ^ Z.of_N USDT_DECIMALS) in *.
  assert (HcQ : (0 < inject_Z c)%Q).
  { change 0%Q with (inject_Z 0). rewrite <- Zlt_Qlt. exact Hc1. }
  destruct (Z.eq_dec a 0) as [->|Hnz].
  - assert (x = S754_zero false).
    { unfold PyFloat.int_true_div in Hx. destruct c; try lia.
      inversion Hx. reflexivity. }
    subst x. change (inject_Z 0) with 0%Q.
    destruct amount as [s|s| |s m e]; try discriminate.
    destruct s; try discriminate.
    apply Qmult_lt_0_compat; [apply to_Q_positive|exact HcQ].
  - pose proof (int_true_div_ltb a c x amount ltac:(lia) Hc1 ltac:(nia)
                  Hx Hvalid Hfin Hlt) as H.
    setoid_replace (inject_Z a) with (inject_Z a / inject_Z c * inject_Z c)%Q
      by (field; apply Qnot_eq_sym, Qlt_not_eq; exact HcQ).
    apply Qmult_lt_compat_r; assumption.
Qed.

End AmountFacts.

Section Covered.
Context {config : Config}.

(** A read that does not compare below the amount covers it, up to the
    rounding of the quotient. *)
Lemma quotient_covers a x amount :
  (USDT_DECIMALS <= 300)%N -> 0 <= a ->
  PyFloat.int_true_div a (10 ^ Z.of_N USDT_DECIMALS) = Val x ->
  valid_binary PyFloat.prec PyFloat.emax amount = true ->
  PyFloat.is_finite amount = true ->
  PyFloat.ltb x amount = false ->
  (PyFloat.to_Q amount * inject_Z (10 ^ Z.of_N USDT_DECIMALS)
   <= inject_Z a * (1 + 1 / inject_Z (2 ^ 53)))%Q.
Proof.
  intros Hd Ha Hx Hvalid Hfin Hlt. destruct (pow10_bounds Hd) as [Hc1 Hc2].
  set (c := 10 ^ Z.of_N USDT_DECIMALS) in *.
  assert (HcQ : (0 < inject_Z c)%Q).
  { change 0%Q with (inject_Z 0). rewrite <- Zlt_Qlt. exact Hc1. }
  change (inject_Z (2 ^ 53)) with 9007199254740992%Q.
  destruct (Z.eq_dec a 0) as [->|Hnz].
  - assert (x = S754_zero false).
    { unfold PyFloat.int_true_div in Hx. destruct c; try lia.
      inversion Hx. reflexivity. }
    subst x. change (inject_Z 0) with 0%Q.
    assert (Hle : (PyFloat.to_Q amount <= 0)%Q).
    { destruct amount as [s|s| |s m e]; try discriminate Hfin.
      - cbn. discriminate.
      - destruct s; [|discriminate Hlt].
        rewrite to_Q_pow2. pose proof (pow2_Q_pos e) as Hu.
        assert (HmQ : (0 < inject_Z (Zpos m))%Q) by reflexivity.
        set (u := (2 ^ e)%Q) in *. set (a' := inject_Z (Zpos m)) in *.
        clearbody u a'. nra. }
    set (q := PyFloat.to_Q amount) in *. set (cq := inject_Z c) in *.
    clearbody q cq. nra.
  - assert (Hpos : 0 < a) by lia.
    assert (Hab : c <= 2 ^ 1020 * a) by nia.
    pose proof (int_true_div_not_ltb a c x amount Hpos Hc1 Hab Hx Hvalid
                  Hfin Hlt) as Hge.
    pose proof (int_true_div_accurate a c x Hpos Hc1 Hab Hx) as Hacc.
    change (inject_Z (2 ^ 53)) with 9007199254740992%Q in Hacc.
    apply Qabs_Qle_condition in Hacc. destruct Hacc as [_ Hacc].
    assert (HaQ : (0 < inject_Z a)%Q).
    { change 0%Q with (inject_Z 0). rewrite <- Zlt_Qlt. exact Hpos. }
    assert (Hq : (inject_Z a / inject_Z c * inject_Z c == inject_Z a)%Q).
    { field. apply Qnot_eq_sym, Qlt_not_eq. exact HcQ. }
    assert (Hq2 : (inject_Z a / inject_Z c / 9007199254740992
                   == inject_Z a / inject_Z c * (1 / 9007199254740992))%Q).
    { field. apply Qnot_eq_sym, Qlt_not_eq. exact HcQ. }
    rewrite Hq2 in Hacc.
    set (q := PyFloat.to_Q amount) in *. set (xq := PyFloat.to_Q x) in *.
    set (cq := inject_Z c) in *. set (aq := inject_Z a) in *.
    set (y := (aq / cq)%Q) in *. clearbody q xq cq aq y.
    rewrite <- Hq. nra.
Qed.

End Covered.

(** ** The number printed for a read, and the refused runs *)

Section Printed.

(** The integer [format_f] prints is the nearest one to the float times
    10^places. *)
Lemma scaled_nearest places x :
  PyFloat.sign_bit x = false ->
  (Qabs (inject_Z (PyFloat.scaled places x)
         - PyFloat.to_Q x * inject_Z (10 ^ Z.of_nat places)) <= 1 # 2)%Q.
Proof.
  intros Hs. destruct x as [s|s| |s m e]; cbn in Hs; subst;
    try (cbn [PyFloat.scaled PyFloat.to_Q]; rewrite Qmult_0_l; discriminate).
  unfold PyFloat.scaled, PyFloat.to_Q.
  set (t := 10 ^ Z.of_nat places).
  assert (Ht : 0 < t) by (apply Z.pow_pos_nonneg; lia).
  destruct (Z.leb_spec 0 e) as [He|He].
  - rewrite (inject_Z_mult (Zpos m * 2 ^ e) t).
    match goal with
    | |- (Qabs ?v <= _)%Q => setoid_replace v with 0%Q by ring
    end.
    discriminate.
  - assert (Hd : 0 < 2 ^ (- e)) by (apply Z.pow_pos_nonneg; lia).
    set (d := 2 ^ (- e)) in *.
    pose proof (round_half_even_div_nearest (Zpos m * t) d ltac:(lia) Hd) as Hn.
    set (r := PyFloat.round_half_even_div (Zpos m * t) d) in *.
    apply Z.abs_le in Hn. destruct Hn as [Hn1 Hn2].
    rewrite Qmake_Qdiv, Z2Pos.id by exact Hd.
    apply Qabs_Qle_condition.
    assert (HdQ : (0 < inject_Z d)%Q).
    { change 0%Q with (inject_Z 0). rewrite <- Zlt_Qlt. exact Hd. }
    assert (Hz1 : 2 * (Zpos m * t) <= 2 * (r * d) + d) by lia.
    assert (Hz2 : 2 * (r * d) <= 2 * (Zpos m * t) + d) by lia.
    clear Hn1 Hn2. rewrite Zle_Qle in Hz1, Hz2.
    rewrite !inject_Z_plus, !inject_Z_mult in Hz1, Hz2.
    change (inject_Z 2) with 2%Q in *.
    assert (Hy : (inject_Z (Zpos m) / inject_Z d * inject_Z d
                  == inject_Z (Zpos m))%Q).
    { field. apply Qnot_eq_sym, Qlt_not_eq. exact HdQ. }
    set (y := (inject_Z (Zpos m) / inject_Z d)%Q) in *.
    set (dq := inject_Z d) in *. set (rq := inject_Z r) in *.
    set (tq := inject_Z t) in *. set (mq := inject_Z (Zpos m)) in *.
    clearbody y dq rq tq mq. rewrite <- Hy in Hz1, Hz2.
    split; nra.
Qed.

End Printed.

Section PrintedQuotient.
Context {config : Config}.

(** The number printed for a read: at most half a millionth, and 2^-53 in
    relative terms, away from the exact quotient. *)
Lemma printed_quotient a x :
  (USDT_DECIMALS <= 300)%N -> 0 <= a < 2 ^ 256 ->
  PyFloat.int_true_div a (10 ^ Z.of_N USDT_DECIMALS) = Val x ->
  (Qabs (inject_Z (PyFloat.scaled 6 x) / inject_Z (10 ^ 6)
         - inject_Z a / inject_Z (10 ^ Z.of_N USDT_DECIMALS))
   <= (1 # 2000000)
      + inject_Z a / inject_Z (10 ^ Z.of_N USDT_DECIMALS)
        / inject_Z (2 ^ 53))%Q.
Proof.
  intros Hd Ha Hx.
  destruct (token_quotient a Hd Ha) as (x' & Hx' & _ & Hs & Hacc & _).
  rewrite Hx in Hx'. inversion Hx'; subst x'. clear Hx'.
  pose proof (scaled_nearest 6 x Hs) as Hn.
  change (inject_Z (10 ^ Z.of_nat 6)) with 1000000%Q in Hn.
  change (inject_Z (10 ^ 6)) with 1000000%Q.
  change (inject_Z (2 ^ 53)) with 9007199254740992%Q in *.
  set (y := (inject_Z a / inject_Z (10 ^ Z.of_N USDT_DECIMALS))%Q) in *.
  set (xq := PyFloat.to_Q x) in *.
  set (sq := inject_Z (PyFloat.scaled 6 x)) in *.
  clearbody y xq sq.
  apply Qabs_Qle_condition in Hn. apply Qabs_Qle_condition in Hacc.
  apply Qabs_Qle_condition.
  destruct Hn as [Hn1 Hn2], Hacc as [Ha1 Ha2].
  assert (E1 : (sq / 1000000 == sq * (1 # 1000000))%Q) by (field).
  assert (E2 : (y / 9007199254740992 == y * (1 # 9007199254740992))%Q)
    by (field).
  rewrite E1, E2. rewrite E2 in Ha1, Ha2.
  split; lra.
Qed.

End PrintedQuotient.

Ltac trace_norm := cbn [app]; rewrite ?app_nil_r.

(** Case analysis on a membership in an explicit trace. *)
Ltac in_cases H :=
  cbn [In] in H;
  repeat (destruct H as [H|H]; [try discriminate H|]);
  try contradiction.

Section FundsRuns.
Context {client : ChainClient} {config : Config}.

(** The run of a withdrawal refused for its allowance, from what the
    client answers. *)
Lemma refused_for_allowance fuel from_wallet amount w source owner spender
      n a w1 q :
  w3_is_address from_wallet = Val true ->
  to_checksum_address from_wallet = Val source ->
  to_base_units amount = Val n ->
  to_checksum_address source = Val owner ->
  to_checksum_address SPENDER_ADDRESS = Val spender ->
  usdt_allowance_call owner spender w = (Val a, w1) ->
  PyFloat.int_true_div a (10 ^ Z.of_N USDT_DECIMALS) = Val q ->
  PyFloat.ltb q amount = true ->
  withdraw_usdt fuel from_wallet amount w
  = (Returns (false, "Insufficient allowance. Available: "
                       ++ PyFloat.format_f 6 q ++ " USDT"),
     w1, [EvAllowance owner spender (Val a)]).
Proof.
  intros Hv Hs Hn Ho Hsp Hcall Hq Hlt.
  cbv [withdraw_usdt withdraw_usdt_body validate_address get_allowance
       try_except except_Exception bind call lift ret].
  rewrite Hv. cbv [negb]. rewrite Hs, Hn, Ho, Hsp, Hcall, Hq, Hlt.
  reflexivity.
Qed.

(** The same for a withdrawal refused for its balance. *)
Lemma refused_for_balance fuel from_wallet amount w source owner spender
      n a w1 qa b w2 qb :
  w3_is_address from_wallet = Val true ->
  to_checksum_address from_wallet = Val source ->
  to_base_units amount = Val n ->
  to_checksum_address source = Val owner ->
  to_checksum_address SPENDER_ADDRESS = Val spender ->
  usdt_allowance_call owner spender w = (Val a, w1) ->
  PyFloat.int_true_div a (10 ^ Z.of_N USDT_DECIMALS) = Val qa ->
  PyFloat.ltb qa amount = false ->
  usdt_balanceOf_call owner w1 = (Val b, w2) ->
  PyFloat.int_true_div b (10 ^ Z.of_N USDT_DECIMALS) = Val qb ->
  PyFloat.ltb qb amount = true ->
  withdraw_usdt fuel from_wallet amount w
  = (Returns (false, "Insufficient balance. Available: "
                       ++ PyFloat.format_f 6 qb ++ " USDT"),
     w2, [EvAllowance owner spender (Val a); EvBalanceOf owner (Val b)]).
Proof.
  intros Hv Hs Hn Ho Hsp Hcall Hq Hlt Hcall2 Hq2 Hlt2.
  cbv [withdraw_usdt withdraw_usdt_body validate_address get_allowance
       get_usdt_balance try_except except_Exception bind call lift ret].
  rewrite Hv. cbv [negb]. rewrite Hs, Hn, Ho, Hsp, Hcall, Hq, Hlt.
  rewrite Hcall2, Hq2, Hlt2.
  reflexivity.
Qed.

(** From a valid address and an amount that converts, the run starts
    with the read of the allowance. *)
Lemma allowance_read_first fuel from_wallet amount w source owner spender
      n a w1 :
  w3_is_address from_wallet = Val true ->
  to_checksum_address from_wallet = Val source ->
  to_base_units amount = Val n ->
  to_checksum_address source = Val owner ->
  to_checksum_address SPENDER_ADDRESS = Val spender ->
  usdt_allowance_call owner spender w = (Val a, w1) ->
  exists o w' rest,
    withdraw_usdt fuel from_wallet amount w
    = (o, w', EvAllowance owner spender (Val a) :: rest).
Proof.
  intros Hv Hs Hn Ho Hsp Hcall.
  destruct (withdraw_usdt fuel from_wallet amount w) as [[o w'] tr] eqn:H.
  exists o, w'.
  cut (exists rest, tr = EvAllowance owner spender (Val a) :: rest).
  { intros [rest ->]. exists rest. reflexivity. }
  revert Hv Hs Hn Ho Hsp Hcall.
  wp_start H. wp_go_exact.
  all: trace_norm; intros Hv Hs Hn Ho Hsp Hcall.
  all: try discriminate.
  all: repeat match goal with
         | E : Val _ = Val _ |- _ => inversion E; subst; clear E
         | E : Raise _ = Val _ |- _ => discriminate E
         | E1 : ?x = Val ?a, E2 : ?x = Val ?b |- _ =>
             rewrite E1 in E2; inversion E2; subst; clear E2
         | E1 : ?x = Raise ?a, E2 : ?x = Val ?b |- _ =>
             rewrite E1 in E2; discriminate E2
         | E1 : ?x = (?r, ?u), E2 : ?x = (Val ?b, ?v) |- _ =>
             rewrite E1 in E2; inversion E2; subst; clear E2
         end.
  all: try (eexists; reflexivity).
  all: exfalso.
  all: match goal with
       | D : (forall co, _ <> Val co) \/ _ |- _ =>
           destruct D as [D|D]; eapply D; eassumption
       | I : false = true <-> _ |- _ =>
           destruct I as [_ I]; discriminate (I ltac:(assumption))
       end.
Qed.

End FundsRuns.

(* ===================================================================== *)
(** * The claims                                                          *)
(* ===================================================================== *)

Section WithdrawalClaims.
Context {client : ChainClient} {config : Config}.

(** C1 (amended).  After a successful broadcast, [withdraw_usdt] returns
    (False, "Transaction failed or was reverted") whenever the run ends
    without a receipt of status 1: when no receipt is found within the
    timeout window, when the receipt has a failure status, and when the
    lookup fails for good.  One message serves all of them. *)
Theorem C1_timeout_and_revert_same_message
        fuel from_wallet amount w o w' tr raw h :
  withdraw_usdt fuel from_wallet amount w = (o, w', tr) ->
  In (EvSendRawTransaction raw (Val h)) tr ->
  o <> OutOfFuel ->
  (forall h' r, In (EvGetTransactionReceipt h' (Val r)) tr -> status r <> 1) ->
  o = Returns (false, "Transaction failed or was reverted").
Proof.
  intros H. wp_start H. wp_go.
  all: trace_norm; intros Hin Hfuel Hno.
  all: try reflexivity.
  all: try (in_cases Hin; fail).
  all: try (contradiction Hfuel; reflexivity).
  all: match goal with Hw : wait_for_transaction _ _ _ _ = _ |- _ =>
         first [ contradiction (wait_never_raises _ _ _ _ _ _ _ Hw)
               | apply wait_some in Hw ] end.
  all: exfalso; eapply Hno;
    [ repeat (first [left; reflexivity | right]); eassumption
    | apply Z.eqb_eq; assumption ].
Qed.

(** C3 (amended).  When the poller obtains a receipt of status 1, the
    transaction it belongs to was broadcast by this run and
    [withdraw_usdt] returns (True, message), where the message holds the
    requested amount in fixed-point notation with six fractional digits,
    whatever USDT_DECIMALS is, and the bscscan URL of the transaction
    hash. *)
Theorem C3_success_message fuel from_wallet amount w o w' tr h r :
  withdraw_usdt fuel from_wallet amount w = (o, w', tr) ->
  In (EvGetTransactionReceipt h (Val r)) tr ->
  status r = 1 ->
  let msg :=
    ("✅ Successfully withdrawn " ++ PyFloat.format_f 6 amount ++ " USDT"
       ++ nl ++ "🔗 Transaction: " ++ "https://bscscan.com/tx/" ++ hex h)%string in
  o = Returns (true, msg)
  /\ contains (PyFloat.format_f 6 amount) msg = true
  /\ contains ("https://bscscan.com/tx/" ++ hex h) msg = true
  /\ exists raw, In (EvSendRawTransaction raw (Val h)) tr.
Proof.
  intros H Hin Hst msg.
  assert (Hc1 : contains (PyFloat.format_f 6 amount) msg = true).
  { unfold msg. apply contains_skip. apply contains_prefix. }
  assert (Hc2 : contains ("https://bscscan.com/tx/" ++ hex h) msg = true).
  { unfold msg. do 5 apply contains_skip. apply contains_refl. }
  cut (o = Returns (true, msg)
       /\ exists raw, In (EvSendRawTransaction raw (Val h)) tr); [tauto|].
  clear Hc1 Hc2. revert Hin Hst. wp_start H. wp_go.
  all: trace_norm; intros Hin Hst.
  all: in_cases Hin.
  all: match goal with Hw : wait_for_transaction _ _ _ _ = _ |- _ =>
         destruct (wait_found _ _ _ _ _ _ _ _ _ Hw Hin) as [E1 E2] end.
  all: inversion E1; subst.
  all: try match goal with E : (status _ =? 1) = false |- _ =>
         rewrite Hst in E; discriminate E end.
  all: split; [reflexivity|].
  all: eexists; cbn [In]; repeat (first [left; reflexivity | right]).
Qed.

(** C4 (amended).  From a valid source address and an amount that
    converts to base units, the first call of [withdraw_usdt] reads the
    allowance the source wallet grants to SPENDER_ADDRESS, both addresses
    in checksum form.  Let a be the integer read and q the binary64
    quotient a / 10^USDT_DECIMALS that [get_allowance] computes.  When q
    compares below the amount, [withdraw_usdt] returns
    (False, "Insufficient allowance. Available: <n> USDT") where <n> is q
    in fixed-point notation with six fractional digits (for an allowance
    that is not negative the number embedded in the message is, in
    millionths, q times 10^6 rounded to the nearest integer), and the read
    of the allowance is the only call of the run: nothing is built, signed
    or broadcast.  In exact arithmetic, for an allowance that fits a
    uint256, at most 300 decimals and an amount that is a binary64 number:
    the refusal is given whenever
    a × (1 + 2^-53) < amount × 10^USDT_DECIMALS, and the number embedded in
    the message is then at most half a millionth plus
    a / 10^USDT_DECIMALS × 2^-53 away from a / 10^USDT_DECIMALS. *)
Theorem C4_insufficient_allowance
        fuel from_wallet amount w source owner spender n a w1 :
  w3_is_address from_wallet = Val true ->
  to_checksum_address from_wallet = Val source ->
  to_base_units amount = Val n ->
  to_checksum_address source = Val owner ->
  to_checksum_address SPENDER_ADDRESS = Val spender ->
  usdt_allowance_call owner spender w = (Val a, w1) ->
  let c := 10 ^ Z.of_N USDT_DECIMALS in
  let label := "Insufficient allowance. Available: " in
  let msg q := (label ++ PyFloat.format_f 6 q ++ " USDT")%string in
  let refused q :=
    withdraw_usdt fuel from_wallet amount w
    = (Returns (false, msg q), w1, [EvAllowance owner spender (Val a)]) in
  (exists o w' rest,
     withdraw_usdt fuel from_wallet amount w
     = (o, w', EvAllowance owner spender (Val a) :: rest))
  /\ (forall q,
        PyFloat.int_true_div a c = Val q -> PyFloat.ltb q amount = true ->
        refused q
        /\ (0 <= a ->
            embedded_millionths label (msg q) = Some (PyFloat.scaled 6 q)))
  /\ ((USDT_DECIMALS <= 300)%N -> 0 <= a < 2 ^ 256 ->
      valid_binary PyFloat.prec PyFloat.emax amount = true ->
      (inject_Z a * (1 + 1 / inject_Z (2 ^ 53))
       < PyFloat.to_Q amount * inject_Z c)%Q ->
      exists q,
        PyFloat.int_true_div a c = Val q /\ PyFloat.ltb q amount = true
        /\ refused q
        /\ embedded_millionths label (msg q) = Some (PyFloat.scaled 6 q)
        /\ (Qabs (inject_Z (PyFloat.scaled 6 q) / inject_Z (10 ^ 6)
                  - inject_Z a / inject_Z c)
            <= (1 # 2000000)
               + inject_Z a / inject_Z c / inject_Z (2 ^ 53))%Q).
Proof.
  intros Hv Hs Hn Ho Hsp Hcall c label msg refused.
  assert (Hemb : forall q,
             PyFloat.int_true_div a c = Val q -> PyFloat.ltb q amount = true ->
             0 <= a ->
             embedded_millionths label (msg q) = Some (PyFloat.scaled 6 q)).
  { intros q Hq Hlt Ha. unfold msg. rewrite format_f_unsigned.
    - apply embedded_fixed, scaled_nonneg.
    - eapply int_true_div_sign; eauto.
      + apply Z.pow_pos_nonneg; lia.
      + eapply ltb_not_nan; eauto.
    - eapply ltb_not_nan; eauto.
    - eapply int_true_div_finite; eauto. }
  assert (Hrun : forall q,
             PyFloat.int_true_div a c = Val q -> PyFloat.ltb q amount = true ->
             refused q).
  { intros q Hq Hlt. unfold refused, msg, label.
    eapply refused_for_allowance; eassumption. }
  split; [eapply allowance_read_first; eassumption|].
  split; [intros q Hq Hlt; split; auto|].
  intros Hd Ha Hvalid Hbelow.
  destruct (token_quotient a Hd Ha) as (q & Hq & _).
  fold c in Hq. exists q.
  assert (Hlt : PyFloat.ltb q amount = true).
  { destruct (PyFloat.ltb q amount) eqn:E; [reflexivity|exfalso].
    pose proof (quotient_covers a q amount Hd (proj1 Ha) Hq Hvalid
                  (to_base_units_finite _ _ Hn) E) as Hc.
    fold c in Hc. apply (Qlt_not_le _ _ Hbelow). exact Hc. }
  repeat split; auto.
  - apply Hemb; auto. lia.
  - apply printed_quotient; assumption.
Qed.

(** C5 (amended).  The balance is only queried after the allowance was
    read and its binary64 quotient found not to be below the amount: a run
    that queries the balance starts with the allowance read, followed by
    the balance query.  From a valid source address and an amount that
    converts to base units, let a and b be the allowance and the balance
    read, and qa, qb their binary64 quotients by 10^USDT_DECIMALS.  When
    qa does not compare below the amount and qb does, [withdraw_usdt]
    returns (False, "Insufficient balance. Available: <n> USDT") where <n>
    is qb in fixed-point notation with six fractional digits (for a
    balance that is not negative the number embedded in the message is,
    in millionths, qb times 10^6 rounded to the nearest integer), and the
    two reads are the whole run: nothing is broadcast.  In exact
    arithmetic, for reads that fit a uint256, at most 300 decimals and an
    amount that is a binary64 number: the refusal is given whenever
    amount × 10^USDT_DECIMALS <= a and
    b × (1 + 2^-53) < amount × 10^USDT_DECIMALS, and the number embedded in
    the message is then at most half a millionth plus
    b / 10^USDT_DECIMALS × 2^-53 away from b / 10^USDT_DECIMALS. *)
Theorem C5_insufficient_balance fuel from_wallet amount w :
  let c := 10 ^ Z.of_N USDT_DECIMALS in
  let label := "Insufficient balance. Available: " in
  let msg q := (label ++ PyFloat.format_f 6 q ++ " USDT")%string in
  (forall o w' tr owner r,
      withdraw_usdt fuel from_wallet amount w = (o, w', tr) ->
      In (EvBalanceOf owner r) tr ->
      exists co cs a qa rest,
        tr = EvAllowance co cs (Val a) :: EvBalanceOf owner r :: rest
        /\ PyFloat.int_true_div a c = Val qa
        /\ PyFloat.ltb qa amount = false)
  /\ (forall source owner spender n a w1 b w2,
        w3_is_address from_wallet = Val true ->
        to_checksum_address from_wallet = Val source ->
        to_base_units amount = Val n ->
        to_checksum_address source = Val owner ->
        to_checksum_address SPENDER_ADDRESS = Val spender ->
        usdt_allowance_call owner spender w = (Val a, w1) ->
        usdt_balanceOf_call owner w1 = (Val b, w2) ->
        let refused q :=
          withdraw_usdt fuel from_wallet amount w
          = (Returns (false, msg q), w2,
             [EvAllowance owner spender (Val a);
              EvBalanceOf owner (Val b)]) in
        (forall qa qb,
            PyFloat.int_true_div a c = Val qa ->
            PyFloat.ltb qa amount = false ->
            PyFloat.int_true_div b c = Val qb ->
            PyFloat.ltb qb amount = true ->
            refused qb
            /\ (0 <= b ->
                embedded_millionths label (msg qb)
                = Some (PyFloat.scaled 6 qb)))
        /\ ((USDT_DECIMALS <= 300)%N ->
            0 <= a < 2 ^ 256 -> 0 <= b < 2 ^ 256 ->
            valid_binary PyFloat.prec PyFloat.emax amount = true ->
            (PyFloat.to_Q amount * inject_Z c <= inject_Z a)%Q ->
            (inject_Z b * (1 + 1 / inject_Z (2 ^ 53))
             < PyFloat.to_Q amount * inject_Z c)%Q ->
            exists qb,
              PyFloat.int_true_div b c = Val qb
              /\ PyFloat.ltb qb amount = true
              /\ refused qb
              /\ embedded_millionths label (msg qb)
                 = Some (PyFloat.scaled 6 qb)
              /\ (Qabs (inject_Z (PyFloat.scaled 6 qb) / inject_Z (10 ^ 6)
                        - inject_Z b / inject_Z c)
                  <= (1 # 2000000)
                     + inject_Z b / inject_Z c / inject_Z (2 ^ 53))%Q)).
Proof.
  intros c label msg. split.
  - intros o w' tr owner r H. revert owner r. wp_start H. wp_go.
    all: trace_norm; intros owner rb Hin.
    all: in_cases Hin.
    all: try match goal with Hw : wait_for_transaction _ _ _ _ = _ |- _ =>
           apply (wait_no_broadcast _ _ _ _ _ _ _ Hw) in Hin; discriminate Hin
         end.
    all: inversion Hin; subst.
    all: do 5 eexists; split; [reflexivity|split; eassumption].
  - intros source owner spender n a w1 b w2 Hv Hs Hn Ho Hsp Hcall Hcall2
           refused.
    assert (Hemb : forall q,
               PyFloat.int_true_div b c = Val q ->
               PyFloat.ltb q amount = true -> 0 <= b ->
               embedded_millionths label (msg q)
               = Some (PyFloat.scaled 6 q)).
    { intros q Hq Hlt Hb. unfold msg. rewrite format_f_unsigned.
      - apply embedded_fixed, scaled_nonneg.
      - eapply int_true_div_sign; eauto.
        + apply Z.pow_pos_nonneg; lia.
        + eapply ltb_not_nan; eauto.
      - eapply ltb_not_nan; eauto.
      - eapply int_true_div_finite; eauto. }
    assert (Hrun : forall qa qb,
               PyFloat.int_true_div a c = Val qa ->
               PyFloat.ltb qa amount = false ->
               PyFloat.int_true_div b c = Val qb ->
               PyFloat.ltb qb amount = true ->
               refused qb).
    { intros qa qb Hqa Hlta Hqb Hltb. unfold refused, msg, label.
      eapply refused_for_balance; eassumption. }
    split; [intros qa qb Hqa Hlta Hqb Hltb; split; eauto|].
    intros Hd Ha Hb Hvalid Hcover Hbelow.
    pose proof (to_base_units_finite _ _ Hn) as Hfin.
    destruct (token_quotient a Hd Ha) as (qa & Hqa & _).
    destruct (token_quotient b Hd Hb) as (qb & Hqb & _).
    fold c in Hqa, Hqb. exists qb.
    assert (Hlta : PyFloat.ltb qa amount = false).
    { destruct (PyFloat.ltb qa amount) eqn:E; [exfalso|reflexivity].
      pose proof (quotient_below a qa amount Hd (proj1 Ha) Hqa Hvalid
                    Hfin E) as Hc.
      fold c in Hc. apply (Qlt_not_le _ _ Hc). exact Hcover. }
    assert (Hltb : PyFloat.ltb qb amount = true).
    { destruct (PyFloat.ltb qb amount) eqn:E; [reflexivity|exfalso].
      pose proof (quotient_covers b qb amount Hd (proj1 Hb) Hqb Hvalid
                    Hfin E) as Hc.
      fold c in Hc. apply (Qlt_not_le _ _ Hbelow). exact Hc. }
    repeat split; eauto.
    + apply Hemb; auto. lia.
    + apply printed_quotient; assumption.
Qed.

(** C6.  A source address that fails the validation of the chain client
    (the check answers false, or raises) makes [withdraw_usdt] return
    (False, "Invalid wallet address") without any call on the chain: the
    trace of the run is empty and the world untouched, so neither the
    allowance nor the balance is queried. *)
Theorem C6_invalid_address fuel from_wallet amount w :
  w3_is_address from_wallet <> Val true ->
  withdraw_usdt fuel from_wallet amount w
  = (Returns (false, "Invalid wallet address"), w, []).
Proof.
  intros Hbad.
  cbv [withdraw_usdt withdraw_usdt_body validate_address try_except
       except_Exception bind lift ret].
  destruct (w3_is_address from_wallet) as [[|]|e]; try reflexivity.
  contradiction Hbad. reflexivity.
Qed.

(** C7.  No exception leaves [withdraw_usdt]: whatever the chain client
    answers or raises, a run never ends in an exception.  An exception out
    of the [try] block becomes the result (False, message), the message
    being one of three prefixes followed by the text of the exception; so
    does every failed read, build, signature, broadcast or receipt lookup.
    With a clock that advances, the run ends and returns a pair of a
    boolean and a message. *)
Theorem C7_no_exception_escapes fuel from_wallet amount w o w' tr :
  withdraw_usdt fuel from_wallet amount w = (o, w', tr) ->
  (forall e, o <> Raises e)
  /\ (forall e w1 t1,
        withdraw_usdt_body fuel from_wallet amount w = (Raises e, w1, t1) ->
        exists prefix,
          In prefix ["Smart contract error: "; "Transaction error: ";
                     "Unexpected error: "]
          /\ o = Returns (false, (prefix ++ exn_str e)%string))
  /\ (forall ev, In ev tr -> failed_step ev = true ->
        exists msg, o = Returns (false, msg))
  /\ (clock_advances -> (61 <= fuel)%nat ->
      exists success msg, o = Returns (success, msg)).
Proof.
  intros H. split; [|split; [|split]].
  - wp_start H. wp_go.
    all: intros e0; try discriminate.
  - intros e w1 t1 Hb. unfold withdraw_usdt, try_except in H.
    rewrite Hb in H. cbv [withdraw_handler ret] in H.
    inversion H; subst. cbn [app In].
    destruct (exn_cls e); eauto 6.
  - wp_start H. wp_go.
    all: trace_norm; intros ev Hin Hf.
    all: try (eexists; reflexivity).
    all: in_cases Hin.
    all: try (subst ev; discriminate Hf).
    all: match goal with Hw : wait_for_transaction _ _ _ _ = _ |- _ =>
           rewrite (wait_no_failure _ _ _ _ _ _ _ Hw) in Hf;
           [discriminate Hf | discriminate | exact Hin] end.
  - intros Hclock Hfuel. wp_start H. wp_go.
    all: eauto.
    all: match goal with Hw : wait_for_transaction _ _ _ _ = _ |- _ =>
           contradiction (wait_has_fuel _ _ _ _ _ _ Hclock Hfuel Hw);
           reflexivity end.
Qed.

(** C9.  A call of [withdraw_usdt] submits the raw transaction at most
    once, and a rejected submission is the last call of the run: nothing
    is retried, and the run ends with a failure result. *)
Theorem C9_single_broadcast fuel from_wallet amount w o w' tr :
  withdraw_usdt fuel from_wallet amount w = (o, w', tr) ->
  (broadcasts tr <= 1)%nat
  /\ forall raw e,
      In (EvSendRawTransaction raw (Raise e)) tr ->
      last tr (EvSleep 0) = EvSendRawTransaction raw (Raise e)
      /\ broadcasts tr = 1%nat
      /\ exists msg, o = Returns (false, msg).
Proof.
  intros H. wp_start H. wp_go.
  all: trace_norm.
  all: split; [|intros raw0 e0 Hin].
  all: try (cbv [broadcasts]; cbn [filter is_broadcast List.length]; lia).
  all: try (in_cases Hin).
  all: try (inversion Hin; subst; cbn [last broadcasts filter is_broadcast List.length];
            repeat split; eauto; fail).
  all: try match goal with Hw : wait_for_transaction _ _ _ _ = _ |- _ =>
         try (apply (wait_no_broadcast _ _ _ _ _ _ _ Hw) in Hin; discriminate Hin);
         pose proof (broadcasts_wait _ _ _ _ _ _ _ Hw) as Hb;
         unfold broadcasts in *; cbn [filter is_broadcast List.length];
         rewrite Hb; lia end.
Qed.

End WithdrawalClaims.

Section PollerClaims.
Context {client : ChainClient}.

(** C10.  The poller answers [None] in two different situations that its
    result does not tell apart: when a receipt lookup fails with any
    exception other than "not found", and when the time is up after
    lookups that all answered "not found". *)
Theorem C10_poller_conflates_error_and_timeout fuel h timeout w o w' tr :
  wait_for_transaction fuel h timeout w = (o, w', tr) ->
  (forall h' e,
      In (EvGetTransactionReceipt h' (Raise e)) tr ->
      is_TransactionNotFound e = false ->
      o = Returns None)
  /\ (forallb pending_step tr = true -> o <> OutOfFuel ->
      o = Returns None /\ (timeout <= time w' - time w)%Q).
Proof.
  intros H. apply wait_spec in H.
  destruct H as (pre & last & o' & -> & Hpre & Hend & ->). split.
  - intros h' e Hin He. apply in_app_or in Hin. destruct Hin as [Hin|Hin].
    + exfalso. revert Hin. apply pending_not_in; auto.
    + inversion Hend; subst; cbn in Hin; try tauto;
        destruct Hin as [Hin|[]]; inversion Hin; subst; reflexivity.
  - intros Hall Hfuel. rewrite forallb_app, Hpre in Hall. cbn in Hall.
    inversion Hend; subst; cbn in *; try discriminate; auto.
    + contradiction Hfuel. reflexivity.
    + rewrite H in Hall. discriminate.
Qed.

End PollerClaims.

Section NumericClaims.
Context {client : ChainClient} {config : Config}.

(** C2 (amended).  The conversion to base units is
    [int(amount * 10**USDT_DECIMALS)] in binary64 arithmetic.  For a
    finite amount and at most 22 decimals it is exact, equal to
    amount × 10^USDT_DECIMALS, whenever that product is an integer of at
    most 53 significant bits (below 2^1023): then neither the product nor
    the truncation rounds. *)
Theorem C2_exact_when_product_fits amount n :
  valid_binary PyFloat.prec PyFloat.emax amount = true ->
  PyFloat.is_finite amount = true ->
  (USDT_DECIMALS <= 22)%N ->
  (PyFloat.to_Q amount * inject_Z (10 ^ Z.of_N USDT_DECIMALS)
   == inject_Z n)%Q ->
  PyFloat.fits_binary64 n = true ->
  Z.abs n < 2 ^ 1023 ->
  to_base_units amount = Val n.
Proof.
  intros Hvalid Hfin Hd HQ Hfits Hrange. unfold to_base_units.
  assert (Hd' : 0 <= Z.of_N USDT_DECIMALS <= 22) by lia.
  destruct amount as [s|s| |s m e]; try discriminate Hfin.
  - (* a zero *)
    assert (n = 0).
    { cbn [PyFloat.to_Q] in HQ. unfold Qeq, Qmult, inject_Z in HQ.
      cbn [Qnum Qden] in HQ. lia. }
    subst n.
    destruct (of_int_pow10 _ Hd') as (M & eM & HofM & _).
    unfold PyFloat.mul_int. rewrite HofM. reflexivity.
  - destruct (mul_pow10_exact s m e _ n Hvalid Hd' HQ Hfits Hrange)
      as (x & Hx & Hto).
    rewrite Hx. exact Hto.
Qed.

(** C8 (amended).  [get_gas_price] makes one query.  When the query
    fails it returns DEFAULT_GAS_PRICE_GWEI × 10^9, the default in wei;
    when it answers a price below 2^50 wei it returns the integer part of
    price × 1.2; and for a default within the range of a uint256 it
    returns an integer whatever the query does. *)
Theorem C8_gas_price w r w1 :
  eth_gas_price w = (r, w1) ->
  let default := DEFAULT_GAS_PRICE_GWEI * 10 ^ 9 in
  (forall e, r = Raise e -> 0 <= default <= 2 ^ 256 - 1 ->
     get_gas_price w = (Returns default, w1, [EvGasPrice r]))
  /\ (forall price, r = Val price -> 0 <= price < 2 ^ 50 ->
        get_gas_price w = (Returns (6 * price / 5), w1, [EvGasPrice r]))
  /\ (0 <= default <= 2 ^ 256 - 1 ->
      exists g, get_gas_price w = (Returns g, w1, [EvGasPrice r])).
Proof.
  intros Hq default.
  assert (Hdef : 0 <= default <= 2 ^ 256 - 1 ->
                 to_wei_gwei DEFAULT_GAS_PRICE_GWEI = Val default).
  { intros [H1 H2]. unfold to_wei_gwei. fold default.
    apply Z.leb_le in H1, H2. rewrite H1, H2. reflexivity. }
  unfold get_gas_price.
  cbv [try_except except_Exception bind call lift ret].
  rewrite Hq. split; [|split].
  - intros e -> Hrange. rewrite (Hdef Hrange). reflexivity.
  - intros price -> Hprice.
    destruct (int_mul_1_2 price Hprice) as (x & Hx & Hto).
    rewrite Hx, Hto. reflexivity.
  - intros Hrange. rewrite (Hdef Hrange).
    destruct r as [price|e]; [|eauto].
    destruct (PyFloat.int_mul price PyFloat.f1_2) as [x|e]; [|eauto].
    destruct (PyFloat.to_int x) as [g|e]; eauto.
Qed.

End NumericClaims.

(* ===================================================================== *)
(** * Concrete runs                                                       *)
(* ===================================================================== *)

Lemma scripted_clock sc : @clock_advances (scripted sc).
Proof.
  split.
  - intros h w. cbn. apply Qle_refl.
  - intros d w. cbn. apply Qle_refl.
Qed.

(** C1, counterexample.  On a chain where no receipt ever shows up the run
    polls sixty times, until the clock reads 120 s, and returns the very
    result of a run whose receipt has status 0: neither message is
    "confirmation timeout" or "reverted", and they do not differ. *)
Lemma C1_counterexample :
  let timed_out :=
    @withdraw_usdt (scripted timeout_chain) bsc_config 61 "0xW" f200 w0 in
  let reverted :=
    @withdraw_usdt (scripted revert_chain) bsc_config 61 "0xW" f200 w0 in
  fst (fst timed_out) = Returns (false, "Transaction failed or was reverted")
  /\ snd (fst timed_out) = (120%Q, 60%nat)
  /\ forallb pending_step (skipn 8 (snd timed_out)) = true
  /\ In (@EvGetTransactionReceipt (scripted revert_chain) "abc"
                                   (Val (mk_receipt 0))) (snd reverted)
  /\ fst (fst reverted) = fst (fst timed_out)
  /\ fst (fst timed_out) <> Returns (false, "confirmation timeout")
  /\ fst (fst reverted) <> Returns (false, "reverted").
Proof.
  vm_compute. repeat split; try discriminate.
  do 8 right. left. reflexivity.
Qed.

(** C1 on the run whose receipt shows a revert. *)
Lemma C1_witness :
  let run :=
    @withdraw_usdt (scripted revert_chain) bsc_config 61 "0xW" f200 w0 in
  In (@EvSendRawTransaction (scripted revert_chain) "signed" (Val "abc"))
     (snd run)
  /\ fst (fst run) = Returns (false, "Transaction failed or was reverted").
Proof.
  cbv zeta.
  assert (Hin : In (@EvSendRawTransaction (scripted revert_chain)
                                          "signed" (Val "abc"))
                   (snd (@withdraw_usdt (scripted revert_chain) bsc_config
                                        61 "0xW" f200 w0))).
  { vm_compute. do 7 right. left. reflexivity. }
  split; [exact Hin|].
  apply (@C1_timeout_and_revert_same_message
           (scripted revert_chain) bsc_config 61 "0xW" f200 w0
           (fst (fst (@withdraw_usdt (scripted revert_chain) bsc_config
                                     61 "0xW" f200 w0)))
           (snd (fst (@withdraw_usdt (scripted revert_chain) bsc_config
                                     61 "0xW" f200 w0)))
           (snd (@withdraw_usdt (scripted revert_chain) bsc_config
                                61 "0xW" f200 w0))
           "signed" "abc").
  - vm_compute. reflexivity.
  - exact Hin.
  - vm_compute. discriminate.
  - clear Hin. vm_compute. intros h' r Hin'.
    repeat (destruct Hin' as [Hin'|Hin']; [try discriminate Hin'|]);
      [|destruct Hin'].
    inversion Hin'. discriminate.
Defined.

(** C2, counterexample.  With 18 decimals the amount 2363.0 is converted
    to 2363·10^18 + 262144 base units, although 2363.0 × 10^18 is the
    integer 2363·10^18: the binary64 product is rounded. *)
Lemma C2_counterexample :
  @to_base_units bsc_config f2363 = Val 2363000000000000262144
  /\ (PyFloat.to_Q f2363 * inject_Z (10 ^ 18) == inject_Z (2363 * 10 ^ 18))%Q
  /\ 2363000000000000262144 <> 2363 * 10 ^ 18.
Proof.
  split; [vm_compute; reflexivity|]. split; [vm_compute; reflexivity|].
  vm_compute. discriminate.
Qed.

(** C2 on the amount 200.0 with 18 decimals: 200·10^18 has 27 significant
    bits. *)
Lemma C2_witness :
  valid_binary PyFloat.prec PyFloat.emax f200 = true
  /\ PyFloat.fits_binary64 (200 * 10 ^ 18) = true
  /\ @to_base_units bsc_config f200 = Val (200 * 10 ^ 18).
Proof.
  split; [reflexivity|]. split; [reflexivity|].
  apply (@C2_exact_when_product_fits bsc_config f200 (200 * 10 ^ 18)).
  - reflexivity.
  - reflexivity.
  - vm_compute. discriminate.
  - vm_compute. reflexivity.
  - reflexivity.
  - vm_compute. reflexivity.
Defined.

(** C3, counterexample.  With 18 decimals a successful withdrawal of 200.0
    reports "200.000000": the amount formatted to the precision of the
    token, "200.000000000000000000", does not occur in the message. *)
Lemma C3_counterexample :
  let run := @withdraw_usdt (scripted happy) bsc_config 61 "0xW" f200 w0 in
  let places := N.to_nat (@USDT_DECIMALS bsc_config) in
  exists msg,
    fst (fst run) = Returns (true, msg)
    /\ In (@EvGetTransactionReceipt (scripted happy) "abc"
                                     (Val (mk_receipt 1))) (snd run)
    /\ PyFloat.format_f places f200 = "200.000000000000000000"
    /\ contains (PyFloat.format_f places f200) msg = false
    /\ contains "200.000000 USDT" msg = true.
Proof.
  eexists. split; [vm_compute; reflexivity|].
  split; [vm_compute; do 12 right; left; reflexivity|].
  repeat split; vm_compute; reflexivity.
Qed.

(** C3 on the successful run. *)
Lemma C3_witness :
  let run := @withdraw_usdt (scripted happy) bsc_config 61 "0xW" f200 w0 in
  In (@EvGetTransactionReceipt (scripted happy) "abc" (Val (mk_receipt 1)))
     (snd run)
  /\ fst (fst run)
     = Returns (true,
                ("✅ Successfully withdrawn 200.000000 USDT" ++ nl
                   ++ "🔗 Transaction: https://bscscan.com/tx/abc")%string).
Proof.
  cbv zeta.
  assert (Hin : In (@EvGetTransactionReceipt (scripted happy) "abc"
                                             (Val (mk_receipt 1)))
                   (snd (@withdraw_usdt (scripted happy) bsc_config 61
                                        "0xW" f200 w0))).
  { vm_compute. do 12 right. left. reflexivity. }
  split; [exact Hin|].
  apply (@C3_success_message (scripted happy) bsc_config 61 "0xW" f200 w0
           (fst (fst (@withdraw_usdt (scripted happy) bsc_config 61
                                     "0xW" f200 w0)))
           (snd (fst (@withdraw_usdt (scripted happy) bsc_config 61
                                     "0xW" f200 w0)))
           (snd (@withdraw_usdt (scripted happy) bsc_config 61
                                "0xW" f200 w0))
           "abc" (mk_receipt 1)).
  - vm_compute. reflexivity.
  - exact Hin.
  - reflexivity.
Defined.

(** C4, counterexample.  With 18 decimals, an allowance of
    200 × 10^18 - 1 base units is below a request of 200.0, yet its
    binary64 quotient is 200.0: the check passes and the transfer of
    200 × 10^18 base units is built (for the sender 0xAgent, while the
    allowance read is that of 0xSpender), signed and broadcast.  And with an
    allowance of one base unit (10^-18 token) a request of 1.0 is refused
    with "Insufficient allowance. Available: 0.000000 USDT": the number in
    the message is 0, the live allowance is not. *)
Lemma C4_counterexample :
  let run :=
    @withdraw_usdt (scripted short_allowance_chain) bsc_config 61
                   "0xW" f200 w0 in
  let dust :=
    @withdraw_usdt (scripted dust_allowance_chain) bsc_config 61
                   "0xW" f1 w0 in
  let label := "Insufficient allowance. Available: " in
  let msg := "Insufficient allowance. Available: 0.000000 USDT" in
  (nth 0 (snd run) (EvSleep 0)
   = @EvAllowance (scripted short_allowance_chain) "0xW" "0xSpender"
                  (Val (200 * 10 ^ 18 - 1))
   /\ (inject_Z (200 * 10 ^ 18 - 1) / inject_Z (10 ^ 18)
       < PyFloat.to_Q f200)%Q
   /\ fst (fst run)
      = Returns (true,
                 ("✅ Successfully withdrawn 200.000000 USDT" ++ nl
                    ++ "🔗 Transaction: https://bscscan.com/tx/abc")%string)
   /\ nth 5 (snd run) (EvSleep 0)
      = @EvBuildTransaction (scripted short_allowance_chain)
                            ("0xW", "0xAgent", 200 * 10 ^ 18)
                            (mk_tx_params "0xAgent" 7 60000 6000000000)
                            (Val (mk_tx_params "0xAgent" 7 60000 6000000000))
   /\ existsb is_sign (snd run) = true
   /\ broadcasts (snd run) = 1%nat)
  /\ (In (@EvAllowance (scripted dust_allowance_chain)
                       "0xW" "0xSpender" (Val 1))
         (snd dust)
      /\ PyFloat.int_true_div 1 (10 ^ 18) = Val f1e_18
      /\ PyFloat.ltb f1e_18 f1 = true
      /\ fst (fst dust) = Returns (false, msg)
      /\ embedded_millionths label msg = Some 0
      /\ ~ (inject_Z 0 / inject_Z (10 ^ 6) == PyFloat.to_Q f1e_18)%Q).
Proof.
  cbv zeta. split.
  - repeat (split; [vm_compute; reflexivity|]). vm_compute. reflexivity.
  - split; [vm_compute; left; reflexivity|].
    repeat (split; [vm_compute; reflexivity|]).
    intros H. vm_compute in H. discriminate H.
Qed.

(** C4 on the run with an allowance of one base unit. *)
Lemma C4_witness :
  let run :=
    @withdraw_usdt (scripted dust_allowance_chain) bsc_config 61
                   "0xW" f1 w0 in
  PyFloat.ltb f1e_18 f1 = true
  /\ (inject_Z 1 * (1 + 1 / inject_Z (2 ^ 53))
      < PyFloat.to_Q f1 * inject_Z (10 ^ 18))%Q
  /\ run
     = (Returns (false, "Insufficient allowance. Available: 0.000000 USDT"),
        w0,
        [@EvAllowance (scripted dust_allowance_chain)
                      "0xW" "0xSpender" (Val 1)])
  /\ exists q,
       PyFloat.int_true_div 1 (10 ^ 18) = Val q
       /\ (Qabs (inject_Z (PyFloat.scaled 6 q) / inject_Z (10 ^ 6)
                 - inject_Z 1 / inject_Z (10 ^ 18))
           <= (1 # 2000000)
              + inject_Z 1 / inject_Z (10 ^ 18) / inject_Z (2 ^ 53))%Q.
Proof.
  cbv zeta.
  assert (Hq : (inject_Z 1 * (1 + 1 / inject_Z (2 ^ 53))
                < PyFloat.to_Q f1 * inject_Z (10 ^ 18))%Q).
  { vm_compute. reflexivity. }
  split; [reflexivity|]. split; [exact Hq|].
  destruct (@C4_insufficient_allowance
              (scripted dust_allowance_chain) bsc_config 61 "0xW" f1 w0
              "0xW" "0xW" "0xSpender" (10 ^ 18) 1 w0)
    as (_ & Hfloat & Hexact).
  - vm_compute. reflexivity.
  - vm_compute. reflexivity.
  - vm_compute. reflexivity.
  - reflexivity.
  - reflexivity.
  - reflexivity.
  - split.
    + destruct (Hfloat f1e_18) as [Hrun _].
      * vm_compute. reflexivity.
      * reflexivity.
      * exact Hrun.
    + destruct Hexact as (q & Hdiv & _ & _ & _ & Hb).
      * vm_compute. discriminate.
      * split; [discriminate|reflexivity].
      * reflexivity.
      * exact Hq.
      * exists q. split; [exact Hdiv|exact Hb].
Defined.

(** C5, counterexample.  With 18 decimals and an allowance of 500
    tokens, a balance of 200 × 10^18 - 1 base units is below a request of
    200.0, yet its binary64 quotient is 200.0: the check passes and the
    transfer is broadcast.  And with an allowance of one token and a
    balance of one base unit, a request of 0.5 is refused with
    "Insufficient balance. Available: 0.000000 USDT": the number in the
    message is 0, the live balance is not. *)
Lemma C5_counterexample :
  let run :=
    @withdraw_usdt (scripted short_balance_chain) bsc_config 61
                   "0xW" f200 w0 in
  let dust :=
    @withdraw_usdt (scripted dust_balance_chain) bsc_config 61
                   "0xW" f0_5 w0 in
  let label := "Insufficient balance. Available: " in
  let msg := "Insufficient balance. Available: 0.000000 USDT" in
  (nth 0 (snd run) (EvSleep 0)
   = @EvAllowance (scripted short_balance_chain) "0xW" "0xSpender"
                  (Val (500 * 10 ^ 18))
   /\ nth 1 (snd run) (EvSleep 0)
      = @EvBalanceOf (scripted short_balance_chain) "0xW"
                     (Val (200 * 10 ^ 18 - 1))
   /\ (PyFloat.to_Q f200
       <= inject_Z (500 * 10 ^ 18) / inject_Z (10 ^ 18))%Q
   /\ (inject_Z (200 * 10 ^ 18 - 1) / inject_Z (10 ^ 18)
       < PyFloat.to_Q f200)%Q
   /\ fst (fst run)
      = Returns (true,
                 ("✅ Successfully withdrawn 200.000000 USDT" ++ nl
                    ++ "🔗 Transaction: https://bscscan.com/tx/abc")%string)
   /\ broadcasts (snd run) = 1%nat)
  /\ (snd dust = [@EvAllowance (scripted dust_balance_chain)
                               "0xW" "0xSpender" (Val (10 ^ 18));
                  EvBalanceOf "0xW" (Val 1)]
      /\ PyFloat.int_true_div (10 ^ 18) (10 ^ 18) = Val f1
      /\ PyFloat.ltb f1 f0_5 = false
      /\ PyFloat.int_true_div 1 (10 ^ 18) = Val f1e_18
      /\ PyFloat.ltb f1e_18 f0_5 = true
      /\ fst (fst dust) = Returns (false, msg)
      /\ embedded_millionths label msg = Some 0
      /\ ~ (inject_Z 0 / inject_Z (10 ^ 6) == PyFloat.to_Q f1e_18)%Q).
Proof.
  cbv zeta. split.
  - do 2 (split; [vm_compute; reflexivity|]).
    split; [vm_compute; discriminate|].
    repeat (split; [vm_compute; reflexivity|]). vm_compute. reflexivity.
  - repeat (split; [vm_compute; reflexivity|]).
    intros H. vm_compute in H. discriminate H.
Qed.

(** C5 on the run with a balance of one base unit. *)
Lemma C5_witness :
  let run :=
    @withdraw_usdt (scripted dust_balance_chain) bsc_config 61
                   "0xW" f0_5 w0 in
  In (@EvBalanceOf (scripted dust_balance_chain) "0xW" (Val 1)) (snd run)
  /\ PyFloat.ltb f1 f0_5 = false
  /\ PyFloat.ltb f1e_18 f0_5 = true
  /\ (PyFloat.to_Q f0_5 * inject_Z (10 ^ 18) <= inject_Z (10 ^ 18))%Q
  /\ (inject_Z 1 * (1 + 1 / inject_Z (2 ^ 53))
      < PyFloat.to_Q f0_5 * inject_Z (10 ^ 18))%Q
  /\ run
     = (Returns (false, "Insufficient balance. Available: 0.000000 USDT"),
        w0,
        [@EvAllowance (scripted dust_balance_chain)
                      "0xW" "0xSpender" (Val (10 ^ 18));
         EvBalanceOf "0xW" (Val 1)])
  /\ (exists co cs a qa rest,
        snd run
        = @EvAllowance (scripted dust_balance_chain) co cs (Val a)
          :: EvBalanceOf "0xW" (Val 1) :: rest
        /\ PyFloat.int_true_div a (10 ^ 18) = Val qa
        /\ PyFloat.ltb qa f0_5 = false)
  /\ exists qb,
       PyFloat.int_true_div 1 (10 ^ 18) = Val qb
       /\ (Qabs (inject_Z (PyFloat.scaled 6 qb) / inject_Z (10 ^ 6)
                 - inject_Z 1 / inject_Z (10 ^ 18))
           <= (1 # 2000000)
              + inject_Z 1 / inject_Z (10 ^ 18) / inject_Z (2 ^ 53))%Q.
Proof.
  cbv zeta.
  assert (Hin : In (@EvBalanceOf (scripted dust_balance_chain) "0xW" (Val 1))
                   (snd (@withdraw_usdt (scripted dust_balance_chain)
                                        bsc_config 61 "0xW" f0_5 w0))).
  { vm_compute. right. left. reflexivity. }
  assert (Hc : (PyFloat.to_Q f0_5 * inject_Z (10 ^ 18)
                <= inject_Z (10 ^ 18))%Q).
  { vm_compute. discriminate. }
  assert (Hb : (inject_Z 1 * (1 + 1 / inject_Z (2 ^ 53))
                < PyFloat.to_Q f0_5 * inject_Z (10 ^ 18))%Q).
  { vm_compute. reflexivity. }
  split; [exact Hin|]. split; [reflexivity|]. split; [reflexivity|].
  split; [exact Hc|]. split; [exact Hb|].
  destruct (@C5_insufficient_balance
              (scripted dust_balance_chain) bsc_config 61 "0xW" f0_5 w0)
    as (Horder & Hforward).
  destruct (Hforward "0xW" "0xW" "0xSpender" (5 * 10 ^ 17) (10 ^ 18) w0 1 w0)
    as (Hfloat & Hexact).
  - vm_compute. reflexivity.
  - vm_compute. reflexivity.
  - vm_compute. reflexivity.
  - reflexivity.
  - reflexivity.
  - reflexivity.
  - reflexivity.
  - split; [|split].
    + destruct (Hfloat f1 f1e_18) as [Hrun _].
      * vm_compute. reflexivity.
      * reflexivity.
      * vm_compute. reflexivity.
      * reflexivity.
      * exact Hrun.
    + apply (Horder
               (fst (fst (@withdraw_usdt (scripted dust_balance_chain)
                                         bsc_config 61 "0xW" f0_5 w0)))
               (snd (fst (@withdraw_usdt (scripted dust_balance_chain)
                                         bsc_config 61 "0xW" f0_5 w0)))
               (snd (@withdraw_usdt (scripted dust_balance_chain)
                                    bsc_config 61 "0xW" f0_5 w0))
               "0xW" (Val 1)).
      * vm_compute. reflexivity.
      * exact Hin.
    + destruct Hexact as (qb & Hdiv & _ & _ & _ & Hbound).
      * vm_compute. discriminate.
      * split; [discriminate|reflexivity].
      * split; [discriminate|reflexivity].
      * reflexivity.
      * exact Hc.
      * exact Hb.
      * exists qb. split; [exact Hdiv|exact Hbound].
Defined.

(** C6 on a chain whose validation rejects the address. *)
Lemma C6_witness :
  @w3_is_address (scripted invalid_chain) "0xW" <> Val true
  /\ @withdraw_usdt (scripted invalid_chain) bsc_config 61 "0xW" f200 w0
     = (Returns (false, "Invalid wallet address"), w0, []).
Proof.
  assert (H : @w3_is_address (scripted invalid_chain) "0xW" <> Val true)
    by discriminate.
  split; [exact H|].
  apply (@C6_invalid_address (scripted invalid_chain) bsc_config
           61 "0xW" f200 w0 H).
Defined.

(** C7 on the run whose broadcast is rejected: the run ends, with the
    result of the handler for [ValueError]. *)
Lemma C7_witness :
  let run :=
    @withdraw_usdt (scripted rejecting_chain) bsc_config 61 "0xW" f200 w0 in
  @clock_advances (scripted rejecting_chain)
  /\ fst (fst run) = Returns (false, "Transaction error: nonce too low").
Proof.
  cbv zeta. split; [apply scripted_clock|].
  destruct (@C7_no_exception_escapes
              (scripted rejecting_chain) bsc_config 61 "0xW" f200 w0
              (fst (fst (@withdraw_usdt (scripted rejecting_chain) bsc_config
                                        61 "0xW" f200 w0)))
              (snd (fst (@withdraw_usdt (scripted rejecting_chain) bsc_config
                                        61 "0xW" f200 w0)))
              (snd (@withdraw_usdt (scripted rejecting_chain) bsc_config
                                   61 "0xW" f200 w0)))
    as (_ & _ & _ & H).
  - vm_compute. reflexivity.
  - destruct (H (scripted_clock _) ltac:(lia)) as (success & msg & E).
    rewrite E. revert E. vm_compute. intros E. inversion E. reflexivity.
Defined.

(** C8, counterexample.  For a queried price of 10^16 + 5 wei the result
    is 12000000000000004, and price × 1.2 rounded down is
    12000000000000006. *)
Lemma C8_counterexample :
  fst (fst (@get_gas_price (scripted dear_gas_chain) bsc_config w0))
  = Returns 12000000000000004
  /\ 6 * (10 ^ 16 + 5) / 5 = 12000000000000006.
Proof. split; vm_compute; reflexivity. Qed.

(** C8 on a price of 5 gwei, and on a node that does not answer. *)
Lemma C8_witness :
  @get_gas_price (scripted happy) bsc_config w0
  = (Returns 6000000000, w0,
     [@EvGasPrice (scripted happy) (Val 5000000000)])
  /\ @get_gas_price (scripted no_gas_price_chain) bsc_config w0
     = (Returns 5000000000, w0,
        [@EvGasPrice (scripted no_gas_price_chain)
                     (Raise (mk_exn OtherException "rpc unavailable"))]).
Proof.
  split.
  - destruct (@C8_gas_price (scripted happy) bsc_config w0
                (Val 5000000000) w0 eq_refl) as (_ & H & _).
    apply (H 5000000000 eq_refl). vm_compute. split; [discriminate|reflexivity].
  - destruct (@C8_gas_price (scripted no_gas_price_chain) bsc_config w0
                _ w0 eq_refl) as (H & _ & _).
    apply (H _ eq_refl). vm_compute. split; discriminate.
Defined.

(** C9 on the run whose broadcast is rejected. *)
Lemma C9_witness :
  let run :=
    @withdraw_usdt (scripted rejecting_chain) bsc_config 61 "0xW" f200 w0 in
  In (@EvSendRawTransaction (scripted rejecting_chain) "signed"
        (Raise (mk_exn ValueError "nonce too low"))) (snd run)
  /\ broadcasts (snd run) = 1%nat
  /\ exists msg, fst (fst run) = Returns (false, msg).
Proof.
  cbv zeta.
  assert (Hin : In (@EvSendRawTransaction (scripted rejecting_chain) "signed"
                      (Raise (mk_exn ValueError "nonce too low")))
                   (snd (@withdraw_usdt (scripted rejecting_chain) bsc_config
                                        61 "0xW" f200 w0))).
  { vm_compute. do 7 right. left. reflexivity. }
  split; [exact Hin|].
  destruct (@C9_single_broadcast
              (scripted rejecting_chain) bsc_config 61 "0xW" f200 w0
              (fst (fst (@withdraw_usdt (scripted rejecting_chain) bsc_config
                                        61 "0xW" f200 w0)))
              (snd (fst (@withdraw_usdt (scripted rejecting_chain) bsc_config
                                        61 "0xW" f200 w0)))
              (snd (@withdraw_usdt (scripted rejecting_chain) bsc_config
                                   61 "0xW" f200 w0)))
    as [_ H].
  - vm_compute. reflexivity.
  - destruct (H _ _ Hin) as (_ & Hb & Hmsg). split; [exact Hb|exact Hmsg].
Defined.

(** C10 on a lookup that breaks down and on a receipt that never
    comes. *)
Lemma C10_witness :
  let broken :=
    @wait_for_transaction (scripted broken_chain) 61 "abc" 120%Q w0 in
  let timed_out :=
    @wait_for_transaction (scripted timeout_chain) 61 "abc" 120%Q w0 in
  fst (fst broken) = Returns None
  /\ fst (fst timed_out) = Returns None.
Proof.
  cbv zeta. split.
  - destruct (@C10_poller_conflates_error_and_timeout
                (scripted broken_chain) 61 "abc" 120%Q w0
                (fst (fst (@wait_for_transaction (scripted broken_chain) 61
                                                 "abc" 120%Q w0)))
                (snd (fst (@wait_for_transaction (scripted broken_chain) 61
                                                 "abc" 120%Q w0)))
                (snd (@wait_for_transaction (scripted broken_chain) 61
                                            "abc" 120%Q w0)))
      as [H _].
    + vm_compute. reflexivity.
    + apply (H "abc" (mk_exn OtherException "connection reset")).
      * vm_compute. do 2 right. left. reflexivity.
      * reflexivity.
  - destruct (@C10_poller_conflates_error_and_timeout
                (scripted timeout_chain) 61 "abc" 120%Q w0
                (fst (fst (@wait_for_transaction (scripted timeout_chain) 61
                                                 "abc" 120%Q w0)))
                (snd (fst (@wait_for_transaction (scripted timeout_chain) 61
                                                 "abc" 120%Q w0)))
                (snd (@wait_for_transaction (scripted timeout_chain) 61
                                            "abc" 120%Q w0)))
      as [_ H].
    + vm_compute. reflexivity.
    + apply H.
      * vm_compute. reflexivity.
      * vm_compute. discriminate.
Defined.

(* ===================================================================== *)
(** * Further properties of the code                                      *)
(* ===================================================================== *)

(** ** The fee estimators and the readers *)

Section ReadersAndFees.
Context {client : ChainClient} {config : Config}.

(** X1.  [estimate_gas] never fails.  It makes one query and returns an
    integer whatever the node answers: DEFAULT_GAS_LIMIT when the query
    raises, and for an estimate below 2^50 the integer part of
    estimate × 1.2, which is not below the estimate. *)
Theorem X1_estimate_gas_falls_back q w r w1 :
  eth_estimate_gas q w = (r, w1) ->
  (exists g, estimate_gas q w = (Returns g, w1, [EvEstimateGas q r]))
  /\ (forall e, r = Raise e ->
        estimate_gas q w
        = (Returns DEFAULT_GAS_LIMIT, w1, [EvEstimateGas q r]))
  /\ (forall n, r = Val n -> 0 <= n < 2 ^ 50 ->
        estimate_gas q w = (Returns (6 * n / 5), w1, [EvEstimateGas q r])
        /\ n <= 6 * n / 5).
Proof.
  intros Hq. unfold estimate_gas.
  cbv [try_except except_Exception bind call lift ret].
  rewrite Hq. split; [|split].
  - destruct r as [n|e]; [|eauto].
    destruct (PyFloat.int_mul n PyFloat.f1_2) as [x|e]; [|eauto].
    destruct (PyFloat.to_int x) as [g|e]; eauto.
  - intros e ->. reflexivity.
  - intros n -> Hn.
    destruct (int_mul_1_2 n Hn) as (x & Hx & Hto).
    rewrite Hx, Hto. split; [reflexivity|].
    apply Z.div_le_lower_bound; lia.
Qed.

(** X2.  [get_usdt_balance] always returns.  When the checksum conversion
    rejects the address it answers None without a call, the world
    untouched.  Otherwise it makes exactly one balanceOf call, for the
    checksummed address, and answers None when the call raises or the
    quotient is out of the range of a float, and the quotient
    balance / 10^USDT_DECIMALS otherwise. *)
Theorem X2_get_usdt_balance_never_raises address w o w' tr :
  get_usdt_balance address w = (o, w', tr) ->
  (exists res, o = Returns res)
  /\ (forall e, to_checksum_address address = Raise e ->
        o = Returns None /\ w' = w /\ tr = [])
  /\ (forall owner, to_checksum_address address = Val owner ->
        exists r,
          usdt_balanceOf_call owner w = (r, w')
          /\ tr = [EvBalanceOf owner r]
          /\ match r with
             | Raise _ => o = Returns None
             | Val b =>
                 match PyFloat.int_true_div b (10 ^ Z.of_N USDT_DECIMALS) with
                 | Val x => o = Returns (Some x)
                 | Raise _ => o = Returns None
                 end
             end).
Proof.
  unfold get_usdt_balance.
  cbv [try_except except_Exception bind call lift ret].
  destruct (to_checksum_address address) as [owner|e0].
  - destruct (usdt_balanceOf_call owner w) as [[b|e1] w1] eqn:Hc.
    + destruct (PyFloat.int_true_div b _) as [x|e2] eqn:Hd; intros H;
        inversion H; subst; (split; [eauto|split; [discriminate|]]);
        intros owner' E; inversion E; subst; rewrite Hc;
        eexists; (split; [reflexivity|split; [reflexivity|]]);
        cbv beta iota; rewrite Hd; reflexivity.
    + intros H; inversion H; subst. split; [eauto|split; [discriminate|]].
      intros owner' E; inversion E; subst; rewrite Hc.
      eexists; (split; [reflexivity|split; [reflexivity|]]). reflexivity.
  - intros H; inversion H; subst. split; [eauto|split].
    + intros e _. auto.
    + discriminate.
Qed.

End ReadersAndFees.

Section AllowanceReader.
Context {client : ChainClient} {config : Config}.

(** X3.  [get_allowance] always returns.  The spender is SPENDER_ADDRESS
    unless one is given.  When the checksum conversion rejects the owner or
    the spender it answers None without a call, the world untouched.
    Otherwise it makes exactly one allowance call, for the checksummed
    pair, and answers None when the call raises or the quotient is out of
    range, and the quotient allowance / 10^USDT_DECIMALS otherwise. *)
Theorem X3_get_allowance_never_raises owner spender w o w' tr :
  get_allowance owner spender w = (o, w', tr) ->
  let spender' :=
    match spender with None => SPENDER_ADDRESS | Some s => s end in
  (exists res, o = Returns res)
  /\ ((forall co, to_checksum_address owner <> Val co)
      \/ (forall cs, to_checksum_address spender' <> Val cs) ->
      o = Returns None /\ w' = w /\ tr = [])
  /\ (forall co cs,
        to_checksum_address owner = Val co ->
        to_checksum_address spender' = Val cs ->
        exists r,
          usdt_allowance_call co cs w = (r, w')
          /\ tr = [EvAllowance co cs r]
          /\ match r with
             | Raise _ => o = Returns None
             | Val a =>
                 match PyFloat.int_true_div a (10 ^ Z.of_N USDT_DECIMALS) with
                 | Val x => o = Returns (Some x)
                 | Raise _ => o = Returns None
                 end
             end).
Proof.
  unfold get_allowance.
  cbv [try_except except_Exception bind call lift ret].
  set (sp := match spender with None => SPENDER_ADDRESS | Some s => s end).
  destruct (to_checksum_address owner) as [co|e0].
  - destruct (to_checksum_address sp) as [cs|e1].
    + destruct (usdt_allowance_call co cs w) as [[a|e2] w1] eqn:Hc.
      * destruct (PyFloat.int_true_div a _) as [x|e3] eqn:Hdiv; intros H;
          inversion H; subst; cbv zeta;
          (split; [eauto|split;
                          [intros [Hn|Hn]; [destruct (Hn co eq_refl)
                                           |destruct (Hn cs eq_refl)]|]]);
          intros co' cs' E1 E2; inversion E1; inversion E2; subst;
          rewrite Hc; eexists; (split; [reflexivity|split; [reflexivity|]]);
          cbv beta iota; rewrite Hdiv; reflexivity.
      * intros H; inversion H; subst; cbv zeta.
        split; [eauto|split].
        -- intros [Hn|Hn]; [destruct (Hn co eq_refl)|destruct (Hn cs eq_refl)].
        -- intros co' cs' E1 E2; inversion E1; inversion E2; subst.
           rewrite Hc. eexists. split; [reflexivity|split; reflexivity].
    + intros H; inversion H; subst; cbv zeta. split; [eauto|split].
      * auto.
      * intros co' cs' _ E2. discriminate E2.
  - intros H; inversion H; subst; cbv zeta. split; [eauto|split].
    + auto.
    + intros co' cs' E1. discriminate E1.
Qed.

End AllowanceReader.

Section Readers.
Context {client : ChainClient} {config : Config}.

(** X4.  A balance that fits a uint256 is never lost and is reported
    accurately (for at most 300 decimals): [get_usdt_balance] returns a
    finite float without sign whose distance to
    balance / 10^USDT_DECIMALS is at most 2^-53 times that quotient, and
    which is exactly k when the balance is k whole tokens, k below
    2^53. *)
Theorem X4_balance_accuracy address w owner b w1 :
  (USDT_DECIMALS <= 300)%N ->
  to_checksum_address address = Val owner ->
  usdt_balanceOf_call owner w = (Val b, w1) ->
  0 <= b < 2 ^ 256 ->
  exists x,
    get_usdt_balance address w
    = (Returns (Some x), w1, [EvBalanceOf owner (Val b)])
    /\ PyFloat.is_finite x = true /\ PyFloat.sign_bit x = false
    /\ (Qabs (PyFloat.to_Q x
              - inject_Z b / inject_Z (10 ^ Z.of_N USDT_DECIMALS))
        <= inject_Z b / inject_Z (10 ^ Z.of_N USDT_DECIMALS)
           / inject_Z (2 ^ 53))%Q
    /\ (forall k, b = k * 10 ^ Z.of_N USDT_DECIMALS -> k < 2 ^ 53 ->
          (PyFloat.to_Q x == inject_Z k)%Q).
Proof.
  intros Hd Hsum Hcall Hb.
  destruct (token_quotient b Hd Hb) as (x & Hx & Hfin & Hs & Hacc & Hwhole).
  exists x. split; [|repeat split; assumption].
  unfold get_usdt_balance.
  cbv [try_except except_Exception bind call lift ret].
  rewrite Hsum, Hcall, Hx. reflexivity.
Qed.

(** X5.  The same for [get_allowance]: an allowance that fits a uint256
    is returned as a finite float without sign, at most 2^-53 away, in
    relative terms, from allowance / 10^USDT_DECIMALS, and exactly for
    whole tokens below 2^53. *)
Theorem X5_allowance_accuracy owner spender w co cs a w1 :
  (USDT_DECIMALS <= 300)%N ->
  to_checksum_address owner = Val co ->
  to_checksum_address
    (match spender with None => SPENDER_ADDRESS | Some s => s end) = Val cs ->
  usdt_allowance_call co cs w = (Val a, w1) ->
  0 <= a < 2 ^ 256 ->
  exists x,
    get_allowance owner spender w
    = (Returns (Some x), w1, [EvAllowance co cs (Val a)])
    /\ PyFloat.is_finite x = true /\ PyFloat.sign_bit x = false
    /\ (Qabs (PyFloat.to_Q x
              - inject_Z a / inject_Z (10 ^ Z.of_N USDT_DECIMALS))
        <= inject_Z a / inject_Z (10 ^ Z.of_N USDT_DECIMALS)
           / inject_Z (2 ^ 53))%Q
    /\ (forall k, a = k * 10 ^ Z.of_N USDT_DECIMALS -> k < 2 ^ 53 ->
          (PyFloat.to_Q x == inject_Z k)%Q).
Proof.
  intros Hd Hown Hsp Hcall Ha.
  destruct (token_quotient a Hd Ha) as (x & Hx & Hfin & Hs & Hacc & Hwhole).
  exists x. split; [|repeat split; assumption].
  unfold get_allowance.
  cbv [try_except except_Exception bind call lift ret].
  rewrite Hown, Hsp, Hcall, Hx. reflexivity.
Qed.

End Readers.

(** ** The withdrawal *)

Section WithdrawalFlow.
Context {client : ChainClient} {config : Config}.

(** A receipt that the poller returns is the last entry of its trace. *)
Lemma wait_some_last fuel h tmo w r w' tr :
  wait_for_transaction fuel h tmo w = (Returns (Some r), w', tr) ->
  exists pre,
    tr = (pre ++ [EvGetTransactionReceipt h (Val r)])%list
    /\ forallb pending_step pre = true.
Proof.
  intros H. apply wait_spec in H.
  destruct H as (pre & last & o' & -> & Hpre & Hend & E).
  exists pre. split; [|exact Hpre].
  inversion Hend; subst; cbn in E; try discriminate.
  inversion E; subst. reflexivity.
Qed.

(** X11.  Success is reported only on a receipt of status 1.  A run that
    returns True ends with the lookup that returned that receipt, for the
    hash that its one broadcast returned; the message is the success
    message for that hash; and both the allowance and the balance were
    read and found not to be below the amount. *)
Theorem X11_success_needs_receipt fuel from_wallet amount w msg w' tr :
  withdraw_usdt fuel from_wallet amount w = (Returns (true, msg), w', tr) ->
  exists raw h r pre,
    tr = (pre ++ [EvGetTransactionReceipt h (Val r)])%list
    /\ status r = 1
    /\ In (EvSendRawTransaction raw (Val h)) pre
    /\ broadcasts tr = 1%nat
    /\ msg = msg_success amount h
    /\ exists co cs a b allowance balance,
         In (EvAllowance co cs (Val a)) pre
         /\ In (EvBalanceOf co (Val b)) pre
         /\ PyFloat.int_true_div a (10 ^ Z.of_N USDT_DECIMALS) = Val allowance
         /\ PyFloat.ltb allowance amount = false
         /\ PyFloat.int_true_div b (10 ^ Z.of_N USDT_DECIMALS) = Val balance
         /\ PyFloat.ltb balance amount = false.
Proof.
  intros H. remember (Returns (true, msg)) as o eqn:Ho. revert Ho.
  wp_start H. wp_go_exact.
  all: trace_norm; intros Ho; try discriminate Ho.
  all: inversion Ho; subst; clear Ho.
  all: repeat match goal with
         | E1 : ?x = Val ?a, E2 : ?x = Val ?b |- _ =>
             rewrite E1 in E2; inversion E2; subst; clear E2
         end.
  all: match goal with Hw : wait_for_transaction _ _ _ _ = _ |- _ =>
         pose proof (broadcasts_wait _ _ _ _ _ _ _ Hw) as Hb;
         destruct (wait_some_last _ _ _ _ _ _ _ Hw) as (pre & -> & Hpre)
       end.
  all: do 3 eexists.
  all: match goal with
       | |- exists pre0, (?a :: ?b :: ?c :: ?d :: ?e :: ?f :: ?g :: ?h
                            :: ?pre ++ ?l)%list = _ /\ _ =>
           exists (a :: b :: c :: d :: e :: f :: g :: h :: pre)%list
       end.
  all: split; [reflexivity|].
  all: split; [apply Z.eqb_eq; assumption|].
  all: split; [in_trace|].
  all: split; [unfold broadcasts in *; cbn [filter is_broadcast List.length];
               rewrite Hb; reflexivity|].
  all: split; [reflexivity|].
  all: do 6 eexists.
  all: split; [in_trace|]. all: split; [in_trace|].
  all: repeat split; eassumption.
Qed.

(** X12.  The transaction that is built.  Whenever [build_transaction] is
    called, it is called on transferFrom(source, my_address, amount_wei),
    with the checksummed source and amount_wei = int(amount × 10^decimals),
    and with the parameters: from my_address, the nonce that was read in
    this run, as gas what [estimate_gas] makes of the answer to the
    estimate for the call data of that very transfer, and as gas price
    what [get_gas_price] makes of the price read. *)
Theorem X12_transaction_content fuel from_wallet amount w o w' tr f p r :
  withdraw_usdt fuel from_wallet amount w = (o, w', tr) ->
  In (EvBuildTransaction f p r) tr ->
  exists source amount_wei nonce data r_gas r_price,
    to_checksum_address from_wallet = Val source
    /\ to_base_units amount = Val amount_wei
    /\ usdt_transferFrom source my_address amount_wei = Val f
    /\ encode_transaction_data f = Val data
    /\ In (EvTransactionCount my_address (Val nonce)) tr
    /\ In (EvEstimateGas (mk_gas_query my_address USDT_ADDRESS data) r_gas) tr
    /\ In (EvGasPrice r_price) tr
    /\ gas_price_of r_price = Val (tp_gasPrice p)
    /\ p = mk_tx_params my_address nonce (gas_limit_of r_gas) (tp_gasPrice p).
Proof.
  intros H. wp_start H. wp_go_exact.
  all: trace_norm; intros Hin.
  all: in_cases Hin.
  all: try match goal with Hw : wait_for_transaction _ _ _ _ = _ |- _ =>
         apply (wait_no_broadcast _ _ _ _ _ _ _ Hw) in Hin; discriminate Hin
       end.
  all: inversion Hin; subst.
  all: repeat match goal with
         | E1 : ?x = Val ?a, E2 : ?x = Val ?b |- _ =>
             rewrite E1 in E2; inversion E2; subst; clear E2
         end.
  all: do 6 eexists; repeat split; try eassumption; try reflexivity;
       cbn [In]; eauto 12.
Qed.

(** X8.  A read that fails is reported by a fixed message, whatever the
    exception.  When the allowance call raises, that call is the whole
    run and the result is (False, Failed to check allowance); when the
    balanceOf call raises, the run is the allowance read and that call,
    and the result is (False, Failed to check wallet balance).  Neither
    the class nor the text of the exception reaches the result. *)
Theorem X8_read_failures fuel from_wallet amount w o w' tr :
  withdraw_usdt fuel from_wallet amount w = (o, w', tr) ->
  (forall co cs e,
      In (EvAllowance co cs (Raise e)) tr ->
      o = Returns (false, "Failed to check allowance")
      /\ tr = [EvAllowance co cs (Raise e)])
  /\ (forall co e,
        In (EvBalanceOf co (Raise e)) tr ->
        o = Returns (false, "Failed to check wallet balance")
        /\ exists cs a,
            tr = [EvAllowance co cs (Val a); EvBalanceOf co (Raise e)]).
Proof.
  intros H. split.
  - wp_start H. wp_go_exact.
    all: trace_norm; intros co' cs' e' Hin.
    all: in_cases Hin.
    all: try match goal with Hw : wait_for_transaction _ _ _ _ = _ |- _ =>
           apply (wait_no_broadcast _ _ _ _ _ _ _ Hw) in Hin; discriminate Hin
         end.
    all: inversion Hin; subst; split; reflexivity.
  - wp_start H. wp_go_exact.
    all: trace_norm; intros co' e' Hin.
    all: in_cases Hin.
    all: try match goal with Hw : wait_for_transaction _ _ _ _ = _ |- _ =>
           apply (wait_no_broadcast _ _ _ _ _ _ _ Hw) in Hin; discriminate Hin
         end.
    all: inversion Hin; subst.
    all: repeat match goal with
           | E1 : ?x = Val ?a, E2 : ?x = Val ?b |- _ =>
               rewrite E1 in E2; inversion E2; subst; clear E2
           end.
    all: split; [reflexivity|eauto].
Qed.

(** X14.  The addresses of the reads.  The allowance is read for the
    owner obtained by converting the source address to checksum form (the
    conversion is applied twice, in [withdraw_usdt] and in the reader) and
    for the spender SPENDER_ADDRESS in checksum form; the balance is
    read for the same owner. *)
Theorem X14_query_addresses fuel from_wallet amount w o w' tr :
  withdraw_usdt fuel from_wallet amount w = (o, w', tr) ->
  (forall co cs r,
      In (EvAllowance co cs r) tr ->
      exists source,
        to_checksum_address from_wallet = Val source
        /\ to_checksum_address source = Val co
        /\ to_checksum_address SPENDER_ADDRESS = Val cs)
  /\ (forall co r,
        In (EvBalanceOf co r) tr ->
        exists source,
          to_checksum_address from_wallet = Val source
          /\ to_checksum_address source = Val co).
Proof.
  intros H. split.
  - wp_start H. wp_go_exact.
    all: trace_norm; intros co' cs' r' Hin.
    all: in_cases Hin.
    all: try match goal with Hw : wait_for_transaction _ _ _ _ = _ |- _ =>
           apply (wait_no_broadcast _ _ _ _ _ _ _ Hw) in Hin; discriminate Hin
         end.
    all: inversion Hin; subst; eauto.
  - wp_start H. wp_go_exact.
    all: trace_norm; intros co' r' Hin.
    all: in_cases Hin.
    all: try match goal with Hw : wait_for_transaction _ _ _ _ = _ |- _ =>
           apply (wait_no_broadcast _ _ _ _ _ _ _ Hw) in Hin; discriminate Hin
         end.
    all: inversion Hin; subst; eauto.
Qed.

(** X13.  What is broadcast.  Every raw transaction handed to
    [send_raw_transaction] is the raw form of a transaction that was
    built in this run and signed with PRIVATE_KEY. *)
Theorem X13_signed_broadcast fuel from_wallet amount w o w' tr raw r :
  withdraw_usdt fuel from_wallet amount w = (o, w', tr) ->
  In (EvSendRawTransaction raw r) tr ->
  exists f p transaction signed_txn,
    In (EvBuildTransaction f p (Val transaction)) tr
    /\ In (EvSignTransaction transaction (Val signed_txn)) tr
    /\ account_sign_transaction transaction PRIVATE_KEY = Val signed_txn
    /\ raw = raw_transaction signed_txn.
Proof.
  intros H. wp_start H. wp_go_exact.
  all: trace_norm; intros Hin.
  all: in_cases Hin.
  all: try match goal with Hw : wait_for_transaction _ _ _ _ = _ |- _ =>
         apply (wait_no_broadcast _ _ _ _ _ _ _ Hw) in Hin; discriminate Hin
       end.
  all: inversion Hin; subst.
  all: repeat match goal with
         | E : (_, _) = (_, _) |- _ => inversion E; subst; clear E
         end.
  all: do 4 eexists; repeat split; try eassumption; try reflexivity.
  all: try match goal with
           | E : account_sign_transaction _ _ = Val _ |- _ => rewrite E
           end.
  all: in_trace.
Qed.

Lemma wait_indices fuel h tmo w o w' tr :
  wait_for_transaction fuel h tmo w = (o, w', tr) ->
  map step_index tr = repeat 8%nat (List.length tr).
Proof.
  intros H. apply wait_events in H.
  induction tr as [|ev tr IH]; [reflexivity|].
  cbn [forallb] in H. apply andb_true_iff in H. destruct H as [Hev Htr].
  cbn [map List.length repeat]. rewrite (IH Htr).
  destruct ev; try discriminate Hev; reflexivity.
Qed.

(** X15.  The order of the calls.  The calls of a run are an initial
    segment of: allowance, balanceOf, transaction count, gas estimate, gas
    price, build, sign, send, each made once, followed by the calls of the
    poller, which are only made after all eight. *)
Theorem X15_call_order fuel from_wallet amount w o w' tr :
  withdraw_usdt fuel from_wallet amount w = (o, w', tr) ->
  exists n polls,
    map step_index tr = (seq 0 n ++ repeat 8%nat polls)%list
    /\ (n <= 8)%nat /\ (polls <> O -> n = 8%nat).
Proof.
  intros H. wp_start H. wp_go_exact.
  all: trace_norm.
  all: try match goal with Hw : wait_for_transaction _ _ _ _ = _ |- _ =>
         cbn [map step_index]; rewrite (wait_indices _ _ _ _ _ _ _ Hw);
         exists 8%nat; eexists; split; [reflexivity|split; [lia|reflexivity]]
       end.
  all: match goal with
       | |- exists n polls, map step_index ?l = _ /\ _ =>
           exists (List.length l), O
       end.
  all: cbn; split; [reflexivity|split; [lia|congruence]].
Qed.

End WithdrawalFlow.

Section AmountChecks.
Context {client : ChainClient} {config : Config}.

(** X6.  A refusal for lack of funds is justified (for at most 300
    decimals and an amount that is a binary64 number).  When
    [withdraw_usdt] answers that the allowance (the balance) is
    insufficient, the run consists of the read of the allowance (and of
    the balance), and the number of base units read is below
    amount × 10^USDT_DECIMALS as exact rational numbers: the rounding of
    the division never turns a sufficient allowance or balance into a
    refusal. *)
Theorem X6_refusals_justified fuel from_wallet amount w msg w' tr :
  valid_binary PyFloat.prec PyFloat.emax amount = true ->
  (USDT_DECIMALS <= 300)%N ->
  withdraw_usdt fuel from_wallet amount w = (Returns (false, msg), w', tr) ->
  (prefixb "Insufficient allowance" msg = true ->
   exists co cs a,
     tr = [EvAllowance co cs (Val a)]
     /\ (0 <= a ->
         (inject_Z a
          < PyFloat.to_Q amount * inject_Z (10 ^ Z.of_N USDT_DECIMALS))%Q))
  /\ (prefixb "Insufficient balance" msg = true ->
      exists co cs a b,
        tr = [EvAllowance co cs (Val a); EvBalanceOf co (Val b)]
        /\ (0 <= b ->
            (inject_Z b
             < PyFloat.to_Q amount
               * inject_Z (10 ^ Z.of_N USDT_DECIMALS))%Q)).
Proof.
  intros Hvalid Hd H.
  remember (Returns (false, msg)) as o eqn:Ho. revert Ho.
  wp_start H. wp_go_exact.
  all: trace_norm; intros Ho; try discriminate Ho.
  all: inversion Ho; subst; clear Ho.
  all: try match goal with
           | |- context [exn_cls ?e] => destruct (exn_cls e)
           end.
  all: split; intros Hp; try (cbn in Hp; discriminate Hp).
  all: repeat match goal with
         | E1 : ?x = Val ?a, E2 : ?x = Val ?b |- _ =>
             rewrite E1 in E2; inversion E2; subst; clear E2
         end.
  all: match goal with
       | Hn : to_base_units _ = Val _ |- _ =>
           pose proof (to_base_units_finite _ _ Hn) as Hfin
       end.
  all: first [do 3 eexists; split; [reflexivity|]
             |do 4 eexists; split; [reflexivity|]].
  all: intros Hpos; eapply quotient_below; eassumption.
Qed.

(** A float without sign does not compare below an amount that zero does
    not compare below. *)
Lemma ltb_unsigned x amount :
  PyFloat.sign_bit x = false -> PyFloat.is_finite x = true ->
  PyFloat.ltb (S754_zero false) amount = false ->
  PyFloat.ltb x amount = false.
Proof.
  intros Hs Hf H0.
  destruct x as [s|s| |s m e]; try discriminate Hf; cbn in Hs; subst s.
  - destruct amount as [s'|s'| |s' m' e']; exact H0.
  - destruct amount as [s'|[|]| |[|] m' e']; try reflexivity;
      discriminate H0.
Qed.

(** X9.  An amount that is NaN or infinite is refused before any call on
    the chain: the trace is empty, the world untouched and the result a
    failure.  For a valid address and at most 22 decimals the message is
    that of the ValueError of int(nan), under the prefix of the
    ValueError clause, or that of the OverflowError of int(inf), under
    the prefix of the last clause. *)
Theorem X9_non_finite_amount fuel from_wallet amount w o w' tr :
  withdraw_usdt fuel from_wallet amount w = (o, w', tr) ->
  PyFloat.is_finite amount = false ->
  tr = [] /\ w' = w
  /\ (exists msg, o = Returns (false, msg))
  /\ (w3_is_address from_wallet = Val true ->
      (exists source, to_checksum_address from_wallet = Val source) ->
      (USDT_DECIMALS <= 22)%N ->
      o = Returns (false,
                   match amount with
                   | S754_nan =>
                       "Transaction error: cannot convert float NaN to integer"
                   | _ =>
                       "Unexpected error: cannot convert float infinity to integer"
                   end)).
Proof.
  intros H Hnf. revert Hnf. wp_start H. wp_go_exact.
  all: trace_norm; intros Hnf.
  all: try match goal with
           | Hn : to_base_units _ = Val _ |- _ =>
               apply to_base_units_finite in Hn; congruence
           end.
  all: split; [reflexivity|]. all: split; [reflexivity|].
  all: split; [eauto|].
  all: intros Hvalid [source Hsum] Hd.
  all: try match goal with
           | Hb : false = true <-> _ |- _ =>
               destruct Hb as [_ Hb]; specialize (Hb Hvalid); discriminate Hb
           end.
  all: try congruence.
  all: try match goal with
           | Hb : negb _ = _ |- _ => cbn in Hb; discriminate Hb
           end.
  all: match goal with
       | Hn : to_base_units _ = Raise ?e |- _ =>
           assert (He : e = match amount with
                            | S754_nan =>
                                mk_exn ValueError
                                  "cannot convert float NaN to integer"
                            | _ =>
                                mk_exn OverflowError
                                  "cannot convert float infinity to integer"
                            end);
           [|rewrite He; destruct amount; try discriminate Hnf; reflexivity]
       end.
  all: match goal with Hn : to_base_units _ = Raise _ |- _ =>
         revert Hn end.
  all: unfold to_base_units, PyFloat.mul_int.
  all: assert (Hd' : 0 <= Z.of_N USDT_DECIMALS <= 22) by lia.
  all: destruct (of_int_pow10 _ Hd') as (M & eM & -> & _).
  all: destruct amount as [sa|sa| |sa ma ea]; try discriminate Hnf.
  all: cbn [SFmul PyFloat.to_int]; intros Hn; inversion Hn; reflexivity.
Qed.

(** X10.  [withdraw_usdt] has no check on the sign of the amount.  For at
    most 300 decimals and an amount that is not above zero, a uint256
    allowance always passes the allowance check (the balance is queried),
    and a uint256 balance always passes the balance check (the
    transaction count is queried). *)
Theorem X10_no_positivity_check fuel from_wallet amount w o w' tr :
  withdraw_usdt fuel from_wallet amount w = (o, w', tr) ->
  PyFloat.ltb (S754_zero false) amount = false ->
  (USDT_DECIMALS <= 300)%N ->
  (forall co cs a,
      In (EvAllowance co cs (Val a)) tr -> 0 <= a < 2 ^ 256 ->
      exists r, In (EvBalanceOf co r) tr)
  /\ (forall co b,
        In (EvBalanceOf co (Val b)) tr -> 0 <= b < 2 ^ 256 ->
        exists r, In (EvTransactionCount my_address r) tr).
Proof.
  intros H Hle Hd. split.
  - revert Hle. wp_start H. wp_go_exact.
    all: trace_norm; intros Hle co' cs' a' Hin Ha.
    all: in_cases Hin.
    all: try match goal with Hw : wait_for_transaction _ _ _ _ = _ |- _ =>
           apply (wait_no_broadcast _ _ _ _ _ _ _ Hw) in Hin; discriminate Hin
         end.
    all: inversion Hin; subst.
    all: repeat match goal with
           | E1 : ?x = Val ?a, E2 : ?x = Val ?b |- _ =>
               rewrite E1 in E2; inversion E2; subst; clear E2
           end.
    all: try (eexists; in_trace).
    all: destruct (token_quotient a' Hd Ha) as (x & Hx & Hfin & Hs & _).
    all: cbv beta iota in *.
    all: try match goal with
             | Hn : forall co, to_checksum_address ?a <> Val co,
               Hy : to_checksum_address ?a = Val _ |- _ =>
                 destruct (Hn _ Hy)
             end.
    all: try match goal with
             | E : exists _, _ = Raise _ |- _ => destruct E; congruence
             end.
    all: match goal with
         | E1 : PyFloat.int_true_div ?a ?b = Val ?y,
           E2 : PyFloat.ltb ?y _ = true |- _ =>
             rewrite Hx in E1; inversion E1; subst;
             rewrite (ltb_unsigned _ _ Hs Hfin Hle) in E2; discriminate E2
         end.
  - revert Hle. wp_start H. wp_go_exact.
    all: trace_norm; intros Hle co' b' Hin Hb.
    all: in_cases Hin.
    all: try match goal with Hw : wait_for_transaction _ _ _ _ = _ |- _ =>
           apply (wait_no_broadcast _ _ _ _ _ _ _ Hw) in Hin; discriminate Hin
         end.
    all: inversion Hin; subst.
    all: repeat match goal with
           | E1 : ?x = Val ?a, E2 : ?x = Val ?b |- _ =>
               rewrite E1 in E2; inversion E2; subst; clear E2
           end.
    all: try (eexists; in_trace).
    all: destruct (token_quotient b' Hd Hb) as (x & Hx & Hfin & Hs & _).
    all: cbv beta iota in *.
    all: try match goal with
             | Hn : forall co, to_checksum_address ?a <> Val co,
               Hy : to_checksum_address ?a = Val _ |- _ =>
                 destruct (Hn _ Hy)
             end.
    all: try match goal with
             | E : exists _, _ = Raise _ |- _ => destruct E; congruence
             end.
    all: match goal with
         | E1 : PyFloat.int_true_div _ _ = Val ?y,
           E2 : PyFloat.ltb ?y _ = true |- _ =>
             rewrite Hx in E1; inversion E1; subst;
             rewrite (ltb_unsigned _ _ Hs Hfin Hle) in E2; discriminate E2
         end.
Qed.

End AmountChecks.

Section ConversionError.
Context {config : Config}.

(** The powers of ten up to 10^22, as the floats they are. *)
Lemma pow10_Q d M eM :
  0 <= d -> -52 <= eM ->
  Zpos M * 2 ^ (eM + 52) = 10 ^ d * 2 ^ 52 ->
  (inject_Z (10 ^ d) == inject_Z (Zpos M) * 2 ^ eM)%Q.
Proof.
  intros Hd HeM HM.
  assert (H2 : ~ (2 == 0)%Q) by discriminate.
  assert (E : (inject_Z (10 ^ d) * inject_Z (2 ^ 52)
               == inject_Z (Zpos M) * inject_Z (2 ^ (eM + 52)))%Q).
  { rewrite <- !inject_Z_mult, HM. reflexivity. }
  rewrite (pow2_Q (eM + 52)) in E by lia.
  rewrite Qpower_plus in E by exact H2.
  change (inject_Z (2 ^ 52)) with (2 ^ 52)%Q in E.
  assert (Hp : (0 < 2 ^ 52)%Q) by reflexivity.
  set (x := inject_Z (10 ^ d)) in *. set (y := inject_Z (Zpos M)) in *.
  set (t := (2 ^ eM)%Q) in *. set (c := (2 ^ 52)%Q) in *. clearbody x y t c.
  apply Qmult_inj_r with (z := c); [apply Qnot_eq_sym, Qlt_not_eq; exact Hp|].
  rewrite E. ring.
Qed.

(** X20.  The error of the conversion to base units.  For a normal float
    amount and at most 22 decimals, with amount × 10^USDT_DECIMALS below
    2^1023 in absolute value, the conversion returns an integer that
    differs from amount × 10^USDT_DECIMALS by less than one unit plus
    2^-53 times that product, and that has the sign of the amount. *)
Theorem X20_conversion_error s m e :
  valid_binary PyFloat.prec PyFloat.emax (S754_finite s m e) = true ->
  Zpos (digits2_pos m) = 53 ->
  (USDT_DECIMALS <= 22)%N ->
  let exact :=
    (PyFloat.to_Q (S754_finite s m e)
     * inject_Z (10 ^ Z.of_N USDT_DECIMALS))%Q in
  (Qabs exact < inject_Z (2 ^ 1023))%Q ->
  exists amount_wei,
    to_base_units (S754_finite s m e) = Val amount_wei
    /\ (Qabs (inject_Z amount_wei - exact)
        < 1 + Qabs exact / inject_Z (2 ^ 53))%Q
    /\ (if s then amount_wei <= 0 else 0 <= amount_wei).
Proof.
  intros Hvalid Hnormal Hd exact Hbound.
  assert (Hd' : 0 <= Z.of_N USDT_DECIMALS <= 22) by lia.
  destruct (of_int_pow10 _ Hd') as (M & eM & HofM & HdM & HeM & HM).
  destruct (valid_binary_cases s m e Hvalid) as [He971 [[_ Helo]|[Hsub _]]];
    [|lia].
  assert (H2 : ~ (2 == 0)%Q) by discriminate.
  pose proof (pow10_Q (Z.of_N USDT_DECIMALS) M eM ltac:(lia) ltac:(lia) HM)
    as HcQ.
  set (P := (m * M)%positive).
  pose proof (mul_digits m M Hnormal HdM) as HD. fold P in HD.
  set (n := Zpos (digits2_pos P) - 53).
  assert (Hn : n = 52 \/ n = 53) by (unfold n; lia).
  set (R := PyFloat.round_half_even_div (Zpos P) (2 ^ n)).
  set (e' := e + eM + n).
  assert (HN : 0 < 2 ^ n) by (apply Z.pow_pos_nonneg; lia).
  pose proof (digits2_bounds P) as [Blo _].
  replace (Zpos (digits2_pos P) - 1) with (52 + n) in Blo by (unfold n; lia).
  rewrite Z.pow_add_r in Blo by lia.
  pose proof (round_half_even_div_nearest (Zpos P) (2 ^ n) ltac:(lia) HN)
    as Hnear.
  fold R in Hnear. apply Z.abs_le in Hnear.
  assert (HR0 : 0 <= R).
  { unfold R. apply round_half_even_div_nonneg; lia. }
  (* the magnitude of the exact product *)
  set (t := (2 ^ (e + eM))%Q).
  assert (Ht : (0 < t)%Q) by apply pow2_Q_pos.
  set (v := (inject_Z (Zpos P) * t)%Q).
  assert (Hexact : (exact == if s then - v else v)%Q).
  { assert (Ets : (t == 2 ^ e * 2 ^ eM)%Q)
      by (unfold t; apply Qpower_plus; exact H2).
    unfold exact, v, P.
    destruct s; rewrite to_Q_pow2, HcQ, Pos2Z.inj_mul, inject_Z_mult, Ets;
      ring. }
  assert (HPQ : (inject_Z (2 ^ 52) * inject_Z (2 ^ n) <= inject_Z (Zpos P))%Q).
  { rewrite <- inject_Z_mult, <- Zle_Qle. exact Blo. }
  assert (HnQ : (0 < inject_Z (2 ^ n))%Q).
  { change 0%Q with (inject_Z 0). rewrite <- Zlt_Qlt. exact HN. }
  assert (Hv0 : (0 < v)%Q).
  { unfold v. apply Qmult_lt_0_compat; [reflexivity|exact Ht]. }
  assert (Habs : (Qabs exact == v)%Q).
  { rewrite Hexact. destruct s.
    - rewrite Qabs_opp. apply Qabs_pos. apply Qlt_le_weak. exact Hv0.
    - apply Qabs_pos. apply Qlt_le_weak. exact Hv0. }
  (* no overflow *)
  assert (He' : e' + 1 <= 971).
  { rewrite Habs in Hbound.
    assert (Hlt : (2 ^ (52 + e') < 2 ^ 1023)%Q).
    { apply Qle_lt_trans with v; [|rewrite <- (pow2_Q 1023) by lia; exact Hbound].
      assert (Esplit : (2 ^ (52 + e')
                        == inject_Z (2 ^ 52) * inject_Z (2 ^ n) * t)%Q).
      { unfold t, e'.
        replace (52 + (e + eM + n)) with (52 + (n + (e + eM))) by lia.
        rewrite (Qpower_plus 2 52), (Qpower_plus 2 n) by exact H2.
        rewrite (pow2_Q n) by lia. rewrite (pow2_Q 52) by lia. ring. }
      rewrite Esplit. unfold v.
      apply Qmult_le_compat_r; [exact HPQ|apply Qlt_le_weak; exact Ht]. }
    apply Qpower_lt_compat_l_inv in Hlt; [lia|reflexivity]. }
  unfold to_base_units, PyFloat.mul_int. rewrite HofM.
  rewrite to_int_mul_normal by (try assumption; fold P; fold n; fold e'; lia).
  fold P. fold n. fold R. fold e'. rewrite xorb_false_r.
  set (Nn := if 0 <=? e' then R * 2 ^ e' else R / 2 ^ (- e')).
  eexists. split; [reflexivity|].
  (* the product before truncation *)
  set (p := (inject_Z R * 2 ^ e')%Q).
  assert (Hp : (p == inject_Z R * inject_Z (2 ^ n) * t)%Q).
  { unfold p, t, e'. replace (e + eM + n) with (n + (e + eM)) by lia.
    rewrite Qpower_plus by exact H2. rewrite <- (pow2_Q n) by lia. ring. }
  assert (Hnear1 : (- inject_Z (2 ^ n)
                    <= 2 * (inject_Z R * inject_Z (2 ^ n) - inject_Z (Zpos P)))%Q).
  { change 2%Q with (inject_Z 2).
    rewrite <- inject_Z_mult, <- inject_Z_opp. unfold Qminus.
    rewrite <- inject_Z_opp, <- inject_Z_plus, <- inject_Z_mult, <- Zle_Qle.
    lia. }
  assert (Hnear2 : (2 * (inject_Z R * inject_Z (2 ^ n) - inject_Z (Zpos P))
                    <= inject_Z (2 ^ n))%Q).
  { change 2%Q with (inject_Z 2).
    rewrite <- inject_Z_mult. unfold Qminus.
    rewrite <- inject_Z_opp, <- inject_Z_plus, <- inject_Z_mult, <- Zle_Qle.
    lia. }
  assert (Htrunc : (inject_Z Nn <= p)%Q /\ (p < inject_Z Nn + 1)%Q).
  { unfold Nn, p. destruct (Z.leb_spec 0 e') as [Hpos|Hneg].
    - rewrite inject_Z_mult, pow2_Q by exact Hpos. split; lra.
    - assert (Hk : 0 < 2 ^ (- e')) by (apply Z.pow_pos_nonneg; lia).
      pose proof (Z.div_mod R (2 ^ (- e')) ltac:(lia)) as Edm.
      pose proof (Z.mod_pos_bound R (2 ^ (- e')) Hk) as Bm.
      set (q := R / 2 ^ (- e')) in *.
      assert (HkQ : (0 < inject_Z (2 ^ (- e')))%Q).
      { change 0%Q with (inject_Z 0). rewrite <- Zlt_Qlt. exact Hk. }
      assert (Epow : (2 ^ e' == / inject_Z (2 ^ (- e')))%Q).
      { rewrite pow2_Q by lia. rewrite Qpower_opp, Qinv_involutive.
        reflexivity. }
      rewrite Epow.
      assert (L1 : (inject_Z q * inject_Z (2 ^ (- e')) <= inject_Z R)%Q).
      { rewrite <- inject_Z_mult, <- Zle_Qle. lia. }
      assert (L2 : (inject_Z R < (inject_Z q + 1) * inject_Z (2 ^ (- e')))%Q).
      { change 1%Q with (inject_Z 1).
        rewrite <- inject_Z_plus, <- inject_Z_mult, <- Zlt_Qlt. lia. }
      split.
      + apply Qle_shift_div_l; [exact HkQ|exact L1].
      + apply Qlt_shift_div_r; [exact HkQ|exact L2]. }
  assert (HNn0 : 0 <= Nn).
  { unfold Nn. destruct (0 <=? e') eqn:E'.
    - apply Z.leb_le in E'.
      assert (0 < 2 ^ e') by (apply Z.pow_pos_nonneg; lia). nia.
    - apply Z.div_pos; [exact HR0|]. apply Z.pow_pos_nonneg; lia. }
  split.
  - rewrite Habs.
    assert (Hsigned : (Qabs (inject_Z (PyFloat.cond_neg s Nn) - exact)
                       == Qabs (inject_Z Nn - v))%Q).
    { rewrite Hexact. destruct s; cbn [PyFloat.cond_neg].
      - rewrite inject_Z_opp.
        setoid_replace (- inject_Z Nn - - v)%Q with (- (inject_Z Nn - v))%Q
          by ring.
        apply Qabs_opp.
      - reflexivity. }
    rewrite Hsigned. destruct Htrunc as [T1 T2].
    change (inject_Z (2 ^ 53)) with 9007199254740992%Q.
    change (inject_Z (2 ^ 52)) with 4503599627370496%Q in HPQ.
    assert (Hv : (v / 9007199254740992 == v * (1 # 9007199254740992))%Q)
      by reflexivity.
    rewrite Hv.
    assert (Hpv : (p - v == (inject_Z R * inject_Z (2 ^ n)
                             - inject_Z (Zpos P)) * t)%Q).
    { rewrite Hp. unfold v. ring. }
    apply Qabs_Qlt_condition.
    set (nn := inject_Z Nn) in *. set (rq := inject_Z R) in *.
    set (pq := inject_Z (Zpos P)) in *. set (n2 := inject_Z (2 ^ n)) in *.
    assert (Hv' : (v == pq * t)%Q) by reflexivity.
    clearbody nn rq pq n2 t p v. 
    assert (B1 : (- (n2 * t) <= 2 * (p - v))%Q).
    { rewrite Hpv.
      setoid_replace (2 * ((rq * n2 - pq) * t))%Q
        with ((2 * (rq * n2 - pq)) * t)%Q by ring.
      setoid_replace (- (n2 * t))%Q with ((- n2) * t)%Q by ring.
      apply Qmult_le_compat_r; [exact Hnear1|apply Qlt_le_weak; exact Ht]. }
    assert (B2 : (2 * (p - v) <= n2 * t)%Q).
    { rewrite Hpv.
      setoid_replace (2 * ((rq * n2 - pq) * t))%Q
        with ((2 * (rq * n2 - pq)) * t)%Q by ring.
      apply Qmult_le_compat_r; [exact Hnear2|apply Qlt_le_weak; exact Ht]. }
    assert (B3 : (4503599627370496 * (n2 * t) <= v)%Q).
    { rewrite Hv'.
      setoid_replace (4503599627370496 * (n2 * t))%Q
        with ((4503599627370496 * n2) * t)%Q by ring.
      apply Qmult_le_compat_r; [exact HPQ|apply Qlt_le_weak; exact Ht]. }
    set (u := (n2 * t)%Q) in *. clearbody u.
    clear - T1 T2 B1 B2 B3. split; lra.
  - destruct s; cbn [PyFloat.cond_neg]; lia.
Qed.

End ConversionError.

Section PassedChecks.
Context {client : ChainClient} {config : Config}.

(** X7.  A check that passes is covered up to the rounding of the
    division (for at most 300 decimals and an amount that is a binary64
    number).  In a run that goes on to query the balance, the allowance
    read, a, satisfies amount × 10^USDT_DECIMALS <= a × (1 + 2^-53); in a
    run that goes on to query the transaction count, so does the balance
    read. *)
Theorem X7_passed_checks_covered fuel from_wallet amount w o w' tr :
  valid_binary PyFloat.prec PyFloat.emax amount = true ->
  (USDT_DECIMALS <= 300)%N ->
  withdraw_usdt fuel from_wallet amount w = (o, w', tr) ->
  (forall co cs a co' r,
      In (EvAllowance co cs (Val a)) tr -> In (EvBalanceOf co' r) tr ->
      0 <= a ->
      (PyFloat.to_Q amount * inject_Z (10 ^ Z.of_N USDT_DECIMALS)
       <= inject_Z a * (1 + 1 / inject_Z (2 ^ 53)))%Q)
  /\ (forall co b addr r,
        In (EvBalanceOf co (Val b)) tr -> In (EvTransactionCount addr r) tr ->
        0 <= b ->
        (PyFloat.to_Q amount * inject_Z (10 ^ Z.of_N USDT_DECIMALS)
         <= inject_Z b * (1 + 1 / inject_Z (2 ^ 53)))%Q).
Proof.
  intros Hvalid Hd H. split.
  - wp_start H. wp_go_exact.
    all: trace_norm; intros co' cs' a' co'' r' Hin Hin2 Ha.
    all: in_cases Hin.
    all: try match goal with Hw : wait_for_transaction _ _ _ _ = _ |- _ =>
           apply (wait_no_broadcast _ _ _ _ _ _ _ Hw) in Hin; discriminate Hin
         end.
    all: inversion Hin; subst; clear Hin.
    all: try (in_cases Hin2; fail).
    all: match goal with
         | Hn : to_base_units _ = Val _ |- _ =>
             pose proof (to_base_units_finite _ _ Hn) as Hfin
         end.
    all: eapply quotient_covers; eassumption.
  - wp_start H. wp_go_exact.
    all: trace_norm; intros co' b' addr' r' Hin Hin2 Hb.
    all: in_cases Hin.
    all: try match goal with Hw : wait_for_transaction _ _ _ _ = _ |- _ =>
           apply (wait_no_broadcast _ _ _ _ _ _ _ Hw) in Hin; discriminate Hin
         end.
    all: inversion Hin; subst; clear Hin.
    all: try (in_cases Hin2; fail).
    all: match goal with
         | Hn : to_base_units _ = Val _ |- _ =>
             pose proof (to_base_units_finite _ _ Hn) as Hfin
         end.
    all: eapply quotient_covers; eassumption.
Qed.

End PassedChecks.


(** ** The poller *)

Section PollerShape.
Context {client : ChainClient}.

Lemma poll_shape fuel h st tmo : forall w o w' tr,
  poll fuel h st tmo w = (o, w', tr) ->
  exists es last,
    tr = (flat_map (pending_round h) es ++ last)%list
    /\ forallb is_TransactionNotFound es = true
    /\ poll_end h (time w' - st) tmo o last.
Proof.
  induction fuel as [|fuel IH]; intros w o w' tr H.
  - cbv [poll out_of_fuel] in H. inversion H; subst.
    exists [], []. repeat split; constructor.
  - cbn [poll] in H. cbv [bind time_time] in H.
    destruct (Qltb (time w - st) tmo) eqn:Ht.
    + cbv [try_except bind call ret] in H.
      destruct (eth_get_transaction_receipt h w) as [[r|e] w1].
      * inversion H; subst. exists [], [EvGetTransactionReceipt h (Val r)].
        repeat split; constructor.
      * destruct (is_TransactionNotFound e) eqn:He.
        -- cbv [time_sleep] in H.
           destruct (poll fuel h st tmo (sleep 2 w1)) as [[o2 w2] t2] eqn:Hp.
           apply IH in Hp. destruct Hp as (es & last & -> & Hes & Hend).
           exists (e :: es), last.
           destruct o2; inversion H; subst; cbn; rewrite He, Hes; auto.
        -- inversion H; subst.
           exists [], [EvGetTransactionReceipt h (Raise e)].
           repeat split; constructor; assumption.
    + cbv [ret] in H. inversion H; subst. exists [], [].
      repeat split. constructor. apply Qltb_false. exact Ht.
Qed.

(** X16.  The trace of the poller: rounds of a lookup answered with
    TransactionNotFound and a pause of 2 seconds, every lookup for the
    given hash, followed by one of the four ends of [poll_end]; the result
    is that end with an exception turned into None. *)
Theorem X16_poller_shape fuel h timeout w o w' tr :
  wait_for_transaction fuel h timeout w = (o, w', tr) ->
  exists es last o',
    tr = (flat_map (pending_round h) es ++ last)%list
    /\ forallb is_TransactionNotFound es = true
    /\ poll_end h (time w' - time w) timeout o' last
    /\ o = swallow o'.
Proof.
  unfold wait_for_transaction.
  cbv [try_except bind time_time except_Exception ret].
  destruct (poll fuel h (time w) timeout w) as [[o1 w1] t1] eqn:Hp.
  apply poll_shape in Hp. destruct Hp as (es & last & -> & Hes & Hend).
  intros H. exists es, last, o1.
  destruct o1; inversion H; subst; cbn; rewrite ?app_nil_r; auto.
Qed.

(** X17.  With a timeout that is not positive the poller returns None at
    once: no lookup, no pause, the world untouched. *)
Theorem X17_no_wait fuel h timeout w :
  (timeout <= 0)%Q ->
  wait_for_transaction (S fuel) h timeout w = (Returns None, w, []).
Proof.
  intros Ht. unfold wait_for_transaction.
  cbv [try_except bind time_time except_Exception ret]. cbn [poll].
  cbv [bind time_time ret].
  assert (E : Qltb (time w - time w) timeout = false).
  { unfold Qltb. apply negb_false_iff, Qle_bool_iff. lra. }
  rewrite E. reflexivity.
Qed.

Lemma lookups_app t1 t2 :
  lookups (t1 ++ t2) = (lookups t1 + lookups t2)%nat.
Proof. unfold lookups. rewrite filter_app, length_app. reflexivity. Qed.

(** Each lookup after the first comes at least two seconds later. *)
Lemma poll_lookups h st tmo :
  clock_advances ->
  forall fuel w o w' tr,
    poll fuel h st tmo w = (o, w', tr) ->
    lookups tr <> O ->
    (time w - st + 2 * inject_Z (Z.of_nat (lookups tr)) - 2 < tmo)%Q.
Proof.
  intros [Hlookup Hsleep]. induction fuel as [|fuel IH];
    intros w o w' tr H Hn.
  - cbv [poll out_of_fuel] in H. inversion H; subst. contradiction Hn.
    reflexivity.
  - cbn [poll] in H. cbv [bind time_time] in H.
    destruct (Qltb (time w - st) tmo) eqn:Ht.
    + apply Qltb_true in Ht.
      cbv [try_except bind call ret] in H.
      pose proof (Hlookup h w) as Hmono.
      destruct (eth_get_transaction_receipt h w) as [[r|e] w1].
      * inversion H; subst. unfold lookups.
        cbn [filter is_lookup List.length].
        change (inject_Z (Z.of_nat 1)) with 1%Q. lra.
      * destruct (is_TransactionNotFound e).
        -- cbv [time_sleep] in H. cbn [snd] in Hmono.
           pose proof (Hsleep 2%Q w1) as Hs.
           destruct (poll fuel h st tmo (sleep 2 w1)) as [[o2 w2] t2] eqn:Hp.
           assert (Etr : tr = EvGetTransactionReceipt h (Raise e)
                              :: EvSleep 2 :: t2).
           { destruct o2; inversion H; reflexivity. }
           subst tr.
           change (EvGetTransactionReceipt h (Raise e) :: EvSleep 2 :: t2)
             with ([EvGetTransactionReceipt h (Raise e); EvSleep 2] ++ t2)%list.
           rewrite lookups_app.
           change (lookups [EvGetTransactionReceipt h (Raise e); EvSleep 2])
             with 1%nat.
           destruct (Nat.eq_dec (lookups t2) 0) as [E0|E0].
           ++ rewrite E0. change (inject_Z (Z.of_nat (1 + 0))) with 1%Q. lra.
           ++ specialize (IH _ _ _ _ Hp E0).
              rewrite Nat2Z.inj_add, inject_Z_plus.
              change (inject_Z (Z.of_nat 1)) with 1%Q. lra.
        -- inversion H; subst. unfold lookups.
           cbn [filter is_lookup List.length].
           change (inject_Z (Z.of_nat 1)) with 1%Q. lra.
    + inversion H; subst. contradiction Hn. reflexivity.
Qed.

(** X18.  With a clock that advances, n lookups take more than 2 (n - 1)
    seconds of the timeout: 2 (n - 1) < timeout; so a timeout of at most
    120 seconds allows at most 60 lookups. *)
Theorem X18_lookups_bounded fuel h timeout w o w' tr :
  clock_advances ->
  wait_for_transaction fuel h timeout w = (o, w', tr) ->
  (lookups tr <> O ->
   (2 * inject_Z (Z.of_nat (lookups tr)) - 2 < timeout)%Q)
  /\ ((timeout <= 120)%Q -> (lookups tr <= 60)%nat).
Proof.
  intros Hclock H.
  assert (Hmain : lookups tr <> O ->
                  (2 * inject_Z (Z.of_nat (lookups tr)) - 2 < timeout)%Q).
  { revert H. unfold wait_for_transaction.
    cbv [try_except bind time_time except_Exception ret].
    destruct (poll fuel h (time w) timeout w) as [[o1 w1] t1] eqn:Hp.
    intros H Hn.
    assert (Etr : tr = t1).
    { destruct o1; inversion H; subst; rewrite ?app_nil_r; reflexivity. }
    subst t1.
    pose proof (poll_lookups h (time w) timeout Hclock _ _ _ _ _ Hp Hn). lra. }
  split; [exact Hmain|].
  intros Ht. destruct (Nat.eq_dec (lookups tr) 0) as [E0|E0]; [lia|].
  specialize (Hmain E0).
  assert (Hq : (inject_Z (Z.of_nat (lookups tr)) < inject_Z 61)%Q).
  { change (inject_Z 61) with 61%Q. lra. }
  rewrite <- Zlt_Qlt in Hq. lia.
Qed.

End PollerShape.

(** ** The constructor *)

Section ConstructorFacts.
Context {provider : Provider} {config : Config}.

(** X19.  The constructor.  It returns a manager only when the provider
    was built, the node answered the connection test with True, and the
    key and the contract address were accepted; the address of the
    manager is then the address of the account of PRIVATE_KEY.  When the
    connection test does not answer True the constructor raises after the
    test, without using the key: the ConnectionError of the source when
    the answer is False. *)
Theorem X19_init net r net' steps :
  init net = (r, net', steps) ->
  (forall m, r = Val m ->
     exists w3 account usdt_contract,
       Web3_HTTPProvider BSC_RPC = Val w3
       /\ is_connected w3 net = (Val true, net')
       /\ account_from_key w3 PRIVATE_KEY = Val account
       /\ eth_contract w3 USDT_ADDRESS ERC20_ABI = Val usdt_contract
       /\ m = mk_manager w3 account (account_address account) usdt_contract)
  /\ (forall w3,
        Web3_HTTPProvider BSC_RPC = Val w3 ->
        fst (is_connected w3 net) <> Val true ->
        (exists e, r = Raise e)
        /\ steps = [StepProvider BSC_RPC; StepIsConnected]
        /\ (fst (is_connected w3 net) = Val false ->
            r = Raise (mk_exn OtherException
                         "Failed to connect to BSC network"))).
Proof.
  unfold init. intros H.
  destruct (Web3_HTTPProvider BSC_RPC) as [w3|e0].
  - destruct (is_connected w3 net) as [[[|]|e1] net1] eqn:Hc.
    + destruct (account_from_key w3 PRIVATE_KEY) as [account|e2] eqn:Hk.
      * destruct (eth_contract w3 USDT_ADDRESS ERC20_ABI) as [c|e3] eqn:Hct;
          inversion H; subst; split.
        -- intros m E. inversion E; subst. exists w3, account, c.
           rewrite Hc. auto.
        -- intros w3' E Hn. inversion E; subst. rewrite Hc in Hn.
           contradiction Hn. reflexivity.
        -- intros m E. discriminate E.
        -- intros w3' E Hn. inversion E; subst. rewrite Hc in Hn.
           contradiction Hn. reflexivity.
      * inversion H; subst; split.
        -- intros m E. discriminate E.
        -- intros w3' E Hn. inversion E; subst. rewrite Hc in Hn.
           contradiction Hn. reflexivity.
    + inversion H; subst; split.
      * intros m E. discriminate E.
      * intros w3' E Hn. inversion E; subst. rewrite Hc.
        split; [eauto|split; [reflexivity|reflexivity]].
    + inversion H; subst; split.
      * intros m E. discriminate E.
      * intros w3' E Hn. inversion E; subst. rewrite Hc.
        split; [eauto|split; [reflexivity|]]. cbn. discriminate.
  - inversion H; subst; split.
    + intros m E. discriminate E.
    + intros w3' E. discriminate E.
Qed.

End ConstructorFacts.

(** ** Concrete runs of the further properties *)

(** X1 on an estimate of 50000. *)
Lemma X1_witness :
  @estimate_gas (scripted happy) bsc_config transfer_query w0
  = (Returns 60000, w0,
     [@EvEstimateGas (scripted happy) transfer_query (Val 50000)])
  /\ (50000 <= 60000)%Z.
Proof.
  destruct (@X1_estimate_gas_falls_back (scripted happy) bsc_config
              transfer_query w0 (Val 50000) w0 eq_refl) as (_ & _ & H).
  apply (H 50000 eq_refl). vm_compute. split; [discriminate|reflexivity].
Defined.

(** X2 on a chain whose balance cannot be read. *)
Lemma X2_witness :
  exists res,
    fst (fst (@get_usdt_balance (scripted no_balance_chain) bsc_config
                                "0xW" w0)) = Returns res.
Proof.
  destruct (@X2_get_usdt_balance_never_raises
              (scripted no_balance_chain) bsc_config "0xW" w0
              (fst (fst (@get_usdt_balance (scripted no_balance_chain)
                                           bsc_config "0xW" w0)))
              (snd (fst (@get_usdt_balance (scripted no_balance_chain)
                                           bsc_config "0xW" w0)))
              (snd (@get_usdt_balance (scripted no_balance_chain)
                                      bsc_config "0xW" w0)))
    as (H & _).
  - vm_compute. reflexivity.
  - exact H.
Defined.

(** X3 on a chain whose allowance cannot be read. *)
Lemma X3_witness :
  exists res,
    fst (fst (@get_allowance (scripted no_allowance_chain) bsc_config
                             "0xW" None w0)) = Returns res.
Proof.
  destruct (@X3_get_allowance_never_raises
              (scripted no_allowance_chain) bsc_config "0xW" None w0
              (fst (fst (@get_allowance (scripted no_allowance_chain)
                                        bsc_config "0xW" None w0)))
              (snd (fst (@get_allowance (scripted no_allowance_chain)
                                        bsc_config "0xW" None w0)))
              (snd (@get_allowance (scripted no_allowance_chain)
                                   bsc_config "0xW" None w0)))
    as (H & _).
  - vm_compute. reflexivity.
  - exact H.
Defined.

(** X4 on a balance of 1000 tokens of 18 decimals. *)
Lemma X4_witness :
  exists x,
    @get_usdt_balance (scripted happy) bsc_config "0xW" w0
    = (Returns (Some x), w0,
       [@EvBalanceOf (scripted happy) "0xW" (Val (1000 * 10 ^ 18))])
    /\ (PyFloat.to_Q x == inject_Z 1000)%Q.
Proof.
  destruct (@X4_balance_accuracy (scripted happy) bsc_config "0xW" w0 "0xW"
              (1000 * 10 ^ 18) w0)
    as (x & Hrun & _ & _ & _ & Hwhole).
  - vm_compute. discriminate.
  - reflexivity.
  - reflexivity.
  - vm_compute. split; [discriminate|reflexivity].
  - exists x. split; [exact Hrun|].
    apply (Hwhole 1000); [reflexivity|reflexivity].
Defined.

(** X5 on an allowance of 500 tokens of 18 decimals. *)
Lemma X5_witness :
  exists x,
    @get_allowance (scripted happy) bsc_config "0xW" None w0
    = (Returns (Some x), w0,
       [@EvAllowance (scripted happy) "0xW" "0xSpender"
                     (Val (500 * 10 ^ 18))])
    /\ (PyFloat.to_Q x == inject_Z 500)%Q.
Proof.
  destruct (@X5_allowance_accuracy (scripted happy) bsc_config "0xW" None w0
              "0xW" "0xSpender" (500 * 10 ^ 18) w0)
    as (x & Hrun & _ & _ & _ & Hwhole).
  - vm_compute. discriminate.
  - reflexivity.
  - reflexivity.
  - reflexivity.
  - vm_compute. split; [discriminate|reflexivity].
  - exists x. split; [exact Hrun|].
    apply (Hwhole 500); [reflexivity|reflexivity].
Defined.

(** X6 on an allowance of one base unit and a request of 1.0. *)
Lemma X6_witness :
  let run :=
    @withdraw_usdt (scripted dust_allowance_chain) bsc_config 61
                   "0xW" f1 w0 in
  exists co cs a,
    snd run = [@EvAllowance (scripted dust_allowance_chain) co cs (Val a)]
    /\ (0 <= a ->
        (inject_Z a < PyFloat.to_Q f1 * inject_Z (10 ^ 18))%Q).
Proof.
  cbv zeta.
  destruct (@X6_refusals_justified
              (scripted dust_allowance_chain) bsc_config 61 "0xW" f1 w0
              "Insufficient allowance. Available: 0.000000 USDT"
              (snd (fst (@withdraw_usdt (scripted dust_allowance_chain)
                                        bsc_config 61 "0xW" f1 w0)))
              (snd (@withdraw_usdt (scripted dust_allowance_chain)
                                   bsc_config 61 "0xW" f1 w0)))
    as (H & _).
  - reflexivity.
  - vm_compute. discriminate.
  - vm_compute. reflexivity.
  - apply H. reflexivity.
Defined.

(** X7 on the successful run: a balance of 1000 tokens covers 200.0. *)
Lemma X7_witness :
  (PyFloat.to_Q f200 * inject_Z (10 ^ 18)
   <= inject_Z (1000 * 10 ^ 18) * (1 + 1 / inject_Z (2 ^ 53)))%Q.
Proof.
  destruct (@X7_passed_checks_covered
              (scripted happy) bsc_config 61 "0xW" f200 w0
              (fst (fst (@withdraw_usdt (scripted happy) bsc_config 61
                                        "0xW" f200 w0)))
              (snd (fst (@withdraw_usdt (scripted happy) bsc_config 61
                                        "0xW" f200 w0)))
              (snd (@withdraw_usdt (scripted happy) bsc_config 61
                                   "0xW" f200 w0)))
    as (_ & H).
  - reflexivity.
  - vm_compute. discriminate.
  - vm_compute. reflexivity.
  - apply (H "0xW" (1000 * 10 ^ 18) "0xAgent" (Val 7)).
    + vm_compute. right. left. reflexivity.
    + vm_compute. do 2 right. left. reflexivity.
    + vm_compute. discriminate.
Defined.

(** X8 on a chain whose allowance call reverts. *)
Lemma X8_witness :
  let run :=
    @withdraw_usdt (scripted no_allowance_chain) bsc_config 61
                   "0xW" f200 w0 in
  fst (fst run) = Returns (false, "Failed to check allowance")
  /\ snd run
     = [@EvAllowance (scripted no_allowance_chain) "0xW" "0xSpender"
          (Raise (mk_exn ContractLogicError "execution reverted"))].
Proof.
  cbv zeta.
  destruct (@X8_read_failures
              (scripted no_allowance_chain) bsc_config 61 "0xW" f200 w0
              (fst (fst (@withdraw_usdt (scripted no_allowance_chain)
                                        bsc_config 61 "0xW" f200 w0)))
              (snd (fst (@withdraw_usdt (scripted no_allowance_chain)
                                        bsc_config 61 "0xW" f200 w0)))
              (snd (@withdraw_usdt (scripted no_allowance_chain)
                                   bsc_config 61 "0xW" f200 w0)))
    as (H & _).
  - vm_compute. reflexivity.
  - apply (H "0xW" "0xSpender"
             (mk_exn ContractLogicError "execution reverted")).
    vm_compute. left. reflexivity.
Defined.

(** X9 on the amount NaN. *)
Lemma X9_witness :
  @withdraw_usdt (scripted happy) bsc_config 61 "0xW" S754_nan w0
  = (Returns (false,
              "Transaction error: cannot convert float NaN to integer"),
     w0, []).
Proof.
  destruct (@X9_non_finite_amount
              (scripted happy) bsc_config 61 "0xW" S754_nan w0
              (fst (fst (@withdraw_usdt (scripted happy) bsc_config 61
                                        "0xW" S754_nan w0)))
              (snd (fst (@withdraw_usdt (scripted happy) bsc_config 61
                                        "0xW" S754_nan w0)))
              (snd (@withdraw_usdt (scripted happy) bsc_config 61
                                   "0xW" S754_nan w0)))
    as (Htr & Hw & _ & Hmsg).
  - vm_compute. reflexivity.
  - reflexivity.
  - vm_compute. reflexivity.
Defined.

(** X10 on the amount 0.0. *)
Lemma X10_witness :
  let run := @withdraw_usdt (scripted happy) bsc_config 61 "0xW" f0 w0 in
  exists r, In (@EvTransactionCount (scripted happy) "0xAgent" r) (snd run).
Proof.
  cbv zeta.
  destruct (@X10_no_positivity_check
              (scripted happy) bsc_config 61 "0xW" f0 w0
              (fst (fst (@withdraw_usdt (scripted happy) bsc_config 61
                                        "0xW" f0 w0)))
              (snd (fst (@withdraw_usdt (scripted happy) bsc_config 61
                                        "0xW" f0 w0)))
              (snd (@withdraw_usdt (scripted happy) bsc_config 61
                                   "0xW" f0 w0)))
    as (_ & H).
  - vm_compute. reflexivity.
  - reflexivity.
  - vm_compute. discriminate.
  - apply (H "0xW" (1000 * 10 ^ 18)).
    + vm_compute. right. left. reflexivity.
    + vm_compute. split; [discriminate|reflexivity].
Defined.

(** X11 on the successful run. *)
Lemma X11_witness :
  let run := @withdraw_usdt (scripted happy) bsc_config 61 "0xW" f200 w0 in
  broadcasts (snd run) = 1%nat
  /\ exists h r,
       last (snd run) (EvSleep 0)
       = @EvGetTransactionReceipt (scripted happy) h (Val r)
       /\ status r = 1.
Proof.
  cbv zeta.
  destruct (@X11_success_needs_receipt
              (scripted happy) bsc_config 61 "0xW" f200 w0
              ("✅ Successfully withdrawn 200.000000 USDT" ++ nl
                 ++ "🔗 Transaction: https://bscscan.com/tx/abc")
              (snd (fst (@withdraw_usdt (scripted happy) bsc_config 61
                                        "0xW" f200 w0)))
              (snd (@withdraw_usdt (scripted happy) bsc_config 61
                                   "0xW" f200 w0)))
    as (raw & h & r & pre & Htr & Hst & _ & Hb & _).
  - vm_compute. reflexivity.
  - split; [exact Hb|]. exists h, r. split; [|exact Hst].
    rewrite Htr. apply last_last.
Defined.

(** X12 on the successful run. *)
Lemma X12_witness :
  let run := @withdraw_usdt (scripted happy) bsc_config 61 "0xW" f200 w0 in
  exists source amount_wei,
    @to_checksum_address (scripted happy) "0xW" = Val source
    /\ @to_base_units bsc_config f200 = Val amount_wei
    /\ @usdt_transferFrom (scripted happy) source "0xAgent" amount_wei
       = Val ("0xW", "0xAgent", 200 * 10 ^ 18).
Proof.
  cbv zeta.
  destruct (@X12_transaction_content
              (scripted happy) bsc_config 61 "0xW" f200 w0
              (fst (fst (@withdraw_usdt (scripted happy) bsc_config 61
                                        "0xW" f200 w0)))
              (snd (fst (@withdraw_usdt (scripted happy) bsc_config 61
                                        "0xW" f200 w0)))
              (snd (@withdraw_usdt (scripted happy) bsc_config 61
                                   "0xW" f200 w0))
              ("0xW", "0xAgent", 200 * 10 ^ 18)
              (mk_tx_params "0xAgent" 7 60000 6000000000)
              (Val (mk_tx_params "0xAgent" 7 60000 6000000000)))
    as (source & amount_wei & nonce & data & r_gas & r_price
        & H1 & H2 & H3 & _).
  - vm_compute. reflexivity.
  - vm_compute. do 5 right. left. reflexivity.
  - exists source, amount_wei. split; [exact H1|split; [exact H2|exact H3]].
Defined.

(** X13 on the run whose broadcast is rejected. *)
Lemma X13_witness :
  let run :=
    @withdraw_usdt (scripted rejecting_chain) bsc_config 61 "0xW" f200 w0 in
  exists f p transaction signed_txn,
    In (@EvBuildTransaction (scripted rejecting_chain) f p (Val transaction))
       (snd run)
    /\ In (@EvSignTransaction (scripted rejecting_chain) transaction
             (Val signed_txn)) (snd run)
    /\ @account_sign_transaction (scripted rejecting_chain) transaction "key"
       = Val signed_txn
    /\ "signed" = @raw_transaction (scripted rejecting_chain) signed_txn.
Proof.
  cbv zeta.
  apply (@X13_signed_broadcast
           (scripted rejecting_chain) bsc_config 61 "0xW" f200 w0
           (fst (fst (@withdraw_usdt (scripted rejecting_chain) bsc_config
                                     61 "0xW" f200 w0)))
           (snd (fst (@withdraw_usdt (scripted rejecting_chain) bsc_config
                                     61 "0xW" f200 w0)))
           (snd (@withdraw_usdt (scripted rejecting_chain) bsc_config
                                61 "0xW" f200 w0))
           "signed" (Raise (mk_exn ValueError "nonce too low"))).
  - vm_compute. reflexivity.
  - vm_compute. do 7 right. left. reflexivity.
Defined.

(** X14 on the successful run. *)
Lemma X14_witness :
  let run := @withdraw_usdt (scripted happy) bsc_config 61 "0xW" f200 w0 in
  exists source,
    @to_checksum_address (scripted happy) "0xW" = Val source
    /\ @to_checksum_address (scripted happy) source = Val "0xW"
    /\ @to_checksum_address (scripted happy) "0xSpender" = Val "0xSpender".
Proof.
  cbv zeta.
  destruct (@X14_query_addresses
              (scripted happy) bsc_config 61 "0xW" f200 w0
              (fst (fst (@withdraw_usdt (scripted happy) bsc_config 61
                                        "0xW" f200 w0)))
              (snd (fst (@withdraw_usdt (scripted happy) bsc_config 61
                                        "0xW" f200 w0)))
              (snd (@withdraw_usdt (scripted happy) bsc_config 61
                                   "0xW" f200 w0)))
    as (H & _).
  - vm_compute. reflexivity.
  - apply (H "0xW" "0xSpender" (Val (500 * 10 ^ 18))).
    vm_compute. left. reflexivity.
Defined.

(** X15 on the run whose receipt shows a revert. *)
Lemma X15_witness :
  let run :=
    @withdraw_usdt (scripted revert_chain) bsc_config 61 "0xW" f200 w0 in
  exists n polls,
    map step_index (snd run) = (seq 0 n ++ repeat 8%nat polls)%list
    /\ (n <= 8)%nat /\ (polls <> O -> n = 8%nat).
Proof.
  cbv zeta.
  apply (@X15_call_order
           (scripted revert_chain) bsc_config 61 "0xW" f200 w0
           (fst (fst (@withdraw_usdt (scripted revert_chain) bsc_config
                                     61 "0xW" f200 w0)))
           (snd (fst (@withdraw_usdt (scripted revert_chain) bsc_config
                                     61 "0xW" f200 w0)))).
  vm_compute. reflexivity.
Defined.

(** X16 on a lookup that breaks down at the second round. *)
Lemma X16_witness :
  let run :=
    @wait_for_transaction (scripted broken_chain) 61 "abc" 120%Q w0 in
  exists es last o',
    snd run
    = (flat_map (@pending_round (scripted broken_chain) "abc") es
         ++ last)%list
    /\ forallb is_TransactionNotFound es = true
    /\ @poll_end (scripted broken_chain) "abc"
         (@time (scripted broken_chain) (snd (fst run))
          - @time (scripted broken_chain) w0) 120%Q o' last
    /\ fst (fst run) = swallow o'.
Proof.
  cbv zeta.
  apply (@X16_poller_shape (scripted broken_chain) 61 "abc" 120%Q w0).
  vm_compute. reflexivity.
Defined.

(** X17 on a timeout of 0 seconds. *)
Lemma X17_witness :
  @wait_for_transaction (scripted happy) 1 "abc" 0%Q w0
  = (Returns None, w0, []).
Proof.
  apply (@X17_no_wait (scripted happy) 0 "abc" 0%Q w0). apply Qle_refl.
Defined.

(** X18 on a receipt that never comes. *)
Lemma X18_witness :
  let run :=
    @wait_for_transaction (scripted timeout_chain) 61 "abc" 120%Q w0 in
  (lookups (snd run) <= 60)%nat.
Proof.
  cbv zeta.
  destruct (@X18_lookups_bounded
              (scripted timeout_chain) 61 "abc" 120%Q w0
              (fst (fst (@wait_for_transaction (scripted timeout_chain) 61
                                               "abc" 120%Q w0)))
              (snd (fst (@wait_for_transaction (scripted timeout_chain) 61
                                               "abc" 120%Q w0)))
              (snd (@wait_for_transaction (scripted timeout_chain) 61
                                          "abc" 120%Q w0)))
    as (_ & H).
  - apply scripted_clock.
  - vm_compute. reflexivity.
  - apply H. apply Qle_refl.
Defined.

(** X19 on a node that is not connected. *)
Lemma X19_witness :
  @init (scripted_provider (Val false)) bsc_config O
  = (Raise (mk_exn OtherException "Failed to connect to BSC network"),
     1%nat,
     [@StepProvider "https://bsc-dataseed.binance.org/"; StepIsConnected]).
Proof.
  destruct (@X19_init (scripted_provider (Val false)) bsc_config O
              (fst (fst (@init (scripted_provider (Val false)) bsc_config O)))
              (snd (fst (@init (scripted_provider (Val false)) bsc_config O)))
              (snd (@init (scripted_provider (Val false)) bsc_config O)))
    as (_ & H).
  - reflexivity.
  - destruct (H "https://bsc-dataseed.binance.org/" eq_refl)
      as (_ & Hsteps & Hr).
    + discriminate.
    + reflexivity.
Defined.

(** X20 on the amount 2363.0 with 18 decimals, where the conversion is
    off by 262144 base units. *)
Lemma X20_witness :
  exists amount_wei,
    @to_base_units bsc_config f2363 = Val amount_wei
    /\ (Qabs (inject_Z amount_wei - PyFloat.to_Q f2363 * inject_Z (10 ^ 18))
        < 1 + Qabs (PyFloat.to_Q f2363 * inject_Z (10 ^ 18))
              / inject_Z (2 ^ 53))%Q.
Proof.
  destruct (@X20_conversion_error bsc_config false 5196291952869376 (-41))
    as (amount_wei & Hrun & Hnear & _).
  - reflexivity.
  - reflexivity.
  - vm_compute. discriminate.
  - vm_compute. reflexivity.
  - exists amount_wei. split; [exact Hrun|exact Hnear].
Defined.
